(** * PNodes gossip analytics: a shallow embedding of the scoring,
      failure-detection, snapshot-history and time-travel code.

    Sources embedded here:
    - module [health]     : [clamp01], [computeNodeHealth], [computeReputation]
    - module [partitions] : [getRegionKey], [analyzeFailures]
    - module [hooks]      : the snapshot append of [usePNodeData]
    - component [App]     : the time-travel memo

    Numbers.  A JavaScript [number] is modelled by [num]: NaN, the two
    infinities, or a finite value held as an exact rational.  The sign of
    zero and the rounding of binary64 arithmetic are not modelled.  The
    ratio of two roster counts compared against a decimal threshold comes
    out the same in binary64; a weighted sum can differ from its binary64
    value by a rounding error, which the model does not track.

    Time.  [Date.now()] is an explicit argument.  A node's [lastSeen]
    (a string or a number in the source) is only ever read through
    [new Date(lastSeen)]; the record keeps the epoch-millisecond value that
    [getTime()] yields, with [None] for an Invalid Date (NaN). *)

From Stdlib Require Import QArith Qround ZArith Lia Lqa Sorted.
From stdpp Require Import gmap strings list fin_maps pretty.

(** stdpp's [naive_solver] clears hypotheses by name and reports each miss *)
Set Warnings "-clear-no-such-hyp".

Local Open Scope Q_scope.

(* ===================================================================== *)
(** ** JavaScript numbers                                                 *)
(* ===================================================================== *)

Module JsNum.

Inductive num : Type :=
| NaN
| NInf
| PInf
| Fin (q : Q).

Definition Qltb (a b : Q) : bool := negb (Qle_bool b a).

Definition isNaN (x : num) : bool :=
  match x with NaN => true | _ => false end.

Definition nneg (x : num) : num :=
  match x with
  | NaN => NaN
  | NInf => PInf
  | PInf => NInf
  | Fin q => Fin (- q)
  end.

Definition nadd (x y : num) : num :=
  match x, y with
  | NaN, _ | _, NaN => NaN
  | PInf, NInf | NInf, PInf => NaN
  | PInf, _ | _, PInf => PInf
  | NInf, _ | _, NInf => NInf
  | Fin a, Fin b => Fin (a + b)
  end.

Definition nsub (x y : num) : num := nadd x (nneg y).

(** the infinity carrying the sign of [c], NaN when [c] is zero *)
Definition signedInf (c : comparison) : num :=
  match c with Gt => PInf | Lt => NInf | Eq => NaN end.

Definition nmul (x y : num) : num :=
  match x, y with
  | NaN, _ | _, NaN => NaN
  | PInf, PInf | NInf, NInf => PInf
  | PInf, NInf | NInf, PInf => NInf
  | PInf, Fin b | Fin b, PInf => signedInf (b ?= 0)
  | NInf, Fin b | Fin b, NInf => signedInf (0 ?= b)
  | Fin a, Fin b => Fin (a * b)
  end.

(** [x / y]; a zero divisor is taken as [+0] *)
Definition ndiv (x y : num) : num :=
  match x, y with
  | NaN, _ | _, NaN => NaN
  | (PInf | NInf), (PInf | NInf) => NaN
  | PInf, Fin b => if Qltb b 0 then NInf else PInf
  | NInf, Fin b => if Qltb b 0 then PInf else NInf
  | Fin _, (PInf | NInf) => Fin 0
  | Fin a, Fin b =>
      if Qeq_bool b 0 then signedInf (a ?= 0) else Fin (a / b)
  end.

(** [x < y]; any comparison with NaN is false *)
Definition nlt (x y : num) : bool :=
  match x, y with
  | NaN, _ | _, NaN => false
  | _, NInf => false
  | NInf, _ => true
  | PInf, _ => false
  | Fin _, PInf => true
  | Fin a, Fin b => Qltb a b
  end.

Definition ngt (x y : num) : bool := nlt y x.

(** [x <= y] *)
Definition nle (x y : num) : bool :=
  match x, y with
  | NaN, _ | _, NaN => false
  | NInf, _ => true
  | _, PInf => true
  | _, NInf => false
  | PInf, _ => false
  | Fin a, Fin b => Qle_bool a b
  end.

Definition nge (x y : num) : bool := nle y x.

(** [Math.max(x, y)] and [Math.min(x, y)] *)
Definition nmax (x y : num) : num :=
  if isNaN x || isNaN y then NaN else if nlt x y then y else x.

Definition nmin (x y : num) : num :=
  if isNaN x || isNaN y then NaN else if nlt y x then y else x.

(** a number in a boolean position: [0] and NaN are falsy *)
Definition truthy (x : num) : bool :=
  match x with
  | NaN => false
  | Fin q => negb (Qeq_bool q 0)
  | _ => true
  end.

(** [x || d] on numbers *)
Definition orDefault (x d : num) : num := if truthy x then x else d.

(** [Math.round(x)]: the nearest integer, ties towards +infinity *)
Definition round (x : num) : num :=
  match x with
  | Fin q => Fin (inject_Z (Qfloor (q + (1 # 2))))
  | other => other
  end.

(** [String(x)] for the integral values [round] produces *)
Definition toString (x : num) : string :=
  match x with
  | NaN => "NaN"
  | PInf => "Infinity"
  | NInf => "-Infinity"
  | Fin q => pretty (Qfloor q)
  end.

(** the finite values of the closed unit interval *)
Definition unit_interval (x : num) : Prop :=
  exists q, x = Fin q /\ 0 <= q <= 1.

(** [x] is the finite number [r], up to the representation of [r] *)
Definition is_value (x : num) (r : Q) : Prop :=
  exists q, x = Fin q /\ q == r.

End JsNum.
Export JsNum.

Coercion Fin : Q >-> num.

Declare Scope num_scope.
Delimit Scope num_scope with num.
Bind Scope num_scope with num.
Infix "+" := nadd : num_scope.
Infix "-" := nsub : num_scope.
Infix "*" := nmul : num_scope.
Infix "/" := ndiv : num_scope.
Infix "<?" := nlt : num_scope.
Infix ">?" := ngt : num_scope.
Infix "<=?" := nle : num_scope.
Infix ">=?" := nge : num_scope.

(** [a ?? b] on an optional field *)
Definition nullish {A} (a : option A) (b : option A) : option A :=
  match a with Some v => Some v | None => b end.
Infix "??" := nullish (at level 61, left associativity).

(* ===================================================================== *)
(** ** Data model ([types.ts])                                            *)
(* ===================================================================== *)

Inductive PNodeStatus : Type := online | unknown | offline.

Global Instance PNodeStatus_eq_dec : EqDecision PNodeStatus.
Proof. solve_decision. Defined.

(** A roster entry.  The seven fields of the [PNode] interface, followed by
    the optional telemetry keys that the analytics code reads through
    [(node as any).key]; [None] is an absent ([undefined] or [null]) key. *)
Record PNode : Type := mkPNode {
  pnodeId : string;
  latitude : num;
  longitude : num;
  status : PNodeStatus;
  storageUsed : num;
  version : string;
  lastSeen : option Z;
  peers_seen : option num;
  peersSeen : option num;
  peer_diversity : option num;
  peerDiversity : option num;
  response_latency : option num;
  responseLatency : option num;
  uptime : option num;
  uptime_ratio : option num;
  uptimeRatio : option num;
  data_availability : option num;
  dataAvailability : option num;
  dataAvailabilityRatio : option num;
  version_freshness : option num
}.

(** A node carrying the mandatory fields only. *)
Definition bareNode (id : string) (lat lon : num) (st : PNodeStatus)
    (seen : option Z) : PNode :=
  mkPNode id lat lon st (Fin 0) "" seen
    None None None None None None None None None None None None None.

(* ===================================================================== *)
(** ** Health and reputation ([health.ts])                                *)
(* ===================================================================== *)

Inductive HealthTier : Type := good | warning | bad.
Inductive ReputationTier : Type := gold | silver | risky.

Record HealthDetails : Type := mkHealth {
  score : num;
  tier : HealthTier;
  reasons : list string
}.

Record ReputationDetails : Type := mkReputation {
  rep_score : num;
  rep_tier : ReputationTier
}.

Definition clamp01 (x : num) : num :=
  if isNaN x then Fin 0 else nmax (Fin 0) (nmin (Fin 1) x).

(** [reasons.push(r)] when [c] holds *)
Definition pushIf (c : bool) (r : string) (reasons : list string) : list string :=
  if c then reasons ++ [r] else reasons.

Definition isGood (t : HealthTier) : bool :=
  match t with good => true | _ => false end.

Section Health.

(** [Math.log10] is a platform primitive; the scorer is stated for any
    function in its place. *)
Variable log10 : num -> num.

Local Open Scope num_scope.

(** the latency sub-score shared by both scorers, with the flag
    [ms > 350] the health scorer reports *)
Definition latencyOf (responseLatency : option num) : num * bool :=
  match responseLatency with
  | None => (Fin 0.7, false)
  | Some ms =>
      if isNaN ms then (Fin 0.7, false)
      else (clamp01 (Fin 1 - (ms - Fin 50) / Fin 450), ms >? Fin 350)
  end.

(** the freshness sub-score, with the flag [ageSec > horizon] *)
Definition freshnessOf (now : Z) (seen : option Z) : num * bool :=
  match seen with
  | None => (Fin 0.5, false)
  | Some lastSeenMs =>
      let ageSec := Fin (inject_Z (now - lastSeenMs)) / Fin 1000 in
      let horizon := Fin 600 in
      (clamp01 (Fin 1 - ageSec / horizon), ageSec >? horizon)
  end.

(** the diversity sub-score: [clamp01(peerDiversity || 0.5)] *)
Definition diversityScoreOf (peerDiversity : num) : num :=
  clamp01 (orDefault peerDiversity (Fin 0.5)).

Definition statusBase (s : PNodeStatus) : num :=
  match s with
  | online => Fin 0.9
  | unknown => Fin 0.6
  | offline => Fin 0.2
  end.

Definition tierOf (score : num) : HealthTier :=
  if score <? Fin 0.4 then bad
  else if score <? Fin 0.7 then warning
  else good.

Definition computeNodeHealth (now : Z) (node : PNode) : HealthDetails :=
  let reasons : list string := [] in
  let peersSeen := default (Fin 0) (peers_seen node ?? peersSeen node) in
  let peerDiversity :=
    default (Fin 0) (peer_diversity node ?? peerDiversity node) in
  let responseLatency := response_latency node ?? responseLatency node in
  let uptime := uptime node ?? uptime_ratio node ?? uptimeRatio node in
  let dataAvailability :=
    data_availability node ?? dataAvailability node
      ?? dataAvailabilityRatio node in
  let peersScore := clamp01 (log10 (Fin 1 + peersSeen) / Fin 2) in
  let reasons := pushIf (peersSeen <? Fin 3) "Low peer count in gossip" reasons in
  let diversityScore := diversityScoreOf peerDiversity in
  let reasons :=
    pushIf (diversityScore <? Fin 0.4)
      "Peers lack geographic / ASN diversity" reasons in
  let '(latencyScore, slow) := latencyOf responseLatency in
  let reasons := pushIf slow "High gossip response latency" reasons in
  let uptimeScore := clamp01 (default (Fin 0.8) uptime) in
  let reasons :=
    pushIf (uptimeScore <? Fin 0.8) "Uptime below target SLA" reasons in
  let dataScore := clamp01 (default (Fin 0.9) dataAvailability) in
  let reasons :=
    pushIf (dataScore <? Fin 0.8)
      "Data availability below network baseline" reasons in
  let '(freshnessScore, stale) := freshnessOf now (lastSeen node) in
  let reasons := pushIf stale "Not seen in recent gossip window" reasons in
  let score :=
    clamp01
      (statusBase (status node) * Fin 0.25
       + peersScore * Fin 0.15
       + diversityScore * Fin 0.15
       + latencyScore * Fin 0.15
       + uptimeScore * Fin 0.15
       + dataScore * Fin 0.1
       + freshnessScore * Fin 0.05) in
  let tier := tierOf score in
  let reasons :=
    pushIf (Nat.eqb (length reasons) 0 && isGood tier)
      "Healthy gossip connectivity and recent activity" reasons in
  mkHealth score tier reasons.

Definition computeReputation (node : PNode) (health : HealthDetails)
    : ReputationDetails :=
  let uptime := uptime node ?? uptime_ratio node ?? uptimeRatio node in
  let dataAvailability :=
    data_availability node ?? dataAvailability node
      ?? dataAvailabilityRatio node in
  let responseLatency := response_latency node ?? responseLatency node in
  let versionFreshness := default (Fin 0.7) (version_freshness node) in
  let uptimeScore := clamp01 (default (Fin 0.8) uptime) in
  let storageScore := clamp01 (default (Fin 0.9) dataAvailability) in
  let latencyScore := fst (latencyOf responseLatency) in
  let freshnessScore := clamp01 versionFreshness in
  let raw :=
    clamp01
      (uptimeScore * Fin 0.35
       + storageScore * Fin 0.35
       + latencyScore * Fin 0.12
       + freshnessScore * Fin 0.12
       + score health * Fin 0.06) in
  let tier :=
    if raw >=? Fin 0.8 then gold
    else if raw <? Fin 0.5 then risky
    else silver in
  mkReputation raw tier.

End Health.

(* ===================================================================== *)
(** ** Failure and partition detection ([partitions.ts])                  *)
(* ===================================================================== *)

Inductive NodeAnomaly : Type := sudden_drop | isolated | black_hole.

Global Instance NodeAnomaly_eq_dec : EqDecision NodeAnomaly.
Proof. solve_decision. Defined.

(** [hooks.ts]: [synthetic] is an optional key, absent on a real snapshot *)
Record PNodeSnapshot : Type := mkSnapshot {
  timestamp : num;
  nodes : list PNode;
  synthetic : option bool
}.

Record FailureAnalysis : Type := mkFailureAnalysis {
  anomaliesById : gmap string (list NodeAnomaly);
  partitionSuspected : bool;
  partitionReason : option string
}.

(** A JavaScript [Map] whose iteration order is observed: bindings in
    insertion order, [set] on a present key keeps its position. *)
Module OMap.

Abbreviation t V := (list (string * V)).

Fixpoint get {V} (k : string) (m : t V) : option V :=
  match m with
  | [] => None
  | (k', v) :: m' => if String.eqb k k' then Some v else get k m'
  end.

Fixpoint set {V} (k : string) (v : V) (m : t V) : t V :=
  match m with
  | [] => [(k, v)]
  | (k', v') :: m' =>
      if String.eqb k k' then (k, v) :: m' else (k', v') :: set k v m'
  end.

End OMap.

(** [arr.join(sep)] *)
Fixpoint join (sep : string) (l : list string) : string :=
  match l with
  | [] => ""
  | [x] => x
  | x :: rest => x +:+ sep +:+ join sep rest
  end.

Definition ofNat (n : nat) : num := Fin (inject_Z (Z.of_nat n)).

Definition isOffline (n : PNode) : bool := bool_decide (status n = offline).
Definition isOnline (n : PNode) : bool := bool_decide (status n = online).

Definition getRegionKey (node : PNode) : string :=
  let latBucket := (round (latitude node / Fin 10) * Fin 10)%num in
  let lonBucket := (round (longitude node / Fin 10) * Fin 10)%num in
  toString latBucket +:+ ":" +:+ toString lonBucket.

(** [arr[arr.length - k]], [undefined] when the index is negative *)
Definition fromEnd {A} (k : nat) (l : list A) : option A :=
  if (length l <? k)%nat then None else l !! (length l - k)%nat.

(** [new Map(nodes.map((n) => [n.pnodeId, n]))]: a later entry replaces an
    earlier one with the same id *)
Definition indexById (ns : list PNode) : gmap string PNode :=
  foldl (fun m n => <[pnodeId n := n]> m) ∅ ns.

(** [list = m.get(id) ?? []; list.push(a); m.set(id, list)] *)
Definition pushTag (a : NodeAnomaly) (id : string)
    (m : gmap string (list NodeAnomaly)) : gmap string (list NodeAnomaly) :=
  <[id := default [] (m !! id) ++ [a]]> m.

(** the same, guarded by [!list.includes(a)] *)
Definition pushTagOnce (a : NodeAnomaly) (id : string)
    (m : gmap string (list NodeAnomaly)) : gmap string (list NodeAnomaly) :=
  if bool_decide (a ∈ default [] (m !! id)) then m else pushTag a id m.

Definition suddenDropStep (currentById : gmap string PNode)
    (m : gmap string (list NodeAnomaly)) (prev : PNode)
    : gmap string (list NodeAnomaly) :=
  let now := currentById !! pnodeId prev in
  let wasOnline := isOnline prev in
  let isNowMissing := bool_decide (now = None) in
  let isNowOffline :=
    match now with Some n => isOffline n | None => false end in
  if wasOnline && (isNowMissing || isNowOffline)
  then pushTag sudden_drop (pnodeId prev) m
  else m.

Record RegionTally : Type := mkTally { total : nat; offlineIn : nat }.

Definition tallyStep (regionTotals : OMap.t RegionTally) (n : PNode)
    : OMap.t RegionTally :=
  let key := getRegionKey n in
  let stats := default (mkTally 0 0) (OMap.get key regionTotals) in
  let stats := mkTally (total stats + 1) (offlineIn stats) in
  let stats :=
    if isOffline n then mkTally (total stats) (offlineIn stats + 1)
    else stats in
  OMap.set key stats regionTotals.

Definition regionTotalsOf (currentNodes : list PNode) : OMap.t RegionTally :=
  foldl tallyStep [] currentNodes.

Definition isIsolatedTally (v : RegionTally) : bool :=
  (ofNat (total v) >=? Fin 5)%num
  && (ofNat (offlineIn v) / ofNat (total v) >=? Fin 0.6)%num.

Definition isolatedRegionsOf (currentNodes : list PNode) : list string :=
  (filter (fun kv => isIsolatedTally kv.2) (regionTotalsOf currentNodes)).*1.

Definition isolateStep (isolatedRegions : list string)
    (m : gmap string (list NodeAnomaly)) (n : PNode)
    : gmap string (list NodeAnomaly) :=
  if bool_decide (getRegionKey n ∈ isolatedRegions)
  then pushTagOnce isolated (pnodeId n) m
  else m.

(** [ageMs]: an unparseable [lastSeen] ages the node by [Infinity] *)
Definition ageMs (now : Z) (n : PNode) : num :=
  match lastSeen n with
  | None => PInf
  | Some ts => Fin (inject_Z (now - ts))
  end.

Definition TEN_MIN : num := Fin (inject_Z (10 * 60 * 1000)).

Definition isBlackHole (now : Z) (n : PNode) : bool :=
  let peersSeen := default (Fin 0) (peers_seen n ?? peersSeen n) in
  let dataAvailability :=
    default (Fin 1)
      (data_availability n ?? dataAvailability n ?? dataAvailabilityRatio n) in
  let tooOld := (ageMs now n >? TEN_MIN)%num in
  let tooFewPeers := (peersSeen <? Fin 2)%num in
  let poorAvailability := (dataAvailability <? Fin 0.5)%num in
  tooOld || tooFewPeers || poorAvailability.

(** The black-hole pass reads the clock once per roster entry;
    [clock i] is the reading taken while entry [i] is examined. *)
Fixpoint blackHolePass (clock : nat -> Z) (i : nat) (ns : list PNode)
    (m : gmap string (list NodeAnomaly)) : gmap string (list NodeAnomaly) :=
  match ns with
  | [] => m
  | n :: rest =>
      blackHolePass clock (S i) rest
        (if isBlackHole (clock i) n
         then pushTagOnce black_hole (pnodeId n) m else m)
  end.

(** the three tagging passes, in source order ([prevById] is built by the
    source and never read, so it is left out) *)
Definition tagNodes (clock : nat -> Z) (snapshots : list PNodeSnapshot)
    (currentNodes : list PNode) : gmap string (list NodeAnomaly) :=
  let latestSnap := fromEnd 1 snapshots in
  let prevSnap := fromEnd 2 snapshots in
  let currentById := indexById currentNodes in
  let m : gmap string (list NodeAnomaly) := ∅ in
  let m :=
    match prevSnap, latestSnap with
    | Some prev, Some _ => foldl (suddenDropStep currentById) m (nodes prev)
    | _, _ => m
    end in
  let isolatedRegions := isolatedRegionsOf currentNodes in
  let m :=
    if bool_decide (isolatedRegions = []) then m
    else foldl (isolateStep isolatedRegions) m currentNodes in
  blackHolePass clock 0 currentNodes m.

(** a string in a boolean position *)
Definition falsyReason (r : option string) : bool :=
  match r with None => true | Some s => bool_decide (s = "") end.

(** rules 1 to 3 of the verdict, before the probable-cause hints *)
Definition partitionRules (anomalies : gmap string (list NodeAnomaly))
    (currentNodes : list PNode) : bool * option string :=
  let isolatedRegions := isolatedRegionsOf currentNodes in
  let offlineCount := length (filter (fun n => isOffline n = true) currentNodes) in
  let onlineCount := length (filter (fun n => isOnline n = true) currentNodes) in
  let total := length currentNodes in
  let manySuddenDrops :=
    length (filter (fun arr => sudden_drop ∈ arr) (map_to_list anomalies).*2) in
  if negb (bool_decide (isolatedRegions = [])) then
    (true, Some ("Region outage or isolation in " +:+ join ", " isolatedRegions))
  else if (0 <? manySuddenDrops)%nat
          && (ofNat manySuddenDrops / ofNat total >? Fin 0.2)%num then
    (true, Some "Large set of peers dropped from gossip abruptly")
  else if (onlineCount <? offlineCount)%nat then
    (true, Some "Majority of pNodes appear offline or unreachable")
  else (false, None).

(** [entries.sort((a, b) => b[1] - a[1])]: descending by count, stable *)
Fixpoint insertDesc (e : string * nat) (l : list (string * nat))
    : list (string * nat) :=
  match l with
  | [] => [e]
  | x :: l' => if (x.2 <=? e.2)%nat then e :: l else x :: insertDesc e l'
  end.

Definition sortDesc (l : list (string * nat)) : list (string * nat) :=
  foldr insertDesc [] l.

Definition versionTally (currentNodes : list PNode) : OMap.t nat :=
  foldl
    (fun versions n =>
       let v := if bool_decide (version n = "") then "unknown" else version n in
       OMap.set v (default 0%nat (OMap.get v versions) + 1)%nat versions)
    [] currentNodes.

(** the probable-cause hint computed when a verdict has no reason text *)
Definition probableCause (currentNodes : list PNode) : string :=
  let total := length currentNodes in
  match head (sortDesc (versionTally currentNodes)) with
  | Some dominant =>
      if negb (bool_decide (dominant.1 = "unknown"))
         && (ofNat dominant.2 / ofNat total >? Fin 0.5)%num
      then "Version skew risk: most nodes report version " +:+ dominant.1
      else "Latency spike or upstream network instability suspected"
  | None => "Latency spike or upstream network instability suspected"
  end.

Definition analyzeFailures (clock : nat -> Z) (snapshots : list PNodeSnapshot)
    (currentNodes : list PNode) : FailureAnalysis :=
  if bool_decide (currentNodes = []) then mkFailureAnalysis ∅ false None
  else
    let anomalies := tagNodes clock snapshots currentNodes in
    let '(partitionSuspected, partitionReason) :=
      partitionRules anomalies currentNodes in
    let partitionReason :=
      if partitionSuspected && falsyReason partitionReason
      then Some (probableCause currentNodes)
      else partitionReason in
    mkFailureAnalysis anomalies partitionSuspected partitionReason.

(** does [id] carry [tag] in an anomaly map *)
Definition carries (m : gmap string (list NodeAnomaly)) (id : string)
    (tag : NodeAnomaly) : Prop :=
  tag ∈ default [] (m !! id).

(** the roster entries of one region bucket *)
Definition bucket (key : string) (roster : list PNode) : list PNode :=
  filter (fun n => getRegionKey n = key) roster.

(** a roster as an observer of it sees one node: some entry with that id
    and status; absence is the lack of any entry with the id *)
Definition hasStatus (roster : list PNode) (id : string) (s : PNodeStatus) : Prop :=
  exists n, n ∈ roster /\ pnodeId n = id /\ status n = s.

Definition absent (roster : list PNode) (id : string) : Prop :=
  forall n, n ∈ roster -> pnodeId n <> id.

(** node identity: no two roster entries share an id *)
Definition uniqueIds (roster : list PNode) : Prop :=
  NoDup (pnodeId <$> roster).

(* ===================================================================== *)
(** ** Snapshot history ([hooks.ts], [usePNodeData])                      *)
(* ===================================================================== *)

(** [arr.slice(-n)]: the last [n] elements, the whole array if shorter *)
Definition sliceLast {A} (n : nat) (l : list A) : list A :=
  drop (length l - n) l.

Definition HISTORY_CAPACITY : nat := 500.

(** the updater passed to [setSnapshots] *)
Definition appendSnapshot (now : Z) (data : list PNode)
    (prev : list PNodeSnapshot) : list PNodeSnapshot :=
  let next := prev ++ [mkSnapshot (Fin (inject_Z now)) data None] in
  sliceLast HISTORY_CAPACITY next.

(** the history after a run of fetches, oldest first *)
Definition history (fetches : list (Z * list PNode)) : list PNodeSnapshot :=
  foldl (fun prev f => appendSnapshot f.1 f.2 prev) [] fetches.

(* ===================================================================== *)
(** ** Time travel (the [useMemo] of the [App] component)                  *)
(* ===================================================================== *)

Inductive TimeMode : Type := live | window_1h | window_24h | window_7d.

Global Instance TimeMode_eq_dec : EqDecision TimeMode.
Proof. solve_decision. Defined.

Record TimeTravelView : Type := mkView {
  displayNodes : list PNode;
  displayHealthById : gmap string HealthDetails;
  isSyntheticHistory : bool;
  availableSnapshots : list PNodeSnapshot
}.

Definition windowSec (timeMode : TimeMode) : Z :=
  match timeMode with
  | window_1h => 3600
  | window_24h => 86400
  | _ => 7 * 86400
  end.

Definition STEPS : nat := 12.

(** the largest time value a [Date] holds, in milliseconds either side of
    the epoch *)
Definition MAX_TIME : Z := 8640000000000000.

(** truncation towards zero, as [new Date(x)] applies to a fractional [x] *)
Definition Qtrunc (q : Q) : Z :=
  if Qltb q 0 then Qceiling q else Qfloor q.

(** [new Date(x).toISOString()] read back through [new Date(..)]: the
    clipped time value, or [None] for the RangeError raised on an
    Invalid Date *)
Definition isoRoundTrip (x : Q) : option Z :=
  if Qle_bool (- inject_Z MAX_TIME) x && Qle_bool x (inject_Z MAX_TIME)
  then Some (Qtrunc x) else None.

Definition jitterOf (idx i : nat) : Q :=
  inject_Z ((Z.of_nat idx * 7919 + Z.of_nat i * 104729) mod 1000) / 1000.

Definition driftStatus (s : PNodeStatus) (jitter : Q) : PNodeStatus :=
  if bool_decide (s = online) && Qltb 0.9 jitter then unknown
  else if bool_decide (s = unknown) && Qltb 0.8 jitter then offline
  else s.

(** the clone of roster entry [idx] for synthetic step [i] *)
Definition mutateNode (now : Z) (timeMode : TimeMode) (i idx : nat)
    (n : PNode) : option PNode :=
  let jitter := jitterOf idx i in
  let status' := driftStatus (status n) jitter in
  let offsetSec := (jitter - 0.5) * inject_Z (windowSec timeMode) * 0.4 in
  let baseLastSeen :=
    match lastSeen n with
    | Some t => if bool_decide (t = 0%Z) then now else t
    | None => now
    end in
  seen ← isoRoundTrip (inject_Z baseLastSeen - offsetSec * 1000);
  Some (mkPNode (pnodeId n) (latitude n) (longitude n) status'
          (storageUsed n) (version n) (Some seen)
          (peers_seen n) (peersSeen n) (peer_diversity n) (peerDiversity n)
          (response_latency n) (responseLatency n)
          (uptime n) (uptime_ratio n) (uptimeRatio n)
          (data_availability n) (dataAvailability n)
          (dataAvailabilityRatio n) (version_freshness n)).

Definition syntheticTime (now : Z) (timeMode : TimeMode) (i : nat) : num :=
  let oldest := (Fin (inject_Z now) - Fin (inject_Z (windowSec timeMode * 1000)))%num in
  (oldest + (ofNat (i + 1) / ofNat STEPS)
            * Fin (inject_Z (windowSec timeMode * 1000)))%num.

Definition syntheticSnapshot (now : Z) (timeMode : TimeMode)
    (ns : list PNode) (i : nat) : option PNodeSnapshot :=
  mutatedNodes ← mapM id (imap (mutateNode now timeMode i) ns);
  Some (mkSnapshot (syntheticTime now timeMode i) mutatedNodes (Some true)).

(** [Array.from({ length: steps }, (_, i) => ...)] *)
Definition synthesize (now : Z) (timeMode : TimeMode) (ns : list PNode)
    : option (list PNodeSnapshot) :=
  mapM (syntheticSnapshot now timeMode ns) (seq 0 STEPS).

Definition inWindow (now : Z) (timeMode : TimeMode) (s : PNodeSnapshot) : bool :=
  (Fin (inject_Z now) - timestamp s <=? Fin (inject_Z (windowSec timeMode * 1000)))%num.

(** [arr[i]] for an integer [i] *)
Definition elementAt {A} (l : list A) (i : Z) : option A :=
  if (i <? 0)%Z then None else l !! Z.to_nat i.

(** The body of the memo.  [None] is the RangeError that escapes when a
    synthetic [lastSeen] leaves the range of [Date]. *)
Definition resolveTimeTravel (now : Z) (timeMode : TimeMode) (timeIndex : Z)
    (snapshots : list PNodeSnapshot) (ns : list PNode)
    (healthById : gmap string HealthDetails) : option TimeTravelView :=
  if bool_decide (timeMode = live) || bool_decide (snapshots = []) then
    Some (mkView ns healthById false [])
  else
    let windowSnapshots := filter (fun s => inWindow now timeMode s = true) snapshots in
    let isSynthetic := bool_decide (windowSnapshots = []) in
    windowSnapshots ←
      (if isSynthetic then synthesize now timeMode ns else Some windowSnapshots);
    let clampedIndex :=
      if (0 <? length windowSnapshots)%nat
      then Z.min timeIndex (Z.of_nat (length windowSnapshots) - 1)
      else 0%Z in
    let snap := elementAt windowSnapshots clampedIndex ?? elementAt windowSnapshots 0 in
    let map : gmap string HealthDetails :=
      match snap with
      | Some s =>
          foldl
            (fun m n =>
               match healthById !! pnodeId n with
               | Some h => <[pnodeId n := h]> m
               | None => m
               end)
            ∅ (nodes s)
      | None => ∅
      end in
    Some (mkView
            (match snap with Some s => nodes s | None => ns end)
            (if bool_decide (size map = 0%nat) then healthById else map)
            isSynthetic
            windowSnapshots).

(** one step of status decay along online, unknown, offline *)
Definition decaysTo (before after : PNodeStatus) : Prop :=
  after = before
  \/ (before = online /\ after = unknown)
  \/ (before = unknown /\ after = offline).

(** every stored [lastSeen], and the clock, lie well inside the range of
    [Date] (within the year 270000 either side of the epoch) *)
Definition datesInRange (now : Z) (ns : list PNode) : Prop :=
  (Z.abs now <= 8600000000000000)%Z
  /\ Forall
       (fun n =>
          match lastSeen n with
          | Some t => (Z.abs t <= 8600000000000000)%Z
          | None => True
          end)
       ns.

(* ===================================================================== *)
(** ** Vocabulary of the properties                                       *)
(* ===================================================================== *)

Definition offlineCountOf (ns : list PNode) : nat :=
  length (filter (fun n => isOffline n = true) ns).

Definition onlineCountOf (ns : list PNode) : nat :=
  length (filter (fun n => isOnline n = true) ns).

(** offline entries over all entries of a bucket, as an exact fraction *)
Definition offlineRatio (key : string) (roster : list PNode) : Q :=
  inject_Z (Z.of_nat (offlineCountOf (bucket key roster)))
  / inject_Z (Z.of_nat (length (bucket key roster))).

(** a region the detector calls isolated *)
Definition isolatedBucket (key : string) (roster : list PNode) : Prop :=
  (5 <= length (bucket key roster))%nat /\ 0.6 <= offlineRatio key roster.

(** the peer-diversity telemetry as the scorer resolves it *)
Definition diversityField (n : PNode) : option num :=
  peer_diversity n ?? peerDiversity n.

(** the same node with the peer-diversity telemetry removed *)
Definition withoutDiversity (n : PNode) : PNode :=
  mkPNode (pnodeId n) (latitude n) (longitude n) (status n)
    (storageUsed n) (version n) (lastSeen n)
    (peers_seen n) (peersSeen n) None None
    (response_latency n) (responseLatency n)
    (uptime n) (uptime_ratio n) (uptimeRatio n)
    (data_availability n) (dataAvailability n)
    (dataAvailabilityRatio n) (version_freshness n).

(** no optional telemetry besides the peer count *)
Definition onlyPeersTelemetry (n : PNode) : Prop :=
  peer_diversity n = None /\ peerDiversity n = None
  /\ response_latency n = None /\ responseLatency n = None
  /\ uptime n = None /\ uptime_ratio n = None /\ uptimeRatio n = None
  /\ data_availability n = None /\ dataAvailability n = None
  /\ dataAvailabilityRatio n = None /\ version_freshness n = None.

(** A table that agrees with [Math.log10] at 1, 10 and 100; it stands for
    the primitive where the scorer is run on a concrete node. *)
Definition log10_table (x : num) : num :=
  match x with
  | Fin q =>
      if Qeq_bool q 1 then Fin 0
      else if Qeq_bool q 10 then Fin 1
      else if Qeq_bool q 100 then Fin 2
      else NaN
  | _ => NaN
  end.

(** *** Sample inputs *)

Definition TWENTY_MIN : Z := 20 * 60 * 1000.

(** offline, last seen twenty minutes before [now], no peers seen *)
Definition staleOfflineNode (now : Z) : PNode :=
  mkPNode "n1" (Fin 10) (Fin 20) offline (Fin 0) "1.0" (Some (now - TWENTY_MIN)%Z)
    (Some (Fin 0)) None None None None None None None None None None None None.

(** an online node whose [lastSeen] does not parse *)
Definition unparseableNode : PNode :=
  mkPNode "n2" (Fin 10) (Fin 20) online (Fin 0) "1.0" None
    (Some (Fin 10)) None None None None None None None None None None None None.

Definition zeroDiversityNode : PNode :=
  mkPNode "n3" (Fin 10) (Fin 20) online (Fin 0) "1.0" (Some 0%Z)
    (Some (Fin 10)) None (Some (Fin 0)) None None None None None None
    None None None None.

(** health exactly 0.4: offline, no peers, uptime 8/15, stale *)
Definition nodeAtWarningEdge : PNode :=
  mkPNode "n4" (Fin 0) (Fin 0) offline (Fin 0) "1.0" (Some 0%Z)
    (Some (Fin 0)) None None None None None (Some (Fin (8 # 15))) None None
    None None None None.

(** health exactly 0.7: online, 9 peers, diversity 17/30, stale *)
Definition nodeAtGoodEdge : PNode :=
  mkPNode "n5" (Fin 0) (Fin 0) online (Fin 0) "1.0" (Some 0%Z)
    (Some (Fin 9)) None (Some (Fin (17 # 30))) None None None None None None
    None None None None.

Definition nodeAt (id : string) (lat lon : Q) (st : PNodeStatus) : PNode :=
  bareNode id (Fin lat) (Fin lon) st (Some 0%Z).

(** the tally the detector holds for a bucket once the roster is read *)
Definition tallyOf (key : string) (roster : list PNode) : RegionTally :=
  mkTally (length (bucket key roster)) (offlineCountOf (bucket key roster)).

(** some entry of the previous roster is online under [id] while the
    current index has no entry, or an offline one, under [id] *)
Definition droppedIn (currentById : gmap string PNode) (prevNodes : list PNode)
    (id : string) : Prop :=
  exists p, p ∈ prevNodes /\ pnodeId p = id /\ status p = online
            /\ (currentById !! id = None
                \/ exists n, currentById !! id = Some n /\ status n = offline).

(** *** Sample rosters *)

(** three nodes online at the earlier fetch *)
Definition snapshotN : PNodeSnapshot :=
  mkSnapshot (Fin 0)
    [nodeAt "a" 10 20 online; nodeAt "b" 10 20 online; nodeAt "c" 50 60 online]
    None.

(** the next fetch: [a] reports offline, [b] is gone, [c] is still online *)
Definition snapshotN1 : PNodeSnapshot :=
  mkSnapshot (Fin 30000)
    [nodeAt "a" 10 20 offline; nodeAt "c" 50 60 online]
    None.

(** a fetch that returned no node at all *)
Definition snapshotEmpty : PNodeSnapshot := mkSnapshot (Fin 30000) [] None.

Definition fixedClock (now : Z) : nat -> Z := fun _ => now.

(** five nodes in bucket 10:20, three of them offline, and one node
    elsewhere *)
Definition regionDown : list PNode :=
  [nodeAt "a" 12 21 offline; nodeAt "b" 8 19 offline; nodeAt "c" 10 20 offline;
   nodeAt "d" 10 20 online; nodeAt "e" 14 24 online; nodeAt "f" 50 60 unknown].

(** the same roster with [c] back online: two of five offline *)
Definition regionUp : list PNode :=
  [nodeAt "a" 12 21 offline; nodeAt "b" 8 19 offline; nodeAt "c" 10 20 online;
   nodeAt "d" 10 20 online; nodeAt "e" 14 24 online; nodeAt "f" 50 60 unknown].

(** the requested window in milliseconds *)
Definition windowWidth (timeMode : TimeMode) : Q :=
  inject_Z (windowSec timeMode * 1000).

(** a node and its synthetic clone: same id, status at most one step down *)
Definition cloneOf (n m : PNode) : Prop :=
  pnodeId m = pnodeId n /\ decaysTo (status n) (status m).

(** a history whose only snapshot is decades old *)
Definition oldStore : list PNodeSnapshot :=
  [mkSnapshot (Fin 0) [nodeAt "a" 10 20 online] None].

Definition liveRoster : list PNode :=
  [bareNode "a" (Fin 10) (Fin 20) online (Some 1699999990000%Z);
   bareNode "b" (Fin 10) (Fin 20) unknown None;
   bareNode "c" (Fin 50) (Fin 60) offline (Some 1699999000000%Z)].

(** three offline nodes in three different buckets and one online node *)
Definition scatteredOffline : list PNode :=
  [nodeAt "a" 10 20 offline; nodeAt "b" 30 40 offline; nodeAt "c" 50 60 offline;
   nodeAt "d" 70 80 online].

(** the history after 500 fetches of an empty roster, stamped 0 to 499 *)
Definition fullHistory : list PNodeSnapshot :=
  history ((fun i => (Z.of_nat i, [])) <$> seq 0 500).

(* ===================================================================== *)
(** ** Network health ([health.ts], [computeNetworkHealth])               *)
(* ===================================================================== *)

(** the reasons [computeNodeHealth] can push, in the order it tests them *)
Definition healthReasonCatalogue : list string :=
  ["Low peer count in gossip";
   "Peers lack geographic / ASN diversity";
   "High gossip response latency";
   "Uptime below target SLA";
   "Data availability below network baseline";
   "Not seen in recent gossip window";
   "Healthy gossip connectivity and recent activity"].

(** is [l] a sub-sequence of [k] *)
Fixpoint isSubsequence (l k : list string) : bool :=
  match l, k with
  | [], _ => true
  | _ :: _, [] => false
  | x :: l', y :: k' =>
      if String.eqb x y then isSubsequence l' k' else isSubsequence l k'
  end.

(** [nodes.reduce((acc, n) => acc + computeNodeHealth(n).score, 0) /
    nodes.length]; every call of the scorer reads the clock anew, and
    [clock i] is the reading it gets for roster entry [i] *)
Definition computeNetworkHealth (log10 : num -> num) (clock : nat -> Z)
    (ns : list PNode) : num :=
  if Nat.eqb (length ns) 0 then Fin 0
  else
    let sum :=
      foldl nadd (Fin 0)
        (imap (fun i n => score (computeNodeHealth log10 (clock i) n)) ns) in
    (sum / ofNat (length ns))%num.

(** the status prior as a rational *)
Definition statusPrior (s : PNodeStatus) : Q :=
  match s with online => 0.9 | unknown => 0.6 | offline => 0.2 end.

(** the same node under another status *)
Definition withStatus (s : PNodeStatus) (n : PNode) : PNode :=
  mkPNode (pnodeId n) (latitude n) (longitude n) s
    (storageUsed n) (version n) (lastSeen n)
    (peers_seen n) (peersSeen n) (peer_diversity n) (peerDiversity n)
    (response_latency n) (responseLatency n)
    (uptime n) (uptime_ratio n) (uptimeRatio n)
    (data_availability n) (dataAvailability n)
    (dataAvailabilityRatio n) (version_freshness n).

(** none of the telemetry the reputation scorer reads is present *)
Definition noReputationTelemetry (n : PNode) : Prop :=
  response_latency n = None /\ responseLatency n = None
  /\ uptime n = None /\ uptime_ratio n = None /\ uptimeRatio n = None
  /\ data_availability n = None /\ dataAvailability n = None
  /\ dataAvailabilityRatio n = None /\ version_freshness n = None.

(* ===================================================================== *)
(** ** Region statistics ([partitions.ts], [computeRegionStats])          *)
(* ===================================================================== *)

(** [RegionStats]; the fields are [total], [online] and [offline] in the
    source *)
Record RegionStats : Type := mkRegionStats {
  rs_total : nat;
  rs_online : nat;
  rs_offline : nat
}.

Definition regionStatsStep (regionTotals : OMap.t RegionStats) (n : PNode)
    : OMap.t RegionStats :=
  let key := getRegionKey n in
  let stats := default (mkRegionStats 0 0 0) (OMap.get key regionTotals) in
  let stats := mkRegionStats (rs_total stats + 1) (rs_online stats) (rs_offline stats) in
  let stats :=
    if isOffline n
    then mkRegionStats (rs_total stats) (rs_online stats) (rs_offline stats + 1)
    else stats in
  let stats :=
    if isOnline n
    then mkRegionStats (rs_total stats) (rs_online stats + 1) (rs_offline stats)
    else stats in
  OMap.set key stats regionTotals.

Definition computeRegionStats (ns : list PNode) : OMap.t RegionStats :=
  foldl regionStatsStep [] ns.

(** the statistics of one bucket, counted on the roster *)
Definition statsOfBucket (key : string) (roster : list PNode) : RegionStats :=
  mkRegionStats (length (bucket key roster))
    (onlineCountOf (bucket key roster))
    (offlineCountOf (bucket key roster)).

(** a column of the statistics added up over all regions *)
Definition sumOver (f : RegionStats -> nat) (m : OMap.t RegionStats) : nat :=
  foldr (fun kv acc => (f kv.2 + acc)%nat) 0%nat m.



(* ===================================================================== *)
(** ** The data hook ([hooks.ts], [usePNodeData])                          *)
(* ===================================================================== *)

(** what [fetchPNodes] resolved to, or the message of what it threw *)
Inductive Fetched : Type :=
| FetchOk (data : list PNode)
| FetchFailed (message : string).

(** the state cells of the hook *)
Record PNodeData : Type := mkData {
  st_nodes : list PNode;
  st_loading : bool;
  st_error : option string;
  st_healthById : gmap string HealthDetails;
  st_reputationById : gmap string ReputationDetails;
  st_networkHealth : num;
  st_snapshots : list PNodeSnapshot;
  st_failures : FailureAnalysis;
  st_regionStats : OMap.t RegionStats
}.

Definition initialData : PNodeData :=
  mkData [] true None ∅ ∅ (Fin 0) [] (mkFailureAnalysis ∅ false None) [].

(** the clock readings of one [load]: [Date.now()] for the snapshot, and
    one reading per roster entry in each pass that scores or ages nodes *)
Record Clocks : Type := mkClocks {
  clockNow : Z;
  clockHealth : nat -> Z;
  clockNetwork : nat -> Z;
  clockFailures : nat -> Z
}.

(** [data.forEach((n) => { h = computeNodeHealth(n); healthMap.set(..);
    repMap.set(n.pnodeId, computeReputation(n, h)) })] *)
Definition scoreAll (log10 : num -> num) (clock : nat -> Z) (data : list PNode)
    : gmap string HealthDetails * gmap string ReputationDetails :=
  foldl
    (fun maps entry =>
       let h := computeNodeHealth log10 (clock entry.1) entry.2 in
       (<[pnodeId entry.2 := h]> maps.1,
        <[pnodeId entry.2 := computeReputation entry.2 h]> maps.2))
    (∅, ∅) (imap (fun i n => (i, n)) data).

(** One run of [load] that is not cancelled.  [captured] is the value of
    [snapshots] the closure of [load] holds: the effect is set up again
    only when [pollMs] changes, so [load] keeps reading the history of the
    render that set it up (the empty one after mounting). *)
Definition load (log10 : num -> num) (captured : list PNodeSnapshot)
    (ck : Clocks) (fetched : Fetched) (st : PNodeData) : PNodeData :=
  match fetched with
  | FetchOk data =>
      let maps := scoreAll log10 (clockHealth ck) data in
      mkData data false None maps.1 maps.2
        (computeNetworkHealth log10 (clockNetwork ck) data)
        (appendSnapshot (clockNow ck) data (st_snapshots st))
        (analyzeFailures (clockFailures ck) captured data)
        (computeRegionStats data)
  | FetchFailed message =>
      mkData (st_nodes st) false (Some message)
        (st_healthById st) (st_reputationById st) (st_networkHealth st)
        (st_snapshots st) (st_failures st) (st_regionStats st)
  end.

(** the hook as mounted by [App], its loads completing one after another:
    every [load] holds the empty history *)
Definition runLoads (log10 : num -> num) (runs : list (Clocks * Fetched))
    : PNodeData :=
  foldl (fun st run => load log10 [] run.1 run.2 st) initialData runs.

(** [stats]: the counters the hook derives from [nodes] on every render *)
Record Stats : Type := mkStats {
  stat_total : Z;
  stat_online : Z;
  stat_offline : Z;
  stat_unknown : Z;
  stat_totalStorage : num
}.

Definition statsOf (ns : list PNode) : Stats :=
  let online := filter (fun n => isOnline n = true) ns in
  let offline := filter (fun n => isOffline n = true) ns in
  let totalStorage :=
    foldl (fun acc n => (acc + orDefault (storageUsed n) (Fin 0))%num) (Fin 0) ns in
  mkStats (Z.of_nat (length ns))
    (Z.of_nat (length online))
    (Z.of_nat (length offline))
    (Z.of_nat (length ns) - Z.of_nat (length online) - Z.of_nat (length offline))
    totalStorage.

(* ===================================================================== *)
(** ** Display order (the second [useMemo] of the [App] component)         *)
(* ===================================================================== *)

(** the comparator handed to [sort] *)
Definition statusCompare (a b : PNode) : Z :=
  if bool_decide (status a = status b) then 0
  else if bool_decide (status a = online) then (-1)
  else if bool_decide (status b = online) then 1
  else if bool_decide (status a = unknown) then (-1)
  else if bool_decide (status b = unknown) then 1
  else 0.

(** [Array.prototype.sort]: stable, and for a consistent comparator the
    sorted order is the one any stable sort reaches; an element moves
    behind another only when the comparator is positive *)
Fixpoint insertSorted {A} (cmp : A -> A -> Z) (x : A) (l : list A) : list A :=
  match l with
  | [] => [x]
  | y :: rest =>
      if (0 <? cmp x y)%Z then y :: insertSorted cmp x rest else x :: l
  end.

Definition sortWith {A} (cmp : A -> A -> Z) (l : list A) : list A :=
  foldr (insertSorted cmp) [] l.

Global Instance ReputationTier_eq_dec : EqDecision ReputationTier.
Proof. solve_decision. Defined.

(** [reputationFilter === "all" ? true : rep?.tier === reputationFilter];
    [None] is the filter ["all"] *)
Definition passesFilter (reputationById : gmap string ReputationDetails)
    (reputationFilter : option ReputationTier) (n : PNode) : bool :=
  match reputationFilter with
  | None => true
  | Some wanted =>
      match reputationById !! pnodeId n with
      | Some rep => bool_decide (rep_tier rep = wanted)
      | None => false
      end
  end.

Definition orderedNodes (displayed : list PNode)
    (reputationById : gmap string ReputationDetails)
    (reputationFilter : option ReputationTier) : list PNode :=
  sortWith statusCompare
    (filter (fun n => passesFilter reputationById reputationFilter n = true)
       displayed).

Definition withStatusOnly (s : PNodeStatus) (ns : list PNode) : list PNode :=
  filter (fun n => status n = s) ns.


(** the three tags in the order the detector's passes push them *)
Definition tagOrder : list NodeAnomaly := [sudden_drop; isolated; black_hole].

(** every stored tag list is non-empty and a sub-sequence of [order] *)
Definition tagsWithin (order : list NodeAnomaly)
    (m : gmap string (list NodeAnomaly)) : Prop :=
  forall id tags, m !! id = Some tags -> tags <> [] /\ tags `sublist_of` order.

Definition knownId (roster : list PNode) (id : string) : Prop :=
  exists n, n ∈ roster /\ pnodeId n = id.

(** two nodes online at the earlier fetch *)
Definition bothOnlineBefore : PNodeSnapshot :=
  mkSnapshot (Fin 0) [nodeAt "a" 10 20 online; nodeAt "b" 30 40 online] None.

(** the next fetch: both still listed, with peers, [b] now unknown *)
Definition stillOnline : list PNode :=
  [mkPNode "a" (Fin 10) (Fin 20) online (Fin 0) "1.0" (Some 0%Z)
     (Some (Fin 8)) None None None None None None None None None None None None;
   mkPNode "b" (Fin 30) (Fin 40) unknown (Fin 0) "1.0" (Some 0%Z)
     (Some (Fin 8)) None None None None None None None None None None None None].

(** the snapshot a successful fetch adds to the history *)
Definition snapshotOf (f : Z * list PNode) : PNodeSnapshot :=
  mkSnapshot (Fin (inject_Z f.1)) f.2 None.




Definition withLastSeen (seen : option Z) (n : PNode) : PNode :=
  mkPNode (pnodeId n) (latitude n) (longitude n) (status n)
    (storageUsed n) (version n) seen
    (peers_seen n) (peersSeen n) (peer_diversity n) (peerDiversity n)
    (response_latency n) (responseLatency n)
    (uptime n) (uptime_ratio n) (uptimeRatio n)
    (data_availability n) (dataAvailability n)
    (dataAvailabilityRatio n) (version_freshness n).

(** [new Date(lastSeen).getTime() || now] *)
Definition baseLastSeenOf (now : Z) (n : PNode) : Z :=
  match lastSeen n with
  | Some t => if bool_decide (t = 0%Z) then now else t
  | None => now
  end.

(** two fetches, the second failing *)
Definition sampleClocks (now : Z) : Clocks :=
  mkClocks now (fixedClock now) (fixedClock now) (fixedClock now).

Definition sampleRuns : list (Clocks * Fetched) :=
  [(sampleClocks 1000, FetchOk (nodes snapshotN));
   (sampleClocks 31000, FetchOk (nodes snapshotN1));
   (sampleClocks 61000, FetchFailed "Failed to fetch /api/pnodes: 502")].

(** a history with two snapshots inside the last hour and one before it *)
Definition recentStore : list PNodeSnapshot :=
  [mkSnapshot (Fin 1000) (nodes snapshotN) None;
   mkSnapshot (Fin 1699999000000) (nodes snapshotN) None;
   mkSnapshot (Fin 1699999900000) (nodes snapshotN1) None].

(* ===================================================================== *)
(** ** Explanations ([explain.ts])                                         *)
(* ===================================================================== *)

Inductive Confidence : Type := low | medium | high.

Global Instance Confidence_eq_dec : EqDecision Confidence.
Proof. solve_decision. Defined.

Record Prediction : Type := mkPrediction {
  message : string;
  confidence : Confidence
}.

Global Instance Prediction_eq_dec : EqDecision Prediction.
Proof. solve_decision. Defined.

Record Explainability : Type := mkExplainability {
  why : list string;
  predictions : list Prediction
}.

(** [avg]: the mean, 0 for the empty array *)
Definition avg (arr : list num) : num :=
  if Nat.eqb (length arr) 0 then Fin 0
  else (foldl nadd (Fin 0) arr / ofNat (length arr))%num.

Definition statusSentence (s : PNodeStatus) : string :=
  match s with
  | offline => "This node is currently marked offline in gossip."
  | unknown =>
      "This node has an unknown status and may not be consistently reachable."
  | online => "This node is currently online and participating in gossip."
  end.

Definition tierSentence (t : ReputationTier) : string :=
  match t with
  | gold =>
      "Long‑lived uptime and storage reliability give this node a Gold reputation."
  | silver =>
      "Solid but imperfect track record, classified as Silver reputation."
  | risky =>
      "Risky reputation: uptime, responsiveness, or storage reliability trail peers."
  end.

Definition storageSentence : string :=
  "Storage usage is significantly higher than peer average.".

(** [health.reasons.forEach((r) => { if (!why.includes(r)) why.push(r); })] *)
Definition pushNew (why : list string) (r : string) : list string :=
  if bool_decide (r ∈ why) then why else why ++ [r].

Definition driftPrediction : Prediction :=
  mkPrediction
    "Node is drifting out of recent gossip; likely to go offline within ~2h if trend continues."
    medium.

Definition uptimePrediction : Prediction :=
  mkPrediction
    "Low historical uptime; expect intermittent availability or further drops."
    high.

Definition storagePrediction : Prediction :=
  mkPrediction
    "Storage underperforming compared to peers; saturation or reliability risk."
    medium.

(** [push] of a prediction when [c] holds *)
Definition predictIf (c : bool) (p : Prediction) (ps : list Prediction)
    : list Prediction :=
  if c then ps ++ [p] else ps.

(** the node's entries in the last 20 snapshots, oldest first; the first
    entry with the node's id stands for a snapshot, a snapshot without
    one is skipped *)
Definition nodeSnapshotsOf (node : PNode) (snapshots : list PNodeSnapshot)
    : list PNode :=
  omap
    (fun s => List.find (fun n => bool_decide (pnodeId n = pnodeId node)) (nodes s))
    (sliceLast 20 snapshots).

(** the age in seconds of one entry; [clock k] is the reading of
    [Date.now()] for entry [k] *)
Definition ageSecOf (now : Z) (n : PNode) : num :=
  match lastSeen n with
  | None => PInf
  | Some ts => (Fin (inject_Z (now - ts)) / Fin 1000)%num
  end.

Definition buildNodeExplainability (clock : nat -> Z) (node : PNode)
    (health : option HealthDetails) (reputation : option ReputationDetails)
    (failures : FailureAnalysis) (snapshots : list PNodeSnapshot)
    (allNodes : list PNode) : Explainability :=
  let why := [statusSentence (status node)] in
  let anomalies := default [] (anomaliesById failures !! pnodeId node) in
  let why :=
    pushIf (bool_decide (sudden_drop ∈ anomalies))
      "It recently dropped from gossip after being online (sudden peer drop)."
      why in
  let why :=
    pushIf (bool_decide (isolated ∈ anomalies))
      "Low gossip reach due to regional clustering or isolation." why in
  let why :=
    pushIf (bool_decide (black_hole ∈ anomalies))
      "Behaves like a gossip black hole: stale last seen, low peers, or low data availability."
      why in
  let why :=
    match health with
    | Some h => foldl pushNew why (reasons h)
    | None => why
    end in
  let why :=
    match reputation with
    | Some rep => why ++ [tierSentence (rep_tier rep)]
    | None => why
    end in
  let peerStorage := (fun n => orDefault (storageUsed n) (Fin 0)) <$> allNodes in
  let avgStorage := avg peerStorage in
  let why :=
    pushIf ((avgStorage >? Fin 0)%num
            && (storageUsed node >? avgStorage * Fin 1.5)%num)
      storageSentence why in
  let nodeSnapshots := nodeSnapshotsOf node snapshots in
  let ages := imap (fun k n => ageSecOf (clock k) n) nodeSnapshots in
  let predictions :=
    if (3 <=? length ages)%nat then
      let recent := sliceLast 3 ages in
      match recent !! 0%nat, recent !! (length recent - 1)%nat with
      | Some first, Some last =>
          predictIf (last >? first * Fin 1.4)%num driftPrediction []
      | _, _ => []
      end
    else [] in
  let uptime := uptime node ?? uptime_ratio node ?? uptimeRatio node in
  let predictions :=
    predictIf
      (match uptime with Some u => (u <? Fin 0.7)%num | None => false end)
      uptimePrediction predictions in
  let dataAvailability :=
    data_availability node ?? dataAvailability node
      ?? dataAvailabilityRatio node in
  let predictions :=
    predictIf
      (match dataAvailability with
       | Some d => (d <? Fin 0.6)%num
       | None => false
       end)
      storagePrediction predictions in
  mkExplainability why predictions.

(** the sentences the first four tests can push *)
Definition statusVocabulary : list string :=
  [statusSentence offline; statusSentence unknown; statusSentence online;
   "It recently dropped from gossip after being online (sudden peer drop).";
   "Low gossip reach due to regional clustering or isolation.";
   "Behaves like a gossip black hole: stale last seen, low peers, or low data availability."].


(* ===================================================================== *)
(** ** The statistics panel ([Panels.tsx], [LeftStatsPanel])              *)
(* ===================================================================== *)

(** [total ? Math.round((online / total) * 100) : 0] *)
Definition onlinePct (total online : num) : num :=
  if truthy total then round (online / total * Fin 100)%num else Fin 0.

(** [entries.sort((a, b) => b[1].total - a[1].total)] *)
Definition byTotalDesc (a b : string * RegionStats) : Z :=
  (Z.of_nat (rs_total b.2) - Z.of_nat (rs_total a.2))%Z.

(** [None] is the absent prop *)
Definition topRegions (regionStats : option (OMap.t RegionStats))
    : list (string * RegionStats) :=
  match regionStats with
  | None => []
  | Some m => take 3 (sortWith byTotalDesc m)
  end.

(** a node seen three times with a [lastSeen] that stops parsing *)
Definition fadingStore : list PNodeSnapshot :=
  [mkSnapshot (Fin 1000) [bareNode "a" (Fin 10) (Fin 20) online (Some 900%Z)] None;
   mkSnapshot (Fin 2000) [bareNode "a" (Fin 10) (Fin 20) online (Some 1900%Z)] None;
   mkSnapshot (Fin 3000) [bareNode "a" (Fin 10) (Fin 20) online None] None].

(** *** Proof automation *)

(** name the latency and freshness pairs of a scorer under analysis *)
Ltac split_scores :=
  repeat match goal with
         | |- context [latencyOf ?x] => destruct (latencyOf x) as [? ?]
         | |- context [freshnessOf ?t ?x] => destruct (freshnessOf t x) as [? ?]
         end.

(* ===================================================================== *)
(** * Properties                                                          *)
(* ===================================================================== *)

(** ** Numbers *)

Lemma Qltb_true (a b : Q) : Qltb a b = true <-> a < b.
Proof.
  unfold Qltb. rewrite negb_true_iff, <- not_true_iff_false, Qle_bool_iff.
  split; [apply Qnot_le_lt | apply Qlt_not_le].
Qed.

Lemma Qltb_false (a b : Q) : Qltb a b = false <-> b <= a.
Proof.
  unfold Qltb. rewrite negb_false_iff, Qle_bool_iff. reflexivity.
Qed.

Lemma nlt_Fin (a b : Q) : nlt (Fin a) (Fin b) = Qltb a b.
Proof. reflexivity. Qed.

Lemma clamp01_unit (x : num) : unit_interval (clamp01 x).
Proof.
  destruct x as [| | |q];
    try (exists 0; split; [reflexivity | split; discriminate]).
  - exists 1. split; [reflexivity | split; discriminate].
  - unfold clamp01, nmax, nmin; simpl.
    destruct (Qltb q 1) eqn:H1; simpl.
    + destruct (Qltb 0 q) eqn:H0.
      * exists q. apply Qltb_true in H1, H0. split; [reflexivity | lra].
      * exists 0. split; [reflexivity | lra].
    + exists 1. split; [reflexivity | lra].
Qed.

(** inside the unit interval [clamp01] changes nothing *)
Lemma clamp01_inside (q : Q) : 0 < q < 1 -> clamp01 (Fin q) = Fin q.
Proof.
  intros [H0 H1]. unfold clamp01, nmax, nmin; simpl.
  apply Qltb_true in H0, H1. rewrite H1. simpl. rewrite H0. reflexivity.
Qed.

Lemma tierOf_Fin (q : Q) :
  tierOf (Fin q) =
    if Qltb q 0.4 then bad else if Qltb q 0.7 then warning else good.
Proof. reflexivity. Qed.

Lemma elem_of_pushIf (c : bool) (r s : string) (l : list string) :
  s ∈ pushIf c r l <-> s ∈ l \/ (c = true /\ s = r).
Proof.
  unfold pushIf. destruct c.
  - rewrite elem_of_app, list_elem_of_singleton. naive_solver.
  - naive_solver.
Qed.

(** ** Health and reputation scores *)

Lemma health_score_clamped (log10 : num -> num) (now : Z) (node : PNode) :
  exists x, score (computeNodeHealth log10 now node) = clamp01 x
            /\ tier (computeNodeHealth log10 now node) = tierOf (clamp01 x).
Proof.
  unfold computeNodeHealth.
  destruct (latencyOf _) as [latencyScore slow].
  destruct (freshnessOf _ _) as [freshnessScore stale].
  eexists; split; reflexivity.
Qed.

(** C3. Every health score and every reputation score is a finite number
    of the interval [0,1]; a health score of exactly 0.4 is tiered
    [warning] and a health score of exactly 0.7 is tiered [good]. *)
Theorem scores_within_unit_interval_and_tier_edges
    (log10 : num -> num) (now : Z) (node : PNode) (health : HealthDetails) :
  unit_interval (score (computeNodeHealth log10 now node))
  /\ unit_interval (rep_score (computeReputation node health))
  /\ (is_value (score (computeNodeHealth log10 now node)) 0.4 ->
      tier (computeNodeHealth log10 now node) = warning)
  /\ (is_value (score (computeNodeHealth log10 now node)) 0.7 ->
      tier (computeNodeHealth log10 now node) = good).
Proof.
  destruct (health_score_clamped log10 now node) as (x & Hs & Ht).
  rewrite Hs, Ht. clear Hs Ht.
  split; [apply clamp01_unit |].
  split; [apply clamp01_unit |].
  split; intros (q & -> & Hq); rewrite tierOf_Fin.
  - assert (Qltb q 0.4 = false) as -> by (apply Qltb_false; lra).
    assert (Qltb q 0.7 = true) as -> by (apply Qltb_true; lra).
    reflexivity.
  - assert (Qltb q 0.4 = false) as -> by (apply Qltb_false; lra).
    assert (Qltb q 0.7 = false) as -> by (apply Qltb_false; lra).
    reflexivity.
Qed.

(** Both edges are reached: with [log10 1 = 0] and [log10 10 = 1] the two
    sample nodes score exactly 0.4 and 0.7. *)
Lemma scores_within_unit_interval_and_tier_edges_witness :
  (is_value (score (computeNodeHealth log10_table 5000000 nodeAtWarningEdge)) 0.4
   /\ tier (computeNodeHealth log10_table 5000000 nodeAtWarningEdge) = warning)
  /\ (is_value (score (computeNodeHealth log10_table 5000000 nodeAtGoodEdge)) 0.7
      /\ tier (computeNodeHealth log10_table 5000000 nodeAtGoodEdge) = good).
Proof.
  assert (is_value
            (score (computeNodeHealth log10_table 5000000 nodeAtWarningEdge)) 0.4)
    as Hw by (eexists; split; reflexivity).
  assert (is_value
            (score (computeNodeHealth log10_table 5000000 nodeAtGoodEdge)) 0.7)
    as Hg by (eexists; split; reflexivity).
  split; (split; [assumption |]).
  - destruct (scores_within_unit_interval_and_tier_edges
                log10_table 5000000 nodeAtWarningEdge
                (computeNodeHealth log10_table 5000000 nodeAtWarningEdge))
      as (_ & _ & Hedge & _).
    exact (Hedge Hw).
  - destruct (scores_within_unit_interval_and_tier_edges
                log10_table 5000000 nodeAtGoodEdge
                (computeNodeHealth log10_table 5000000 nodeAtGoodEdge))
      as (_ & _ & _ & Hedge).
    exact (Hedge Hg).
Defined.

(** ** Peer diversity of zero *)

Lemma orDefault_zero (q : Q) (d : num) : q == 0 -> orDefault (Fin q) d = d.
Proof.
  intros Hq. unfold orDefault, truthy.
  apply Qeq_bool_iff in Hq. rewrite Hq. reflexivity.
Qed.

Lemma diversityScoreOf_zero (q : Q) :
  q == 0 -> diversityScoreOf (Fin q) = Fin 0.5.
Proof.
  intros Hq. unfold diversityScoreOf. rewrite orDefault_zero by exact Hq.
  reflexivity.
Qed.

(** C10. A peer-diversity reading of 0 is scored exactly like a missing
    one: the health result is the same record, the diversity sub-score is
    0.5, and the diversity reason is not among the reasons. *)
Theorem zero_diversity_scored_as_absent
    (log10 : num -> num) (now : Z) (node : PNode) (q : Q) :
  diversityField node = Some (Fin q) ->
  q == 0 ->
  computeNodeHealth log10 now node
    = computeNodeHealth log10 now (withoutDiversity node)
  /\ diversityScoreOf (default (Fin 0) (diversityField node)) = Fin 0.5
  /\ diversityScoreOf (default (Fin 0) (diversityField (withoutDiversity node)))
     = Fin 0.5
  /\ "Peers lack geographic / ASN diversity"
       ∉ reasons (computeNodeHealth log10 now node).
Proof.
  intros Hfield Hq.
  assert (diversityScoreOf (default (Fin 0) (diversityField node)) = Fin 0.5)
    as Hscore by (rewrite Hfield; apply diversityScoreOf_zero, Hq).
  unfold diversityField in Hfield, Hscore.
  repeat split.
  - unfold computeNodeHealth. rewrite Hscore. simpl. reflexivity.
  - exact Hscore.
  - unfold computeNodeHealth. rewrite Hscore. split_scores. cbv zeta. cbn [reasons].
    intros H. rewrite !elem_of_pushIf, elem_of_nil in H. naive_solver.
Qed.

Lemma zero_diversity_scored_as_absent_witness :
  computeNodeHealth log10_table 5000000 zeroDiversityNode
    = computeNodeHealth log10_table 5000000 (withoutDiversity zeroDiversityNode)
  /\ diversityScoreOf (default (Fin 0) (diversityField zeroDiversityNode))
     = Fin 0.5
  /\ diversityScoreOf
       (default (Fin 0) (diversityField (withoutDiversity zeroDiversityNode)))
     = Fin 0.5
  /\ "Peers lack geographic / ASN diversity"
       ∉ reasons (computeNodeHealth log10_table 5000000 zeroDiversityNode).
Proof.
  apply (zero_diversity_scored_as_absent log10_table 5000000 zeroDiversityNode 0);
    reflexivity.
Defined.

(** ** Anomaly maps *)

Section Tagging.

Implicit Types (m : gmap string (list NodeAnomaly)) (id : string)
  (t a : NodeAnomaly).

Lemma carries_empty id t : ~ carries ∅ id t.
Proof. unfold carries. rewrite lookup_empty. simpl. apply not_elem_of_nil. Qed.

Lemma carries_pushTag a id' m id t :
  carries (pushTag a id' m) id t <-> carries m id t \/ (id = id' /\ t = a).
Proof.
  unfold carries, pushTag.
  destruct (decide (id = id')) as [->|Hne].
  - rewrite lookup_insert_eq. simpl.
    rewrite elem_of_app, list_elem_of_singleton. naive_solver.
  - rewrite lookup_insert_ne by congruence. naive_solver.
Qed.

Lemma carries_pushTagOnce a id' m id t :
  carries (pushTagOnce a id' m) id t <-> carries m id t \/ (id = id' /\ t = a).
Proof.
  unfold pushTagOnce. case_bool_decide as Hin.
  - split; [auto |]. intros [H | [-> ->]]; [exact H | exact Hin].
  - apply carries_pushTag.
Qed.

End Tagging.

(** ** The roster index *)

Lemma indexById_snoc (ns : list PNode) (x : PNode) :
  indexById (ns ++ [x]) = <[pnodeId x := x]> (indexById ns).
Proof. unfold indexById. rewrite foldl_snoc. reflexivity. Qed.

Lemma indexById_Some (ns : list PNode) (id : string) (n : PNode) :
  indexById ns !! id = Some n -> n ∈ ns /\ pnodeId n = id.
Proof.
  induction ns as [|x ns IH] using rev_ind.
  - unfold indexById. simpl. rewrite lookup_empty. discriminate.
  - rewrite indexById_snoc, elem_of_app, list_elem_of_singleton.
    destruct (decide (pnodeId x = id)) as [<-|Hne].
    + rewrite lookup_insert_eq. intros [= ->]. auto.
    + rewrite lookup_insert_ne by exact Hne. intros H%IH. tauto.
Qed.

Lemma indexById_None (ns : list PNode) (id : string) :
  indexById ns !! id = None <-> absent ns id.
Proof.
  unfold absent. induction ns as [|x ns IH] using rev_ind.
  - unfold indexById. simpl. rewrite lookup_empty.
    split; [| reflexivity]. intros _ n Hn. inversion Hn.
  - rewrite indexById_snoc. setoid_rewrite elem_of_app.
    setoid_rewrite list_elem_of_singleton.
    destruct (decide (pnodeId x = id)) as [<-|Hne].
    + rewrite lookup_insert_eq. split; [discriminate |].
      intros H. exfalso. apply (H x); auto.
    + rewrite lookup_insert_ne by exact Hne. rewrite IH.
      split.
      * intros H n [Hn | ->]; [apply H, Hn | exact Hne].
      * intros H n Hn. apply H. auto.
Qed.

Lemma indexById_unique (ns : list PNode) (n : PNode) :
  uniqueIds ns -> n ∈ ns -> indexById ns !! pnodeId n = Some n.
Proof.
  unfold uniqueIds. induction ns as [|x ns IH] using rev_ind.
  - intros _ Hn. inversion Hn.
  - rewrite fmap_app, indexById_snoc, elem_of_app, list_elem_of_singleton.
    simpl. intros Hnd. apply NoDup_app in Hnd as (Hns & Hfresh & _).
    intros [Hn | ->].
    + rewrite lookup_insert_ne; [apply IH; assumption |].
      intros Heq. apply (Hfresh (pnodeId n)).
      * apply list_elem_of_fmap. eauto.
      * rewrite Heq. apply list_elem_of_singleton. reflexivity.
    + apply lookup_insert_eq.
Qed.

(** ** The three tagging passes *)

Lemma suddenDropStep_fires (cur : gmap string PNode) (p : PNode) :
  isOnline p
  && (bool_decide (cur !! pnodeId p = None)
      || match cur !! pnodeId p with Some n => isOffline n | None => false end)
  = true
  <-> status p = online
      /\ (cur !! pnodeId p = None
          \/ exists n, cur !! pnodeId p = Some n /\ status n = offline).
Proof.
  unfold isOnline, isOffline.
  rewrite andb_true_iff, orb_true_iff, !bool_decide_eq_true.
  destruct (cur !! pnodeId p) as [n|]; [rewrite bool_decide_eq_true |];
    naive_solver.
Qed.

Lemma carries_suddenDrop_pass (cur : gmap string PNode) (ps : list PNode)
    (m : gmap string (list NodeAnomaly)) (id : string) (t : NodeAnomaly) :
  carries (foldl (suddenDropStep cur) m ps) id t
  <-> carries m id t \/ (t = sudden_drop /\ droppedIn cur ps id).
Proof.
  unfold droppedIn. revert m. induction ps as [|p ps IH]; intros m; simpl.
  - split; [auto |]. intros [H | (_ & p & Hp & _)]; [exact H | inversion Hp].
  - rewrite IH. unfold suddenDropStep.
    setoid_rewrite elem_of_cons.
    destruct (_ && _) eqn:Hfire.
    + apply suddenDropStep_fires in Hfire. rewrite carries_pushTag.
      naive_solver.
    + apply not_true_iff_false in Hfire. rewrite suddenDropStep_fires in Hfire.
      naive_solver.
Qed.

Lemma carries_isolate_pass (regs : list string) (ns : list PNode)
    (m : gmap string (list NodeAnomaly)) (id : string) (t : NodeAnomaly) :
  carries (foldl (isolateStep regs) m ns) id t
  <-> carries m id t
      \/ (t = isolated
          /\ exists n, n ∈ ns /\ pnodeId n = id /\ getRegionKey n ∈ regs).
Proof.
  revert m. induction ns as [|n ns IH]; intros m; simpl.
  - split; [auto |]. intros [H | (_ & n & Hn & _)]; [exact H | inversion Hn].
  - rewrite IH. unfold isolateStep. setoid_rewrite elem_of_cons.
    case_bool_decide as Hreg.
    + rewrite carries_pushTagOnce. naive_solver.
    + naive_solver.
Qed.

Lemma carries_blackHole_pass (clock : nat -> Z) (ns : list PNode) :
  forall (i : nat) (m : gmap string (list NodeAnomaly)) (id : string)
         (t : NodeAnomaly),
  carries (blackHolePass clock i ns m) id t
  <-> carries m id t
      \/ (t = black_hole
          /\ exists j n, ns !! j = Some n /\ pnodeId n = id
                         /\ isBlackHole (clock (i + j)%nat) n = true).
Proof.
  induction ns as [|n ns IH]; intros i m id t; simpl.
  - split; [auto |]. intros [H | (_ & j & n & Hj & _)]; [exact H |].
    rewrite lookup_nil in Hj. discriminate.
  - rewrite IH. split.
    + intros [H | (-> & j & n' & Hj & Hid & Hbh)].
      * destruct (isBlackHole (clock i) n) eqn:Hn; [| auto].
        apply carries_pushTagOnce in H as [H | [-> ->]]; [auto |].
        right. split; [reflexivity |]. exists 0%nat, n.
        rewrite Nat.add_0_r. auto.
      * right. split; [reflexivity |]. exists (S j), n'.
        rewrite <- Nat.add_succ_comm. auto.
    + intros [H | (-> & j & n' & Hj & Hid & Hbh)].
      * left. destruct (isBlackHole (clock i) n); [| exact H].
        apply carries_pushTagOnce. auto.
      * destruct j as [|j]; simpl in Hj.
        -- injection Hj as ->. rewrite Nat.add_0_r in Hbh. rewrite Hbh.
           left. apply carries_pushTagOnce. auto.
        -- right. split; [reflexivity |]. exists j, n'.
           rewrite Nat.add_succ_comm. auto.
Qed.

Lemma fromEnd_snoc2 {A} (pre : list A) (x y : A) :
  fromEnd 2 (pre ++ [x; y]) = Some x /\ fromEnd 1 (pre ++ [x; y]) = Some y.
Proof.
  unfold fromEnd. rewrite length_app. simpl.
  destruct (length pre + 2 <? 2)%nat eqn:H2; [apply Nat.ltb_lt in H2; lia |].
  destruct (length pre + 2 <? 1)%nat eqn:H1; [apply Nat.ltb_lt in H1; lia |].
  split.
  - replace (length pre + 2 - 2)%nat with (length pre + 0)%nat by lia.
    rewrite lookup_app_r by lia.
    replace (length pre + 0 - length pre)%nat with 0%nat by lia. reflexivity.
  - replace (length pre + 2 - 1)%nat with (length pre + 1)%nat by lia.
    rewrite lookup_app_r by lia.
    replace (length pre + 1 - length pre)%nat with 1%nat by lia. reflexivity.
Qed.

Lemma fromEnd_2_1 {A} (l : list A) (x : A) :
  fromEnd 2 l = Some x -> exists y, fromEnd 1 l = Some y.
Proof.
  unfold fromEnd. destruct (length l <? 2)%nat eqn:H2; [discriminate |].
  apply Nat.ltb_ge in H2. intros _.
  destruct (length l <? 1)%nat eqn:H1; [apply Nat.ltb_lt in H1; lia |].
  apply lookup_lt_is_Some. lia.
Qed.

(** What the detector tags: the three rules, each reading exactly the data
    the code reads. *)
Lemma carries_tagNodes (clock : nat -> Z) (snapshots : list PNodeSnapshot)
    (cur : list PNode) (id : string) (t : NodeAnomaly) :
  carries (tagNodes clock snapshots cur) id t
  <-> (t = sudden_drop
       /\ exists prev, fromEnd 2 snapshots = Some prev
                       /\ droppedIn (indexById cur) (nodes prev) id)
      \/ (t = isolated
          /\ exists n, n ∈ cur /\ pnodeId n = id
                       /\ getRegionKey n ∈ isolatedRegionsOf cur)
      \/ (t = black_hole
          /\ exists j n, cur !! j = Some n /\ pnodeId n = id
                         /\ isBlackHole (clock j) n = true).
Proof.
  unfold tagNodes. rewrite carries_blackHole_pass. simpl.
  assert (forall m,
    carries (if bool_decide (isolatedRegionsOf cur = []) then m
             else foldl (isolateStep (isolatedRegionsOf cur)) m cur) id t
    <-> carries m id t
        \/ (t = isolated
            /\ exists n, n ∈ cur /\ pnodeId n = id
                         /\ getRegionKey n ∈ isolatedRegionsOf cur)) as Hiso.
  { intros m. case_bool_decide as Hnil.
    - rewrite Hnil. split; [auto |].
      intros [H | (_ & n & _ & _ & Hn)]; [exact H | inversion Hn].
    - apply carries_isolate_pass. }
  rewrite Hiso. clear Hiso.
  destruct (fromEnd 2 snapshots) as [prev|] eqn:Hprev.
  - destruct (fromEnd_2_1 _ _ Hprev) as [latest ->].
    rewrite carries_suddenDrop_pass.
    pose proof (carries_empty id t). naive_solver.
  - pose proof (carries_empty id t). naive_solver.
Qed.

Lemma analyzeFailures_anomalies (clock : nat -> Z)
    (snapshots : list PNodeSnapshot) (cur : list PNode) :
  cur <> [] ->
  anomaliesById (analyzeFailures clock snapshots cur)
  = tagNodes clock snapshots cur.
Proof.
  intros Hne. unfold analyzeFailures.
  rewrite bool_decide_eq_false_2 by exact Hne.
  destruct (partitionRules _ _). reflexivity.
Qed.

Lemma analyzeFailures_empty (clock : nat -> Z) (snapshots : list PNodeSnapshot) :
  analyzeFailures clock snapshots [] = mkFailureAnalysis ∅ false None.
Proof. reflexivity. Qed.

(** ** Sudden drops *)

(** C1, as the code has it: over a non-empty roster N+1 (ids distinct), a
    node online in snapshot N that is offline in, or absent from, snapshot
    N+1 carries [sudden_drop]; a node online in both does not.  The pair
    (N, N+1) is the tail of the history handed to the detector. *)
Theorem sudden_drop_tracks_online_then_gone
    (clock : nat -> Z) (pre : list PNodeSnapshot) (N N1 : PNodeSnapshot)
    (id : string) :
  nodes N1 <> [] ->
  uniqueIds (nodes N1) ->
  hasStatus (nodes N) id online ->
  ((hasStatus (nodes N1) id offline \/ absent (nodes N1) id) ->
   carries (anomaliesById (analyzeFailures clock (pre ++ [N; N1]) (nodes N1)))
     id sudden_drop)
  /\ (hasStatus (nodes N1) id online ->
      ~ carries (anomaliesById (analyzeFailures clock (pre ++ [N; N1]) (nodes N1)))
          id sudden_drop).
Proof.
  intros Hne Huniq (p & Hp & Hpid & Hpon).
  rewrite analyzeFailures_anomalies by exact Hne.
  rewrite carries_tagNodes.
  destruct (fromEnd_snoc2 pre N N1) as [-> _].
  split.
  - intros Hnow. left. split; [reflexivity |].
    exists N. split; [reflexivity |].
    exists p. repeat split; try assumption.
    destruct Hnow as [(n & Hn & Hnid & Hnoff) | Habs].
    + right. exists n. split; [| exact Hnoff].
      rewrite <- Hnid. apply indexById_unique; assumption.
    + left. apply indexById_None, Habs.
  - intros (n & Hn & Hnid & Hnon) [(_ & prev & [= <-] & Hdrop) | [[? _] | [? _]]];
      try discriminate.
    destruct Hdrop as (_ & _ & _ & _ & Hcur).
    pose proof (indexById_unique _ _ Huniq Hn) as Hidx. rewrite Hnid in Hidx.
    destruct Hcur as [Hnone | (n' & Hsome & Hoff)]; congruence.
Qed.

Lemma sudden_drop_tracks_online_then_gone_witness :
  let tags :=
    anomaliesById
      (analyzeFailures (fixedClock 30000) [snapshotN; snapshotN1]
         (nodes snapshotN1)) in
  carries tags "a" sudden_drop
  /\ carries tags "b" sudden_drop
  /\ ~ carries tags "c" sudden_drop.
Proof.
  assert (nodes snapshotN1 <> []) as Hne by discriminate.
  assert (uniqueIds (nodes snapshotN1)) as Huniq
    by (apply (bool_decide_unpack _); vm_compute; exact I).
  assert (forall id st, nodeAt id 10 20 st ∈ nodes snapshotN ->
                        hasStatus (nodes snapshotN) id st) as Hin
    by (intros id st H; eexists; split; [exact H | split; reflexivity]).
  split; [| split].
  - apply (sudden_drop_tracks_online_then_gone
             (fixedClock 30000) [] snapshotN snapshotN1 "a" Hne Huniq).
    + apply Hin. apply list_elem_of_here.
    + left. exists (nodeAt "a" 10 20 offline).
      split; [apply list_elem_of_here | split; reflexivity].
  - apply (sudden_drop_tracks_online_then_gone
             (fixedClock 30000) [] snapshotN snapshotN1 "b" Hne Huniq).
    + apply Hin. apply list_elem_of_further, list_elem_of_here.
    + right. intros n Hn. simpl in Hn.
      rewrite !elem_of_cons, elem_of_nil in Hn.
      destruct Hn as [-> | [-> | []]]; discriminate.
  - apply (sudden_drop_tracks_online_then_gone
             (fixedClock 30000) [] snapshotN snapshotN1 "c" Hne Huniq).
    + exists (nodeAt "c" 50 60 online).
      split; [do 2 apply list_elem_of_further; apply list_elem_of_here
             | split; reflexivity].
    + exists (nodeAt "c" 50 60 online).
      split; [apply list_elem_of_further, list_elem_of_here | split; reflexivity].
Defined.

(** C1 as stated fails when the fetch N+1 returns no node: the detector
    returns before it looks at snapshot N, so a node that was online and is
    now absent carries no tag. *)
Lemma sudden_drop_missed_on_empty_roster :
  hasStatus (nodes snapshotN) "a" online
  /\ absent (nodes snapshotEmpty) "a"
  /\ ~ carries
         (anomaliesById
            (analyzeFailures (fixedClock 30000) [snapshotN; snapshotEmpty]
               (nodes snapshotEmpty)))
         "a" sudden_drop.
Proof.
  split; [| split].
  - exists (nodeAt "a" 10 20 online).
    split; [apply list_elem_of_here | split; reflexivity].
  - intros n Hn. inversion Hn.
  - apply carries_empty.
Qed.

(** ** Ordered maps *)

Module OMapFacts.

Lemma get_set_eq {V} (k : string) (v : V) (m : OMap.t V) :
  OMap.get k (OMap.set k v m) = Some v.
Proof.
  induction m as [|[k' v'] m IH]; simpl.
  - rewrite String.eqb_refl. reflexivity.
  - destruct (String.eqb k k') eqn:E; simpl.
    + rewrite String.eqb_refl. reflexivity.
    + rewrite E. exact IH.
Qed.

Lemma get_set_ne {V} (k k' : string) (v : V) (m : OMap.t V) :
  k <> k' -> OMap.get k (OMap.set k' v m) = OMap.get k m.
Proof.
  intros Hne. induction m as [|[k0 v0] m IH]; simpl.
  - apply String.eqb_neq in Hne. rewrite Hne. reflexivity.
  - destruct (String.eqb k' k0) eqn:E; simpl.
    + apply String.eqb_eq in E. subst k0.
      apply String.eqb_neq in Hne. rewrite Hne. reflexivity.
    + rewrite IH. reflexivity.
Qed.

Lemma get_elem_of {V} (k : string) (v : V) (m : OMap.t V) :
  OMap.get k m = Some v -> (k, v) ∈ m.
Proof.
  induction m as [|[k' v'] m IH]; simpl; [discriminate |].
  destruct (String.eqb k k') eqn:E.
  - apply String.eqb_eq in E. intros [= ->]. subst. apply list_elem_of_here.
  - intros H. apply list_elem_of_further, IH, H.
Qed.

Lemma get_is_Some {V} (k : string) (v : V) (m : OMap.t V) :
  (k, v) ∈ m -> is_Some (OMap.get k m).
Proof.
  induction m as [|[k' v'] m IH]; simpl; [intros H; inversion H |].
  rewrite elem_of_cons. destruct (String.eqb k k') eqn:E; [eauto |].
  intros [[= -> ->] | H]; [| apply IH, H].
  rewrite String.eqb_refl in E. discriminate.
Qed.

Lemma set_keys {V} (k : string) (v : V) (m : OMap.t V) :
  (OMap.set k v m).*1 = if decide (k ∈ m.*1) then m.*1 else m.*1 ++ [k].
Proof.
  induction m as [|[k' v'] m IH].
  - destruct (decide (k ∈ ([] : OMap.t V).*1)) as [Hin|_]; [inversion Hin |].
    reflexivity.
  - cbn [OMap.set]. destruct (String.eqb k k') eqn:E.
    + apply String.eqb_eq in E. subst k'.
      destruct (decide (k ∈ ((k, v') :: m).*1)) as [_|Hout]; [reflexivity |].
      exfalso. apply Hout, list_elem_of_here.
    + apply String.eqb_neq in E. rewrite !fmap_cons, IH. cbn [fst].
      destruct (decide (k ∈ m.*1)) as [Hin|Hout];
        destruct (decide (k ∈ k' :: m.*1)) as [Hin'|Hout'];
        try reflexivity.
      * exfalso. apply Hout', list_elem_of_further, Hin.
      * exfalso. apply elem_of_cons in Hin' as [Heq | Hin']; auto.
Qed.

Lemma set_keys_NoDup {V} (k : string) (v : V) (m : OMap.t V) :
  NoDup m.*1 -> NoDup (OMap.set k v m).*1.
Proof.
  intros Hnd. rewrite set_keys. destruct (decide (k ∈ m.*1)); [exact Hnd |].
  apply NoDup_app. split; [exact Hnd |]. split; [| apply NoDup_singleton].
  intros x Hx ->%list_elem_of_singleton. contradiction.
Qed.

Lemma elem_of_get {V} (k : string) (v : V) (m : OMap.t V) :
  NoDup m.*1 -> (k, v) ∈ m -> OMap.get k m = Some v.
Proof.
  induction m as [|[k' v'] m IH]; simpl; [intros _ H; inversion H |].
  rewrite NoDup_cons, elem_of_cons. intros [Hfresh Hnd] [[= -> ->] | Hin].
  - rewrite String.eqb_refl. reflexivity.
  - destruct (String.eqb k k') eqn:E; [| apply IH; assumption].
    apply String.eqb_eq in E. subst k'. exfalso. apply Hfresh.
    apply list_elem_of_fmap. exists (k, v). auto.
Qed.

End OMapFacts.

(** ** Region tallies *)

Lemma bucket_snoc (key : string) (ns : list PNode) (x : PNode) :
  bucket key (ns ++ [x])
  = bucket key ns ++ (if decide (getRegionKey x = key) then [x] else []).
Proof.
  unfold bucket. rewrite filter_app. f_equal.
Qed.

Lemma offlineCountOf_snoc (ns : list PNode) (x : PNode) :
  offlineCountOf (ns ++ [x])
  = (offlineCountOf ns + (if isOffline x then 1 else 0))%nat.
Proof.
  unfold offlineCountOf. rewrite filter_app, length_app. f_equal.
  rewrite filter_cons, filter_nil.
  destruct (isOffline x); [rewrite decide_True | rewrite decide_False];
    (reflexivity || discriminate).
Qed.

Lemma tallyStep_set (m : OMap.t RegionTally) (x : PNode) :
  tallyStep m x
  = let s := default (mkTally 0 0) (OMap.get (getRegionKey x) m) in
    OMap.set (getRegionKey x)
      (mkTally (total s + 1) (offlineIn s + (if isOffline x then 1 else 0))) m.
Proof.
  unfold tallyStep. simpl. destruct (isOffline x); simpl; [reflexivity |].
  rewrite Nat.add_0_r. reflexivity.
Qed.

Lemma regionTotals_get (key : string) (roster : list PNode) :
  OMap.get key (regionTotalsOf roster)
  = if decide (bucket key roster = []) then None
    else Some (tallyOf key roster).
Proof.
  induction roster as [|x ns IH] using rev_ind; [reflexivity |].
  unfold regionTotalsOf in *. rewrite foldl_snoc, tallyStep_set. simpl.
  unfold tallyOf. rewrite bucket_snoc.
  destruct (decide (getRegionKey x = key)) as [<-|Hne].
  - rewrite OMapFacts.get_set_eq.
    destruct (decide (bucket (getRegionKey x) ns ++ [x] = [])) as [H|_];
      [apply app_eq_nil in H as [_ H]; discriminate |].
    f_equal. rewrite length_app, offlineCountOf_snoc, IH. simpl.
    destruct (decide (bucket (getRegionKey x) ns = [])) as [->|_]; reflexivity.
  - rewrite OMapFacts.get_set_ne by congruence. rewrite IH, app_nil_r.
    reflexivity.
Qed.

Lemma Qeq_bool_count_pos (n : nat) :
  (0 < n)%nat -> Qeq_bool (inject_Z (Z.of_nat n)) 0 = false.
Proof.
  intros Hn. destruct (Qeq_bool _ _) eqn:E; [| reflexivity].
  apply Qeq_bool_eq in E. unfold Qeq in E. simpl in E. lia.
Qed.

(** dividing two counts, the divisor not zero *)
Lemma ndiv_counts (a b : nat) :
  (0 < b)%nat ->
  (ofNat a / ofNat b)%num
  = Fin (inject_Z (Z.of_nat a) / inject_Z (Z.of_nat b)).
Proof.
  intros Hb. unfold ofNat. cbn [ndiv].
  rewrite Qeq_bool_count_pos by exact Hb. reflexivity.
Qed.

Lemma isIsolatedTally_spec (tot off : nat) :
  isIsolatedTally (mkTally tot off) = true
  <-> (5 <= tot)%nat
      /\ 0.6 <= inject_Z (Z.of_nat off) / inject_Z (Z.of_nat tot).
Proof.
  unfold isIsolatedTally, nge. cbn [total offlineIn].
  rewrite andb_true_iff.
  assert (nle (Fin 5) (ofNat tot) = true <-> (5 <= tot)%nat) as ->.
  { unfold ofNat. cbn [nle]. rewrite Qle_bool_iff.
    change 5 with (inject_Z 5). rewrite <- Zle_Qle. lia. }
  split; intros [H5 Hr]; (split; [exact H5 |]).
  - rewrite ndiv_counts in Hr by lia. apply Qle_bool_iff, Hr.
  - rewrite ndiv_counts by lia. apply Qle_bool_iff, Hr.
Qed.

Lemma regionTotals_keys_NoDup (roster : list PNode) :
  NoDup (regionTotalsOf roster).*1.
Proof.
  induction roster as [|x ns IH] using rev_ind; [apply NoDup_nil_2 |].
  unfold regionTotalsOf in *. rewrite foldl_snoc, tallyStep_set.
  apply OMapFacts.set_keys_NoDup, IH.
Qed.

(** the regions the detector lists are exactly the isolated buckets *)
Lemma isolatedRegions_spec (key : string) (roster : list PNode) :
  key ∈ isolatedRegionsOf roster <-> isolatedBucket key roster.
Proof.
  unfold isolatedRegionsOf, isolatedBucket, offlineRatio.
  rewrite <- isIsolatedTally_spec. fold (tallyOf key roster).
  rewrite list_elem_of_fmap. split.
  - intros ([k v] & -> & Hin). simpl.
    apply list_elem_of_filter in Hin as [Hiso Hin]. simpl in Hiso.
    apply OMapFacts.elem_of_get in Hin; [| apply regionTotals_keys_NoDup].
    rewrite regionTotals_get in Hin.
    destruct (decide (bucket k roster = [])); [discriminate |].
    injection Hin as <-. apply Is_true_true, Hiso.
  - intros Hiso. exists (key, tallyOf key roster). split; [reflexivity |].
    apply list_elem_of_filter. split; [apply Is_true_true, Hiso |].
    apply OMapFacts.get_elem_of. rewrite regionTotals_get.
    rewrite decide_False; [reflexivity |].
    apply isIsolatedTally_spec in Hiso as [H5 _].
    intros Hnil. rewrite Hnil in H5. simpl in H5. lia.
Qed.

Lemma filter_keys_NoDup {V} (P : string * V -> Prop) `{!forall kv, Decision (P kv)}
    (m : OMap.t V) :
  NoDup m.*1 -> NoDup (filter P m).*1.
Proof.
  induction m as [|[k v] m IH]; [intros _; apply NoDup_nil_2 |].
  intros Hnd. rewrite fmap_cons in Hnd. apply NoDup_cons in Hnd as [Hfresh Hnd].
  rewrite filter_cons. destruct (decide (P (k, v))); [| apply IH, Hnd].
  rewrite fmap_cons. apply NoDup_cons. split; [| apply IH, Hnd].
  intros Hin. apply Hfresh.
  apply list_elem_of_fmap in Hin as ([k' v'] & -> & Hin).
  apply list_elem_of_filter in Hin as [_ Hin].
  apply list_elem_of_fmap. exists (k', v'). auto.
Qed.

Lemma isolatedRegions_NoDup (roster : list PNode) :
  NoDup (isolatedRegionsOf roster).
Proof. apply filter_keys_NoDup, regionTotals_keys_NoDup. Qed.

(** ** Isolated regions and the verdict *)

Lemma elem_of_bucket (key : string) (roster : list PNode) (n : PNode) :
  n ∈ bucket key roster <-> getRegionKey n = key /\ n ∈ roster.
Proof. unfold bucket. rewrite list_elem_of_filter. reflexivity. Qed.

Lemma carries_isolated (clock : nat -> Z) (snapshots : list PNodeSnapshot)
    (roster : list PNode) (id : string) :
  carries (anomaliesById (analyzeFailures clock snapshots roster)) id isolated
  <-> exists n, n ∈ roster /\ pnodeId n = id
                /\ isolatedBucket (getRegionKey n) roster.
Proof.
  destruct roster as [|x roster].
  - rewrite analyzeFailures_empty. simpl. split.
    + intros H. destruct (carries_empty _ _ H).
    + intros (n & Hn & _). inversion Hn.
  - rewrite analyzeFailures_anomalies by discriminate.
    rewrite carries_tagNodes. setoid_rewrite isolatedRegions_spec.
    split; [| intros H; right; left; split; [reflexivity | exact H]].
    intros [[? _] | [[_ H] | [? _]]]; (discriminate || exact H).
Qed.

(** C5. In a bucket of exactly five roster entries: with exactly three
    offline the bucket is listed as isolated and each of its nodes carries
    [isolated]; with exactly two offline the bucket is not listed, and a
    node all of whose roster entries lie in the bucket does not carry the
    tag. *)
Theorem bucket_of_five_isolated_from_three_offline
    (clock : nat -> Z) (snapshots : list PNodeSnapshot) (roster : list PNode)
    (key : string) :
  length (bucket key roster) = 5%nat ->
  (offlineCountOf (bucket key roster) = 3%nat ->
   key ∈ isolatedRegionsOf roster
   /\ forall n, n ∈ bucket key roster ->
        carries (anomaliesById (analyzeFailures clock snapshots roster))
          (pnodeId n) isolated)
  /\ (offlineCountOf (bucket key roster) = 2%nat ->
      (key ∉ isolatedRegionsOf roster)
      /\ forall n, n ∈ bucket key roster ->
           (forall n', n' ∈ roster -> pnodeId n' = pnodeId n ->
                       getRegionKey n' = key) ->
           ~ carries (anomaliesById (analyzeFailures clock snapshots roster))
               (pnodeId n) isolated).
Proof.
  intros H5. split.
  - intros H3.
    assert (isolatedBucket key roster) as Hiso.
    { unfold isolatedBucket, offlineRatio. rewrite H5, H3.
      split; [lia | apply Qle_bool_iff; reflexivity]. }
    split; [apply isolatedRegions_spec, Hiso |].
    intros n [Hkey Hn]%elem_of_bucket. apply carries_isolated.
    exists n. rewrite Hkey. auto.
  - intros H2.
    assert (~ isolatedBucket key roster) as Hiso.
    { unfold isolatedBucket, offlineRatio. rewrite H5, H2.
      intros [_ H]. apply Qle_bool_iff in H. discriminate. }
    split; [rewrite isolatedRegions_spec; exact Hiso |].
    intros n _ Hall (n' & Hn' & Hid & Hiso')%carries_isolated.
    rewrite (Hall n' Hn' Hid) in Hiso'. contradiction.
Qed.

Lemma bucket_of_five_isolated_from_three_offline_witness :
  ("10:20" ∈ isolatedRegionsOf regionDown
   /\ forall n, n ∈ bucket "10:20" regionDown ->
        carries (anomaliesById (analyzeFailures (fixedClock 0) [] regionDown))
          (pnodeId n) isolated)
  /\ "10:20" ∉ isolatedRegionsOf regionUp.
Proof.
  split.
  - apply (bucket_of_five_isolated_from_three_offline
             (fixedClock 0) [] regionDown "10:20"); reflexivity.
  - apply (bucket_of_five_isolated_from_three_offline
             (fixedClock 0) [] regionUp "10:20"); reflexivity.
Defined.

Lemma partitionRules_isolated (m : gmap string (list NodeAnomaly))
    (roster : list PNode) :
  isolatedRegionsOf roster <> [] ->
  partitionRules m roster
  = (true,
     Some ("Region outage or isolation in "
           +:+ join ", " (isolatedRegionsOf roster))).
Proof.
  intros Hne. unfold partitionRules.
  rewrite bool_decide_eq_false_2 by exact Hne. reflexivity.
Qed.

(** whenever rules 1 to 3 suspect a partition they attach a reason, so
    the guard of the probable-cause hints is never satisfied *)
Lemma partitionRules_reason (m : gmap string (list NodeAnomaly))
    (roster : list PNode) :
  ((partitionRules m roster).1 = true ->
   exists s, (partitionRules m roster).2 = Some s /\ s <> "")
  /\ (partitionRules m roster).1 && falsyReason (partitionRules m roster).2
     = false.
Proof.
  unfold partitionRules.
  destruct (negb (bool_decide (isolatedRegionsOf roster = []))).
  { split; [intros _; eexists; split; [reflexivity | discriminate] |].
    reflexivity. }
  destruct (_ && _).
  { split; [intros _; eexists; split; [reflexivity | discriminate] |].
    reflexivity. }
  destruct (_ <? _)%nat.
  { split; [intros _; eexists; split; [reflexivity | discriminate] |].
    reflexivity. }
  split; [discriminate | reflexivity].
Qed.

(** the verdict the detector returns is the one rules 1 to 3 produce *)
Lemma analyzeFailures_verdict (clock : nat -> Z)
    (snapshots : list PNodeSnapshot) (roster : list PNode) :
  roster <> [] ->
  partitionSuspected (analyzeFailures clock snapshots roster)
  = (partitionRules (tagNodes clock snapshots roster) roster).1
  /\ partitionReason (analyzeFailures clock snapshots roster)
     = (partitionRules (tagNodes clock snapshots roster) roster).2.
Proof.
  intros Hne. unfold analyzeFailures.
  rewrite bool_decide_eq_false_2 by exact Hne.
  destruct (partitionRules_reason (tagNodes clock snapshots roster) roster)
    as [_ Hguard].
  destruct (partitionRules _ _) as [suspected reason]. simpl in *.
  rewrite Hguard. split; reflexivity.
Qed.

(** C2. A roster that holds an isolated region and has more offline than
    online nodes gets the isolated-region verdict: suspected, with the
    reason naming the comma-joined isolated bucket keys, and not the
    majority-offline reason. *)
Theorem isolated_region_reason_wins
    (clock : nat -> Z) (snapshots : list PNodeSnapshot) (roster : list PNode)
    (key : string) :
  isolatedBucket key roster ->
  (onlineCountOf roster < offlineCountOf roster)%nat ->
  partitionSuspected (analyzeFailures clock snapshots roster) = true
  /\ partitionReason (analyzeFailures clock snapshots roster)
     = Some ("Region outage or isolation in "
             +:+ join ", " (isolatedRegionsOf roster))
  /\ (forall k, k ∈ isolatedRegionsOf roster <-> isolatedBucket k roster)
  /\ NoDup (isolatedRegionsOf roster)
  /\ partitionReason (analyzeFailures clock snapshots roster)
     <> Some "Majority of pNodes appear offline or unreachable".
Proof.
  intros Hiso _.
  assert (key ∈ isolatedRegionsOf roster) as Hkey
    by (apply isolatedRegions_spec, Hiso).
  assert (isolatedRegionsOf roster <> []) as Hne
    by (intros Hnil; rewrite Hnil in Hkey; inversion Hkey).
  assert (roster <> []) as Hroster.
  { intros ->. destruct Hiso as [H5 _]. simpl in H5. lia. }
  destruct (analyzeFailures_verdict clock snapshots roster Hroster) as [-> ->].
  rewrite partitionRules_isolated by exact Hne. simpl.
  split; [reflexivity |]. split; [reflexivity |].
  split; [intros k; apply isolatedRegions_spec |].
  split; [apply isolatedRegions_NoDup | discriminate].
Qed.

Lemma isolated_region_reason_wins_witness :
  partitionSuspected (analyzeFailures (fixedClock 0) [] regionDown) = true
  /\ partitionReason (analyzeFailures (fixedClock 0) [] regionDown)
     = Some "Region outage or isolation in 10:20"
  /\ (onlineCountOf regionDown < offlineCountOf regionDown)%nat.
Proof.
  assert (isolatedBucket "10:20" regionDown) as Hiso
    by (split; [vm_compute; lia | apply Qle_bool_iff; reflexivity]).
  assert (onlineCountOf regionDown < offlineCountOf regionDown)%nat as Hmaj
    by (vm_compute; lia).
  destruct (isolated_region_reason_wins (fixedClock 0) [] regionDown "10:20"
              Hiso Hmaj) as (Hs & Hr & _).
  split; [exact Hs |]. split; [| exact Hmaj].
  rewrite Hr. reflexivity.
Defined.

(** without an isolated region the same majority gets the majority
    reason: the order of the rules is what decides *)
Example majority_reason_without_isolated_region :
  isolatedRegionsOf scatteredOffline = []
  /\ partitionReason (analyzeFailures (fixedClock 0) [] scatteredOffline)
     = Some "Majority of pNodes appear offline or unreachable".
Proof. split; reflexivity. Qed.

(** C9. A suspected partition always comes with a reason: the verdict's
    reason is the non-empty text of the rule that fired, and the branch
    computing a probable cause for a reasonless verdict is never taken. *)
Theorem suspected_partition_has_reason
    (clock : nat -> Z) (snapshots : list PNodeSnapshot) (roster : list PNode) :
  partitionSuspected (analyzeFailures clock snapshots roster) = true ->
  (exists s, partitionReason (analyzeFailures clock snapshots roster) = Some s
             /\ s <> "")
  /\ partitionReason (analyzeFailures clock snapshots roster)
     = (partitionRules (tagNodes clock snapshots roster) roster).2
  /\ (partitionRules (tagNodes clock snapshots roster) roster).1
     && falsyReason (partitionRules (tagNodes clock snapshots roster) roster).2
     = false.
Proof.
  destruct roster as [|x roster]; [discriminate |].
  destruct (analyzeFailures_verdict clock snapshots (x :: roster)) as [-> ->];
    [discriminate |].
  destruct (partitionRules_reason (tagNodes clock snapshots (x :: roster))
              (x :: roster)) as [Hreason Hguard].
  intros Hs. split; [apply Hreason, Hs |]. split; [reflexivity | exact Hguard].
Qed.

Lemma suspected_partition_has_reason_witness :
  exists s, partitionReason (analyzeFailures (fixedClock 0) [] regionDown) = Some s
            /\ s <> "".
Proof.
  apply (suspected_partition_has_reason (fixedClock 0) [] regionDown).
  reflexivity.
Defined.

(** ** Snapshot history *)

Lemma sliceLast_length {A} (n : nat) (l : list A) :
  length (sliceLast n l) = Nat.min n (length l).
Proof. unfold sliceLast. rewrite length_drop. lia. Qed.

Lemma sliceLast_suffix {A} (n : nat) (l : list A) :
  l = take (length l - n) l ++ sliceLast n l.
Proof. unfold sliceLast. symmetry. apply take_drop. Qed.

Lemma sliceLast_snoc {A} (n : nat) (l : list A) (x : A) :
  (0 < n)%nat -> last (sliceLast n (l ++ [x])) = Some x.
Proof.
  intros Hn. unfold sliceLast. rewrite length_app. cbn [length].
  destruct (decide (length l + 1 - n <= length l)%nat) as [Hle|Hgt]; [| lia].
  rewrite drop_app_le by exact Hle. apply last_snoc.
Qed.

Lemma history_snoc (fetches : list (Z * list PNode)) (f : Z * list PNode) :
  history (fetches ++ [f]) = appendSnapshot f.1 f.2 (history fetches).
Proof. unfold history. rewrite foldl_snoc. reflexivity. Qed.

(** C4. After any append the history holds at most 500 snapshots, the new
    one last and the retained ones in arrival order; an append to a full
    history drops exactly the oldest entry.  The bound therefore holds for
    the history reached after any run of fetches. *)
Theorem history_bounded_oldest_evicted
    (now : Z) (data : list PNode) (prev : list PNodeSnapshot)
    (fetches : list (Z * list PNode)) :
  let next := appendSnapshot now data prev in
  let new := mkSnapshot (Fin (inject_Z now)) data None in
  (length next <= 500)%nat
  /\ last next = Some new
  /\ prev ++ [new] = take (length prev + 1 - 500) (prev ++ [new]) ++ next
  /\ (length prev = 500%nat ->
      length next = 500%nat
      /\ exists oldest, head prev = Some oldest /\ oldest :: next = prev ++ [new])
  /\ (length prev < 500 -> next = prev ++ [new])%nat
  /\ (length (history fetches) <= 500)%nat.
Proof.
  intros next new. subst next. unfold appendSnapshot. fold new.
  change HISTORY_CAPACITY with 500%nat.
  split; [rewrite sliceLast_length; lia |].
  split; [apply sliceLast_snoc; lia |].
  split.
  { pose proof (sliceLast_suffix 500 (prev ++ [new])) as H.
    rewrite length_app in H. exact H. }
  split.
  { intros Hfull.
    split; [rewrite sliceLast_length, length_app; cbn [length]; lia |].
    destruct prev as [|oldest rest]; [discriminate |].
    exists oldest. split; [reflexivity |].
    unfold sliceLast. rewrite length_app. cbn [length] in *.
    replace (S (length rest) + 1 - 500)%nat with 1%nat by lia. reflexivity. }
  split.
  { intros Hroom. unfold sliceLast. rewrite length_app. cbn [length].
    replace (length prev + 1 - 500)%nat with 0%nat by lia. reflexivity. }
  induction fetches as [|f fs IH] using rev_ind; [cbn [history foldl length]; lia |].
  rewrite history_snoc. unfold appendSnapshot.
  rewrite sliceLast_length. change HISTORY_CAPACITY with 500%nat. lia.
Qed.

(** one more fetch on a full history: 500 entries stay, the first is gone *)
Lemma history_bounded_oldest_evicted_witness :
  length fullHistory = 500%nat
  /\ length (appendSnapshot 500 [] fullHistory) = 500%nat
  /\ exists oldest,
       head fullHistory = Some oldest
       /\ timestamp oldest = Fin (inject_Z 0)
       /\ oldest :: appendSnapshot 500 [] fullHistory
          = fullHistory ++ [mkSnapshot (Fin (inject_Z 500)) [] None].
Proof.
  assert (length fullHistory = 500%nat) as Hfull by (vm_compute; reflexivity).
  destruct (history_bounded_oldest_evicted 500 [] fullHistory [])
    as (_ & _ & _ & Hevict & _).
  destruct (Hevict Hfull) as (Hlen & oldest & Hhead & Hkept).
  split; [exact Hfull |]. split; [exact Hlen |].
  exists oldest. split; [exact Hhead |]. split; [| exact Hkept].
  vm_compute in Hhead. injection Hhead as <-. reflexivity.
Defined.

(** ** Black holes and stale nodes *)

Lemma carries_black_hole (clock : nat -> Z) (snapshots : list PNodeSnapshot)
    (roster : list PNode) (id : string) :
  carries (anomaliesById (analyzeFailures clock snapshots roster)) id black_hole
  <-> exists j n, roster !! j = Some n /\ pnodeId n = id
                  /\ isBlackHole (clock j) n = true.
Proof.
  destruct roster as [|x roster].
  - rewrite analyzeFailures_empty. simpl. split.
    + intros H. destruct (carries_empty _ _ H).
    + intros (j & n & Hj & _). rewrite lookup_nil in Hj. discriminate.
  - rewrite analyzeFailures_anomalies by discriminate.
    rewrite carries_tagNodes.
    split; [| intros H; right; right; split; [reflexivity | exact H]].
    intros [[? _] | [[? _] | [_ H]]]; (discriminate || exact H).
Qed.

Lemma black_hole_of_entry (clock : nat -> Z) (snapshots : list PNodeSnapshot)
    (roster : list PNode) (n : PNode) :
  n ∈ roster ->
  (forall now, isBlackHole now n = true) ->
  carries (anomaliesById (analyzeFailures clock snapshots roster))
    (pnodeId n) black_hole.
Proof.
  intros [j Hj]%list_elem_of_lookup Hbh. apply carries_black_hole.
  exists j, n. auto.
Qed.

Lemma freshnessOf_twenty_minutes (now : Z) :
  freshnessOf now (Some (now - TWENTY_MIN)%Z) = (Fin 0, true).
Proof.
  unfold freshnessOf.
  replace (now - (now - TWENTY_MIN))%Z with TWENTY_MIN by lia.
  reflexivity.
Qed.

(** C6, as the code has it: an offline node last seen 20 minutes ago with
    a peer count of 0 (read or defaulted) and no other telemetry scores
    between 0.44 and 0.59 whatever [log10] returns, which is tier
    [warning]; its reasons are the low-peer and the stale-gossip ones, and
    the detector tags it [black_hole] in every roster that holds it. *)
Theorem stale_offline_node_is_warning_and_black_hole
    (log10 : num -> num) (now : Z) (node : PNode) (q : Q) :
  status node = offline ->
  lastSeen node = Some (now - TWENTY_MIN)%Z ->
  default (Fin 0) (peers_seen node ?? peersSeen node) = Fin q ->
  q == 0 ->
  onlyPeersTelemetry node ->
  tier (computeNodeHealth log10 now node) = warning
  /\ reasons (computeNodeHealth log10 now node)
     = ["Low peer count in gossip"; "Not seen in recent gossip window"]
  /\ (exists s, score (computeNodeHealth log10 now node) = Fin s
                /\ 0.44 <= s <= 0.59)
  /\ forall clock snapshots roster,
       node ∈ roster ->
       carries (anomaliesById (analyzeFailures clock snapshots roster))
         (pnodeId node) black_hole.
Proof.
  intros Hst Hseen Hpeers Hq
    (Hd1 & Hd2 & Hl1 & Hl2 & Hu1 & Hu2 & Hu3 & Ha1 & Ha2 & Ha3 & _).
  assert (forall t, isBlackHole t node = true) as Hbh.
  { intros t. unfold isBlackHole. rewrite Hpeers. cbv zeta.
    assert (nlt (Fin q) (Fin 2) = true) as ->
      by (apply Qltb_true; lra).
    rewrite orb_true_r. reflexivity. }
  assert (exists s,
    score (computeNodeHealth log10 now node) = Fin s /\ 0.44 <= s <= 0.59
    /\ reasons (computeNodeHealth log10 now node)
       = ["Low peer count in gossip"; "Not seen in recent gossip window"]
    /\ tier (computeNodeHealth log10 now node) = tierOf (Fin s))
    as (s & Hs & Hbounds & Hreasons & Htier).
  { unfold computeNodeHealth.
    rewrite Hst, Hseen, Hpeers, Hd1, Hd2, Hl1, Hl2, Hu1, Hu2, Hu3, Ha1, Ha2, Ha3.
    rewrite freshnessOf_twenty_minutes.
    cbv zeta. cbn [nullish default from_option id latencyOf statusBase].
    destruct (clamp01_unit (log10 (Fin 1 + Fin q)%num / Fin 2)%num)
      as (p & -> & Hp).
    assert (nlt (Fin q) (Fin 3) = true) as -> by (apply Qltb_true; lra).
    change (diversityScoreOf (Fin 0)) with (Fin 0.5).
    change (clamp01 (Fin 0.8)) with (Fin 0.8).
    change (clamp01 (Fin 0.9)) with (Fin 0.9).
    cbn [nadd nmul nlt pushIf app].
    set (s := 0.2 * 0.25 + p * 0.15 + 0.5 * 0.15 + 0.7 * 0.15 + 0.8 * 0.15
              + 0.9 * 0.1 + 0 * 0.05).
    assert (0.44 <= s <= 0.59) as Hs by (subst s; lra).
    rewrite (clamp01_inside s) by lra.
    exists s. cbn [score reasons tier].
    split; [reflexivity |]. split; [exact Hs |]. split; [| reflexivity].
    reflexivity. }
  split.
  { rewrite Htier, tierOf_Fin.
    assert (Qltb s 0.4 = false) as -> by (apply Qltb_false; lra).
    assert (Qltb s 0.7 = true) as -> by (apply Qltb_true; lra).
    reflexivity. }
  split; [exact Hreasons |]. split; [exists s; auto |].
  intros clock snapshots roster Hin.
  apply black_hole_of_entry; assumption.
Qed.

Lemma stale_offline_node_is_warning_and_black_hole_witness :
  tier (computeNodeHealth log10_table 1700000000000
          (staleOfflineNode 1700000000000)) = warning
  /\ reasons (computeNodeHealth log10_table 1700000000000
                (staleOfflineNode 1700000000000))
     = ["Low peer count in gossip"; "Not seen in recent gossip window"]
  /\ carries
       (anomaliesById
          (analyzeFailures (fixedClock 1700000000000) []
             [staleOfflineNode 1700000000000]))
       "n1" black_hole.
Proof.
  destruct (stale_offline_node_is_warning_and_black_hole
              log10_table 1700000000000 (staleOfflineNode 1700000000000) 0)
    as (Htier & Hreasons & _ & Htag);
    try reflexivity.
  - repeat split; reflexivity.
  - split; [exact Htier |]. split; [exact Hreasons |].
    apply (Htag (fixedClock 1700000000000) []
             [staleOfflineNode 1700000000000]).
    apply list_elem_of_here.
Defined.

(** C6 as stated fails on the tier: the scenario node scores 0.44, which is
    [warning], not [bad]. *)
Lemma stale_offline_node_is_not_bad :
  is_value
    (score (computeNodeHealth log10_table 1700000000000
              (staleOfflineNode 1700000000000))) 0.44
  /\ tier (computeNodeHealth log10_table 1700000000000
             (staleOfflineNode 1700000000000)) = warning
  /\ tier (computeNodeHealth log10_table 1700000000000
             (staleOfflineNode 1700000000000)) <> bad.
Proof.
  split; [eexists; split; reflexivity |].
  split; [reflexivity | discriminate].
Qed.

(** ** Unparseable timestamps *)

(** C8, as the code has it: for a node whose [lastSeen] does not parse,
    the health scorer does not read the clock at all: freshness takes the
    neutral value 0.5 and the staleness reason stays out; the failure
    detector takes the age as [Infinity], which exceeds ten minutes, so the
    node is a black hole in every roster that holds it.  Neither path
    fails: both are total functions. *)
Theorem unparseable_last_seen_neutral_in_health_infinite_in_detector
    (log10 : num -> num) (now : Z) (node : PNode) :
  lastSeen node = None ->
  freshnessOf now (lastSeen node) = (Fin 0.5, false)
  /\ ("Not seen in recent gossip window"
       ∉ reasons (computeNodeHealth log10 now node))
  /\ (forall now', computeNodeHealth log10 now' node
                   = computeNodeHealth log10 now node)
  /\ ageMs now node = PInf
  /\ (ageMs now node >? TEN_MIN)%num = true
  /\ isBlackHole now node = true
  /\ forall clock snapshots roster,
       node ∈ roster ->
       carries (anomaliesById (analyzeFailures clock snapshots roster))
         (pnodeId node) black_hole.
Proof.
  intros Hseen.
  assert (forall t, ageMs t node = PInf) as Hage
    by (intros t; unfold ageMs; rewrite Hseen; reflexivity).
  assert (forall t, isBlackHole t node = true) as Hbh
    by (intros t; unfold isBlackHole; rewrite Hage; reflexivity).
  split; [rewrite Hseen; reflexivity |].
  split.
  { unfold computeNodeHealth. rewrite Hseen. cbn [freshnessOf].
    split_scores. cbv zeta. cbn [reasons].
    intros H. rewrite !elem_of_pushIf, elem_of_nil in H. naive_solver. }
  split; [intros now'; unfold computeNodeHealth; rewrite Hseen; reflexivity |].
  split; [apply Hage |].
  split; [rewrite Hage; reflexivity |].
  split; [apply Hbh |].
  intros clock snapshots roster Hin. apply black_hole_of_entry; assumption.
Qed.

Lemma unparseable_last_seen_neutral_in_health_infinite_in_detector_witness :
  freshnessOf 1700000000000 (lastSeen unparseableNode) = (Fin 0.5, false)
  /\ ageMs 1700000000000 unparseableNode = PInf
  /\ carries
       (anomaliesById
          (analyzeFailures (fixedClock 1700000000000) [] [unparseableNode]))
       "n2" black_hole.
Proof.
  destruct (unparseable_last_seen_neutral_in_health_infinite_in_detector
              log10_table 1700000000000 unparseableNode eq_refl)
    as (Hfresh & _ & _ & Hage & _ & _ & Htag).
  split; [exact Hfresh |]. split; [exact Hage |].
  apply (Htag (fixedClock 1700000000000) [] [unparseableNode]).
  apply list_elem_of_here.
Defined.

(** C8 as stated fails in the health scorer: with an unparseable
    [lastSeen] the freshness signal is 0.5, not the minimum 0 that a stale
    node gets, and the staleness reason does not fire. *)
Lemma unparseable_last_seen_not_stale_in_health :
  lastSeen unparseableNode = None
  /\ (freshnessOf 1700000000000 (lastSeen unparseableNode)).1 = Fin 0.5
  /\ (freshnessOf 1700000000000
        (lastSeen (staleOfflineNode 1700000000000))).1 = Fin 0
  /\ "Not seen in recent gossip window"
       ∉ reasons (computeNodeHealth log10_table 1700000000000 unparseableNode).
Proof.
  split; [reflexivity |]. split; [reflexivity |]. split; [reflexivity |].
  vm_compute. apply not_elem_of_nil.
Qed.

(** ** Synthetic history *)

Lemma jitterOf_range (idx i : nat) : 0 <= jitterOf idx i < 1.
Proof.
  unfold jitterOf.
  pose proof (Z.mod_pos_bound
                (Z.of_nat idx * 7919 + Z.of_nat i * 104729) 1000 eq_refl)
    as [Hlo Hhi].
  set (z := ((Z.of_nat idx * 7919 + Z.of_nat i * 104729) mod 1000)%Z) in *.
  assert (0 <= inject_Z z) as Hlo'
    by (change 0 with (inject_Z 0); rewrite <- Zle_Qle; exact Hlo).
  assert (inject_Z z < 1000) as Hhi'
    by (change 1000 with (inject_Z 1000); rewrite <- Zlt_Qlt; exact Hhi).
  split.
  - apply Qle_shift_div_l; lra.
  - apply Qlt_shift_div_r; lra.
Qed.

Lemma driftStatus_decays (s : PNodeStatus) (jitter : Q) :
  decaysTo s (driftStatus s jitter).
Proof.
  unfold decaysTo, driftStatus.
  destruct s; simpl; repeat (destruct (Qltb _ _)); auto.
Qed.

Lemma windowSec_cases (timeMode : TimeMode) :
  windowSec timeMode = 3600%Z \/ windowSec timeMode = 86400%Z
  \/ windowSec timeMode = 604800%Z.
Proof. destruct timeMode; simpl; auto. Qed.

Lemma isoRoundTrip_in_range (x : Q) :
  - inject_Z MAX_TIME <= x <= inject_Z MAX_TIME ->
  isoRoundTrip x = Some (Qtrunc x).
Proof.
  intros [Hlo Hhi]. unfold isoRoundTrip.
  apply Qle_bool_iff in Hlo, Hhi. rewrite Hlo, Hhi. reflexivity.
Qed.

Lemma mutateNode_clone (now : Z) (timeMode : TimeMode) (i idx : nat)
    (n : PNode) :
  (Z.abs now <= 8600000000000000)%Z ->
  match lastSeen n with
  | Some t => (Z.abs t <= 8600000000000000)%Z
  | None => True
  end ->
  exists m, mutateNode now timeMode i idx n = Some m /\ cloneOf n m.
Proof.
  intros Hnow Hseen. unfold mutateNode.
  set (base := match lastSeen n with
               | Some t => if bool_decide (t = 0%Z) then now else t
               | None => now
               end).
  assert (Z.abs base <= 8600000000000000)%Z as Hbase.
  { subst base. destruct (lastSeen n) as [t|]; [| exact Hnow].
    case_bool_decide; assumption. }
  rewrite isoRoundTrip_in_range.
  - simpl. eexists. split; [reflexivity |].
    split; [reflexivity | apply driftStatus_decays].
  - pose proof (jitterOf_range idx i) as [Hj0 Hj1].
    assert (inject_Z (-8600000000000000) <= inject_Z base) as Hb0
      by (rewrite <- Zle_Qle; lia).
    assert (inject_Z base <= inject_Z 8600000000000000) as Hb1
      by (rewrite <- Zle_Qle; lia).
    change (inject_Z (-8600000000000000)) with (-8600000000000000) in Hb0.
    change (inject_Z 8600000000000000) with 8600000000000000 in Hb1.
    change (inject_Z MAX_TIME) with 8640000000000000.
    destruct (windowSec_cases timeMode) as [-> | [-> | ->]];
      [change (inject_Z 3600) with 3600
      | change (inject_Z 86400) with 86400
      | change (inject_Z 604800) with 604800];
      split; nra.
Qed.

(** every clone is produced, in roster order *)
Lemma mutate_all (f : nat -> PNode -> option PNode) (ns : list PNode) :
  (forall idx n, n ∈ ns -> exists m, f idx n = Some m /\ cloneOf n m) ->
  exists ms, mapM id (imap f ns) = Some ms /\ Forall2 cloneOf ns ms.
Proof.
  revert f. induction ns as [|n ns IH]; intros f Hf.
  - exists []. split; [reflexivity | constructor].
  - destruct (Hf 0%nat n) as (m & Hm & Hclone); [apply list_elem_of_here |].
    destruct (IH (f ∘ S)) as (ms & Hms & Hall).
    { intros idx n' Hn'. apply Hf. apply list_elem_of_further, Hn'. }
    exists (m :: ms). split; [| constructor; assumption].
    rewrite imap_cons. cbn [mapM]. rewrite Hm. simpl. rewrite Hms. reflexivity.
Qed.

Lemma syntheticTime_value (now : Z) (timeMode : TimeMode) (i : nat) :
  syntheticTime now timeMode i
  = Fin (inject_Z now + - windowWidth timeMode
         + inject_Z (Z.of_nat (i + 1)) / inject_Z (Z.of_nat STEPS)
           * windowWidth timeMode).
Proof.
  unfold syntheticTime. rewrite ndiv_counts by (unfold STEPS; lia).
  reflexivity.
Qed.

Lemma windowWidth_pos (timeMode : TimeMode) : 0 < windowWidth timeMode.
Proof.
  unfold windowWidth. change 0 with (inject_Z 0). rewrite <- Zlt_Qlt.
  destruct (windowSec_cases timeMode) as [-> | [-> | ->]]; lia.
Qed.

Lemma syntheticSnapshot_ok (now : Z) (timeMode : TimeMode) (ns : list PNode)
    (i : nat) :
  datesInRange now ns ->
  exists s, syntheticSnapshot now timeMode ns i = Some s
            /\ synthetic s = Some true
            /\ timestamp s = syntheticTime now timeMode i
            /\ Forall2 cloneOf ns (nodes s).
Proof.
  intros [Hnow Hns]. unfold syntheticSnapshot.
  destruct (mutate_all (mutateNode now timeMode i) ns) as (ms & -> & Hall).
  { intros idx n Hn. apply mutateNode_clone; [exact Hnow |].
    rewrite Forall_forall in Hns. apply Hns, Hn. }
  simpl. eexists. repeat split. exact Hall.
Qed.

Lemma mapM_total {A B} (f : A -> option B) (P : A -> B -> Prop) (l : list A) :
  (forall x, x ∈ l -> exists y, f x = Some y /\ P x y) ->
  exists ys, mapM f l = Some ys /\ Forall2 P l ys.
Proof.
  induction l as [|x l IH]; intros Hf.
  - exists []. split; [reflexivity | constructor].
  - destruct (Hf x) as (y & Hy & HP); [apply list_elem_of_here |].
    destruct IH as (ys & Hys & Hall).
    { intros x' Hx'. apply Hf, list_elem_of_further, Hx'. }
    exists (y :: ys). split; [| constructor; assumption].
    cbn [mapM]. rewrite Hy. simpl. rewrite Hys. reflexivity.
Qed.

(** the synthesis succeeds and its [i]-th element is step [i] *)
Lemma synthesize_ok (now : Z) (timeMode : TimeMode) (ns : list PNode) :
  datesInRange now ns ->
  exists snaps,
    synthesize now timeMode ns = Some snaps
    /\ length snaps = 12%nat
    /\ forall i s, snaps !! i = Some s ->
         (i < 12)%nat
         /\ synthetic s = Some true
         /\ timestamp s = syntheticTime now timeMode i
         /\ Forall2 cloneOf ns (nodes s).
Proof.
  intros Hdates. unfold synthesize.
  destruct (mapM_total (syntheticSnapshot now timeMode ns)
              (fun i s => synthetic s = Some true
                          /\ timestamp s = syntheticTime now timeMode i
                          /\ Forall2 cloneOf ns (nodes s))
              (seq 0 STEPS)) as (snaps & Hsnaps & Hall).
  { intros i _.
    destruct (syntheticSnapshot_ok now timeMode ns i Hdates) as (s & ? & ?).
    eauto. }
  exists snaps. split; [exact Hsnaps |].
  pose proof (Forall2_length _ _ _ Hall) as Hlen.
  rewrite length_seq in Hlen. split; [symmetry; exact Hlen |].
  intros i s Hi.
  assert (i < 12)%nat as Hlt
    by (apply lookup_lt_Some in Hi; rewrite <- Hlen in Hi; exact Hi).
  split; [exact Hlt |].
  destruct (Forall2_lookup_r _ _ _ _ _ Hall Hi) as (i' & Hi' & HP).
  apply lookup_seq in Hi' as [-> _]. exact HP.
Qed.

Lemma filter_none {A} (P : A -> Prop) `{!forall x, Decision (P x)} (l : list A) :
  Forall (fun x => ~ P x) l -> filter P l = [].
Proof.
  induction 1 as [|x l Hx _ IH]; [reflexivity |].
  rewrite filter_cons, decide_False by exact Hx. exact IH.
Qed.

Lemma syntheticTime_increasing (now : Z) (timeMode : TimeMode) (i : nat) :
  (syntheticTime now timeMode i <? syntheticTime now timeMode (S i))%num = true.
Proof.
  rewrite !syntheticTime_value. cbn [nlt]. apply Qltb_true.
  pose proof (windowWidth_pos timeMode) as Hw.
  assert (inject_Z (Z.of_nat (i + 1)) + 1 == inject_Z (Z.of_nat (S i + 1))) as Hstep.
  { change 1 with (inject_Z 1). rewrite <- inject_Z_plus.
    apply inject_Z_injective. lia. }
  change (inject_Z (Z.of_nat STEPS)) with 12.
  set (a := inject_Z (Z.of_nat (i + 1))) in *.
  set (b := inject_Z (Z.of_nat (S i + 1))) in *.
  set (w := windowWidth timeMode) in *.
  assert (b / 12 * w == a / 12 * w + w / 12) as ->
    by (rewrite <- Hstep; field).
  assert (0 < w / 12) as Hu by (apply Qlt_shift_div_l; lra).
  set (t := a / 12 * w) in *. set (u := w / 12) in *.
  clearbody t u. lra.
Qed.

Lemma syntheticTime_last (now : Z) (timeMode : TimeMode) :
  is_value (syntheticTime now timeMode 11) (inject_Z now).
Proof.
  rewrite syntheticTime_value. eexists. split; [reflexivity |].
  change (inject_Z (Z.of_nat (11 + 1)) / inject_Z (Z.of_nat STEPS)) with (12 / 12).
  field.
Qed.

(** C7, as the code has it: with a window requested, a history that is not
    empty but holds nothing inside the window, and dates within the range
    of [Date], the resolver returns exactly 12 snapshots, each flagged
    synthetic.  Snapshot [i] is stamped [oldest + (i+1)/12 * width], so the
    stamps rise strictly and the last one is [now]; every node is the clone
    of the roster entry at its position, its status at most one step down
    along online, unknown, offline.  The snapshots are [synthesize] of the
    clock, the window and the roster alone. *)
Theorem empty_window_yields_twelve_synthetic_snapshots
    (now : Z) (timeMode : TimeMode) (timeIndex : Z)
    (store : list PNodeSnapshot) (ns : list PNode)
    (healthById : gmap string HealthDetails) :
  timeMode <> live ->
  store <> [] ->
  Forall (fun s => inWindow now timeMode s = false) store ->
  datesInRange now ns ->
  exists view,
    resolveTimeTravel now timeMode timeIndex store ns healthById = Some view
    /\ isSyntheticHistory view = true
    /\ synthesize now timeMode ns = Some (availableSnapshots view)
    /\ length (availableSnapshots view) = 12%nat
    /\ (forall i s, availableSnapshots view !! i = Some s ->
          synthetic s = Some true
          /\ is_value (timestamp s)
               (inject_Z now - windowWidth timeMode
                + inject_Z (Z.of_nat (i + 1)) / 12 * windowWidth timeMode)
          /\ Forall2 cloneOf ns (nodes s))
    /\ (forall i s s',
          availableSnapshots view !! i = Some s ->
          availableSnapshots view !! S i = Some s' ->
          (timestamp s <? timestamp s')%num = true)
    /\ (exists s, availableSnapshots view !! 11%nat = Some s
                  /\ is_value (timestamp s) (inject_Z now)).
Proof.
  intros Hmode Hstore Hout Hdates.
  destruct (synthesize_ok now timeMode ns Hdates) as (snaps & Hsyn & Hlen & Hall).
  unfold resolveTimeTravel.
  rewrite (bool_decide_eq_false_2 _ Hmode), (bool_decide_eq_false_2 _ Hstore).
  cbn [orb].
  rewrite (filter_none (fun s => inWindow now timeMode s = true)).
  2: { eapply Forall_impl; [exact Hout |]. intros s Hs. rewrite Hs. discriminate. }
  rewrite bool_decide_eq_true_2 by reflexivity.
  rewrite Hsyn. cbn [mbind option_bind].
  eexists. split; [reflexivity |]. cbn [isSyntheticHistory availableSnapshots].
  split; [reflexivity |]. split; [reflexivity |]. split; [exact Hlen |].
  split; [| split].
  - intros i s Hi. destruct (Hall i s Hi) as (_ & Hflag & Hts & Hclones).
    split; [exact Hflag |]. split; [| exact Hclones].
    rewrite Hts, syntheticTime_value. eexists. split; [reflexivity |].
    change (inject_Z (Z.of_nat STEPS)) with 12. unfold Qminus. reflexivity.
  - intros i s s' Hi Hi'.
    destruct (Hall i s Hi) as (_ & _ & -> & _).
    destruct (Hall (S i) s' Hi') as (_ & _ & -> & _).
    apply syntheticTime_increasing.
  - destruct (lookup_lt_is_Some_2 snaps 11) as [s Hs]; [lia |].
    exists s. split; [exact Hs |].
    destruct (Hall 11%nat s Hs) as (_ & _ & -> & _).
    apply syntheticTime_last.
Qed.

Lemma empty_window_yields_twelve_synthetic_snapshots_witness :
  exists view,
    resolveTimeTravel 1700000000000 window_1h 0 oldStore liveRoster ∅
    = Some view
    /\ isSyntheticHistory view = true
    /\ length (availableSnapshots view) = 12%nat
    /\ synthetic <$> availableSnapshots view = replicate 12 (Some true).
Proof.
  destruct (empty_window_yields_twelve_synthetic_snapshots
              1700000000000 window_1h 0 oldStore liveRoster ∅)
    as (view & Hview & Hsyn & _ & Hlen & _).
  - discriminate.
  - discriminate.
  - repeat constructor.
  - split; [vm_compute; discriminate |].
    repeat constructor; vm_compute; discriminate.
  - exists view. split; [exact Hview |]. split; [exact Hsyn |].
    split; [exact Hlen |].
    vm_compute in Hview. injection Hview as <-. reflexivity.
Defined.

(** C7 as stated fails on a history that holds no snapshot at all: no real
    snapshot falls in the window, yet the resolver stays on the live view
    and returns no synthetic snapshot. *)
Lemma empty_history_yields_no_synthetic_snapshot :
  Forall (fun s => inWindow 1700000000000 window_1h s = false) []
  /\ resolveTimeTravel 1700000000000 window_1h 0 [] liveRoster ∅
     = Some (mkView liveRoster ∅ false [])
  /\ length
       (availableSnapshots (mkView liveRoster ∅ false []))
     <> 12%nat.
Proof.
  split; [constructor |]. split; [reflexivity | discriminate].
Qed.

(* ===================================================================== *)
(** * Further properties of the scorers                                   *)
(* ===================================================================== *)

(** ** Reasons of the health scorer *)

Lemma health_reasons_shape (log10 : num -> num) (now : Z) (node : PNode) :
  exists b1 b2 b3 b4 b5 b6 : bool,
    let fired :=
      pushIf b6 "Not seen in recent gossip window"
        (pushIf b5 "Data availability below network baseline"
           (pushIf b4 "Uptime below target SLA"
              (pushIf b3 "High gossip response latency"
                 (pushIf b2 "Peers lack geographic / ASN diversity"
                    (pushIf b1 "Low peer count in gossip" []))))) in
    reasons (computeNodeHealth log10 now node)
    = pushIf (Nat.eqb (length fired) 0
              && isGood (tier (computeNodeHealth log10 now node)))
        "Healthy gossip connectivity and recent activity" fired.
Proof.
  unfold computeNodeHealth.
  destruct (latencyOf _) as [latencyScore slow].
  destruct (freshnessOf _ _) as [freshnessScore stale].
  cbv zeta. cbn [reasons tier].
  eexists _, _, _, _, _, _. reflexivity.
Qed.

Lemma isSubsequence_sound (l k : list string) :
  isSubsequence l k = true -> l `sublist_of` k.
Proof.
  revert l. induction k as [|y k IH]; intros [|x l]; simpl;
    try discriminate; try (intros _; apply sublist_nil_l).
  destruct (String.eqb x y) eqn:E.
  - apply String.eqb_eq in E. subst y. intros H. apply sublist_skip, IH, H.
  - intros H. apply sublist_cons, IH, H.
Qed.

(** X1. The reasons of a health result are a sub-sequence of the catalogue, so
    they are distinct and come in evaluation order; a [good] result always
    has a reason; the positive reason only ever stands alone. *)
Theorem health_reasons_follow_catalogue
    (log10 : num -> num) (now : Z) (node : PNode) :
  reasons (computeNodeHealth log10 now node) `sublist_of` healthReasonCatalogue
  /\ NoDup (reasons (computeNodeHealth log10 now node))
  /\ (tier (computeNodeHealth log10 now node) = good ->
      reasons (computeNodeHealth log10 now node) <> [])
  /\ ("Healthy gossip connectivity and recent activity"
        ∈ reasons (computeNodeHealth log10 now node) ->
      reasons (computeNodeHealth log10 now node)
      = ["Healthy gossip connectivity and recent activity"]
      /\ tier (computeNodeHealth log10 now node) = good).
Proof.
  destruct (health_reasons_shape log10 now node)
    as (b1 & b2 & b3 & b4 & b5 & b6 & ->).
  assert (NoDup healthReasonCatalogue) as Hcat
    by (apply (bool_decide_unpack _); vm_compute; exact I).
  assert (forall l : list string,
            l `sublist_of` healthReasonCatalogue -> NoDup l) as Hnd
    by (intros l Hl; eapply sublist_NoDup; eassumption).
  destruct (tier (computeNodeHealth log10 now node));
    destruct b1, b2, b3, b4, b5, b6; cbn;
    (split; [apply isSubsequence_sound; reflexivity |]);
    (split; [apply Hnd, isSubsequence_sound; reflexivity |]);
    (split; [discriminate |]);
    intros Hin; try (split; reflexivity);
    exfalso; revert Hin; apply (bool_decide_unpack _); vm_compute; exact I.
Qed.

(** ** The blended sum *)


Lemma latencyOf_unit (x : option num) : unit_interval (latencyOf x).1.
Proof.
  unfold latencyOf. destruct x as [ms|].
  - destruct (isNaN ms); [| apply clamp01_unit].
    exists 0.7. split; [reflexivity | lra].
  - exists 0.7. split; [reflexivity | lra].
Qed.

Lemma freshnessOf_unit (now : Z) (seen : option Z) :
  unit_interval (freshnessOf now seen).1.
Proof.
  unfold freshnessOf. destruct seen as [t|]; [apply clamp01_unit |].
  exists 0.5. split; [reflexivity | lra].
Qed.

Lemma statusBase_prior (s : PNodeStatus) : statusBase s = Fin (statusPrior s).
Proof. destruct s; reflexivity. Qed.

Lemma statusPrior_range (s : PNodeStatus) : 0.2 <= statusPrior s <= 0.9.
Proof. destruct s; simpl; lra. Qed.

(** the score is the weighted sum itself: six sub-scores of the unit
    interval that do not depend on the status, and the status prior *)
Lemma health_score_formula (log10 : num -> num) (now : Z) (node : PNode) :
  exists p d l u a f,
    (0 <= p <= 1 /\ 0 <= d <= 1 /\ 0 <= l <= 1)
    /\ (0 <= u <= 1 /\ 0 <= a <= 1 /\ 0 <= f <= 1)
    /\ forall s,
         score (computeNodeHealth log10 now (withStatus s node))
         = Fin (statusPrior s * 0.25 + p * 0.15 + d * 0.15 + l * 0.15
                + u * 0.15 + a * 0.1 + f * 0.05).
Proof.
  destruct (clamp01_unit
              (log10 (Fin 1 + default (Fin 0) (peers_seen node ?? peersSeen node))%num
               / Fin 2)%num) as (p & Hp & Hpb).
  destruct (clamp01_unit
              (orDefault (default (Fin 0) (peer_diversity node ?? peerDiversity node))
                 (Fin 0.5))) as (d & Hd & Hdb).
  destruct (latencyOf_unit (response_latency node ?? responseLatency node))
    as (l & Hl & Hlb).
  destruct (clamp01_unit
              (default (Fin 0.8)
                 (uptime node ?? uptime_ratio node ?? uptimeRatio node)))
    as (u & Hu & Hub).
  destruct (clamp01_unit
              (default (Fin 0.9)
                 (data_availability node ?? dataAvailability node
                  ?? dataAvailabilityRatio node))) as (a & Ha & Hab).
  destruct (freshnessOf_unit now (lastSeen node)) as (f & Hf & Hfb).
  exists p, d, l, u, a, f.
  split; [auto |]. split; [auto |].
  intros s. unfold computeNodeHealth, diversityScoreOf.
  cbn [withStatus status peers_seen peersSeen peer_diversity peerDiversity
       response_latency responseLatency uptime uptime_ratio uptimeRatio
       data_availability dataAvailability dataAvailabilityRatio lastSeen].
  rewrite Hp, Hd, Hu, Ha, statusBase_prior.
  destruct (latencyOf _) as [latencyScore slow].
  destruct (freshnessOf _ _) as [freshnessScore stale].
  cbn [fst] in Hl, Hf. subst latencyScore freshnessScore.
  cbv zeta. cbn [score nadd nmul].
  pose proof (statusPrior_range s) as Hs.
  rewrite clamp01_inside by lra.
  reflexivity.
Qed.

Lemma withStatus_same (node : PNode) : withStatus (status node) node = node.
Proof. destruct node; reflexivity. Qed.

Lemma health_score_range (log10 : num -> num) (now : Z) (node : PNode) :
  exists q, score (computeNodeHealth log10 now node) = Fin q
            /\ 0.05 <= q <= 0.975.
Proof.
  destruct (health_score_formula log10 now node)
    as (p & d & l & u & a & f & H1 & H2 & Hscore).
  specialize (Hscore (status node)). rewrite withStatus_same in Hscore.
  pose proof (statusPrior_range (status node)) as Hs.
  eexists. split; [exact Hscore | lra].
Qed.



(** ** Network health *)






(** ** Reputation *)

(** the reputation score is the weighted sum of four sub-scores of the
    unit interval and the health score handed in *)
Lemma reputation_formula (node : PNode) :
  exists u s l f,
    (0 <= u <= 1 /\ 0 <= s <= 1) /\ (0 <= l <= 1 /\ 0 <= f <= 1)
    /\ (noReputationTelemetry node ->
        u == 0.8 /\ s == 0.9 /\ l == 0.7 /\ f == 0.7)
    /\ forall health h,
         score health = Fin h ->
         computeReputation node health
         = let raw := clamp01 (Fin (u * 0.35 + s * 0.35 + l * 0.12 + f * 0.12
                                    + h * 0.06)) in
           mkReputation raw
             (if nge raw (Fin 0.8) then gold
              else if nlt raw (Fin 0.5) then risky else silver).
Proof.
  destruct (clamp01_unit
              (default (Fin 0.8)
                 (uptime node ?? uptime_ratio node ?? uptimeRatio node)))
    as (u & Hu & Hub).
  destruct (clamp01_unit
              (default (Fin 0.9)
                 (data_availability node ?? dataAvailability node
                  ?? dataAvailabilityRatio node))) as (s & Hs & Hsb).
  destruct (latencyOf_unit (response_latency node ?? responseLatency node))
    as (l & Hl & Hlb).
  destruct (clamp01_unit (default (Fin 0.7) (version_freshness node)))
    as (f & Hf & Hfb).
  exists u, s, l, f. split; [auto |]. split; [auto |]. split.
  - intros (Hl1 & Hl2 & Hu1 & Hu2 & Hu3 & Ha1 & Ha2 & Ha3 & Hv).
    rewrite Hu1, Hu2, Hu3 in Hu. rewrite Ha1, Ha2, Ha3 in Hs.
    rewrite Hl1, Hl2 in Hl. rewrite Hv in Hf.
    injection Hu as <-. injection Hs as <-. injection Hl as <-.
    injection Hf as <-. repeat split; reflexivity.
  - intros health h Hh. unfold computeReputation.
    rewrite Hu, Hs, Hl, Hf, Hh. reflexivity.
Qed.



(** X6. A node that reports none of the reputation telemetry is rated on the
    defaults: with the health the scorer gives it, its reputation lies
    between 0.766 and 0.8215 and is never [risky]. *)
Theorem reputation_on_defaults_never_risky
    (log10 : num -> num) (now : Z) (node : PNode) :
  noReputationTelemetry node ->
  exists r,
    rep_score (computeReputation node (computeNodeHealth log10 now node)) = Fin r
    /\ 0.766 <= r <= 0.8215
    /\ rep_tier (computeReputation node (computeNodeHealth log10 now node))
       <> risky.
Proof.
  intros Hnone.
  destruct (health_score_range log10 now node)
    as (h & Hh & Hhb).
  destruct (reputation_formula node)
    as (u & s & l & f & _ & _ & Hdef & Hrep).
  destruct (Hdef Hnone) as (Hu & Hs & Hl & Hf).
  rewrite (Hrep _ h Hh). cbv zeta. cbn [rep_score rep_tier].
  rewrite clamp01_inside by lra.
  eexists. split; [reflexivity |]. split; [lra |].
  cbn [nge nle nlt].
  destruct (Qle_bool 0.8 _); [discriminate |].
  assert (Qltb (u * 0.35 + s * 0.35 + l * 0.12 + f * 0.12 + h * 0.06) 0.5 = false)
    as -> by (apply Qltb_false; lra).
  discriminate.
Qed.

Lemma reputation_on_defaults_never_risky_witness :
  exists r,
    rep_score
      (computeReputation (staleOfflineNode 1700000000000)
         (computeNodeHealth log10_table 1700000000000
            (staleOfflineNode 1700000000000))) = Fin r
    /\ 0.766 <= r <= 0.8215
    /\ rep_tier
         (computeReputation (staleOfflineNode 1700000000000)
            (computeNodeHealth log10_table 1700000000000
               (staleOfflineNode 1700000000000))) <> risky.
Proof.
  apply (reputation_on_defaults_never_risky log10_table 1700000000000
           (staleOfflineNode 1700000000000)).
  repeat split; reflexivity.
Defined.

(* ===================================================================== *)
(** * Further properties of the region statistics                         *)
(* ===================================================================== *)

Lemma onlineCountOf_snoc (ns : list PNode) (x : PNode) :
  onlineCountOf (ns ++ [x])
  = (onlineCountOf ns + (if isOnline x then 1 else 0))%nat.
Proof.
  unfold onlineCountOf. rewrite filter_app, length_app. f_equal.
  rewrite filter_cons, filter_nil.
  destruct (isOnline x); [rewrite decide_True | rewrite decide_False];
    (reflexivity || discriminate).
Qed.

Lemma regionStatsStep_set (m : OMap.t RegionStats) (x : PNode) :
  regionStatsStep m x
  = let s := default (mkRegionStats 0 0 0) (OMap.get (getRegionKey x) m) in
    OMap.set (getRegionKey x)
      (mkRegionStats (rs_total s + 1)
         (rs_online s + (if isOnline x then 1 else 0))
         (rs_offline s + (if isOffline x then 1 else 0))) m.
Proof.
  unfold regionStatsStep. cbv zeta.
  destruct (isOffline x), (isOnline x); cbn [rs_total rs_online rs_offline];
    rewrite ?Nat.add_0_r; reflexivity.
Qed.

Lemma computeRegionStats_snoc (ns : list PNode) (x : PNode) :
  computeRegionStats (ns ++ [x]) = regionStatsStep (computeRegionStats ns) x.
Proof. unfold computeRegionStats. rewrite foldl_snoc. reflexivity. Qed.

Lemma computeRegionStats_get (key : string) (roster : list PNode) :
  OMap.get key (computeRegionStats roster)
  = if decide (bucket key roster = []) then None
    else Some (statsOfBucket key roster).
Proof.
  induction roster as [|x ns IH] using rev_ind; [reflexivity |].
  rewrite computeRegionStats_snoc, regionStatsStep_set. cbv zeta.
  unfold statsOfBucket. rewrite bucket_snoc.
  destruct (decide (getRegionKey x = key)) as [<-|Hne].
  - rewrite OMapFacts.get_set_eq.
    destruct (decide (bucket (getRegionKey x) ns ++ [x] = [])) as [H|_];
      [apply app_eq_nil in H as [_ H]; discriminate |].
    f_equal. rewrite length_app, offlineCountOf_snoc, onlineCountOf_snoc, IH.
    cbn [length].
    destruct (decide (bucket (getRegionKey x) ns = [])) as [->|_]; reflexivity.
  - rewrite OMapFacts.get_set_ne by congruence. rewrite IH, app_nil_r.
    reflexivity.
Qed.

Lemma computeRegionStats_keys_NoDup (roster : list PNode) :
  NoDup (computeRegionStats roster).*1.
Proof.
  induction roster as [|x ns IH] using rev_ind; [apply NoDup_nil_2 |].
  rewrite computeRegionStats_snoc, regionStatsStep_set.
  apply OMapFacts.set_keys_NoDup, IH.
Qed.

Lemma count_split (ns : list PNode) :
  (onlineCountOf ns + offlineCountOf ns <= length ns)%nat.
Proof.
  unfold onlineCountOf, offlineCountOf, isOnline, isOffline.
  induction ns as [|n ns IH]; [simpl; lia |].
  rewrite !filter_cons. cbn [length].
  destruct (status n); repeat case_decide; cbn [length];
    try lia;
    repeat match goal with
           | H : bool_decide _ = true |- _ => apply bool_decide_eq_true in H
           | H : ~ bool_decide _ = true |- _ =>
               rewrite bool_decide_eq_true in H
           end; congruence.
Qed.

(** X7. [computeRegionStats] holds, for each bucket key that occurs in the
    roster, the number of entries of the bucket and how many of them are
    online and offline; a key without entries has no statistics; every key
    is listed once; online and offline never add up to more than the
    total. *)
Theorem region_stats_count_each_bucket (key : string) (roster : list PNode) :
  (bucket key roster = [] -> OMap.get key (computeRegionStats roster) = None)
  /\ (bucket key roster <> [] ->
      OMap.get key (computeRegionStats roster)
      = Some (mkRegionStats (length (bucket key roster))
                (onlineCountOf (bucket key roster))
                (offlineCountOf (bucket key roster))))
  /\ NoDup (computeRegionStats roster).*1
  /\ (forall rs, (key, rs) ∈ computeRegionStats roster ->
        (0 < rs_total rs /\ rs_online rs + rs_offline rs <= rs_total rs)%nat).
Proof.
  rewrite computeRegionStats_get.
  split; [intros H; rewrite decide_True by exact H; reflexivity |].
  split; [intros H; rewrite decide_False by exact H; reflexivity |].
  split; [apply computeRegionStats_keys_NoDup |].
  intros rs Hin.
  apply OMapFacts.elem_of_get in Hin; [| apply computeRegionStats_keys_NoDup].
  rewrite computeRegionStats_get in Hin.
  destruct (decide (bucket key roster = [])) as [|Hne]; [discriminate |].
  injection Hin as <-. unfold statsOfBucket. cbn [rs_total rs_online rs_offline].
  split; [| apply count_split].
  destruct (bucket key roster); [congruence | simpl; lia].
Qed.

Lemma sumOver_set (f : RegionStats -> nat) (k : string) (v : RegionStats)
    (m : OMap.t RegionStats) :
  (sumOver f (OMap.set k v m)
   + f (default (mkRegionStats 0 0 0) (OMap.get k m))
   = sumOver f m + f v
     + (if decide (OMap.get k m = None) then f (mkRegionStats 0 0 0) else 0))%nat.
Proof.
  induction m as [|[k' v'] m IH].
  - cbn [OMap.set OMap.get].
    destruct (decide (@None RegionStats = None)) as [_|H]; [| congruence].
    unfold sumOver. simpl. lia.
  - cbn [OMap.set OMap.get]. destruct (String.eqb k k') eqn:E.
    + destruct (decide (Some v' = None)) as [H|_]; [discriminate |].
      unfold sumOver. simpl. lia.
    + unfold sumOver in *. cbn [foldr snd].
      destruct (decide (OMap.get k m = None)); lia.
Qed.

Lemma sumOver_step (f : RegionStats -> nat) (d : PNode -> nat)
    (m : OMap.t RegionStats) (x : PNode) :
  f (mkRegionStats 0 0 0) = 0%nat ->
  (forall s, f (mkRegionStats (rs_total s + 1)
                  (rs_online s + (if isOnline x then 1 else 0))
                  (rs_offline s + (if isOffline x then 1 else 0)))
             = f s + d x)%nat ->
  sumOver f (regionStatsStep m x) = (sumOver f m + d x)%nat.
Proof.
  intros H0 Hstep. rewrite regionStatsStep_set. cbv zeta.
  pose proof (sumOver_set f (getRegionKey x)
                (mkRegionStats
                   (rs_total (default (mkRegionStats 0 0 0)
                                (OMap.get (getRegionKey x) m)) + 1)
                   (rs_online (default (mkRegionStats 0 0 0)
                                 (OMap.get (getRegionKey x) m))
                    + (if isOnline x then 1 else 0))
                   (rs_offline (default (mkRegionStats 0 0 0)
                                  (OMap.get (getRegionKey x) m))
                    + (if isOffline x then 1 else 0))) m) as Hset.
  rewrite Hstep, H0 in Hset.
  destruct (decide (OMap.get (getRegionKey x) m = None)); lia.
Qed.

(** X8. The statistics lose no node and count none twice: over all regions the
    totals add up to the roster size, the online counts to the number of
    online nodes and the offline counts to the number of offline nodes. *)
Theorem region_stats_add_up_to_roster (roster : list PNode) :
  sumOver rs_total (computeRegionStats roster) = length roster
  /\ sumOver rs_online (computeRegionStats roster) = onlineCountOf roster
  /\ sumOver rs_offline (computeRegionStats roster) = offlineCountOf roster.
Proof.
  induction roster as [|x ns (IHt & IHon & IHoff)] using rev_ind;
    [repeat split |].
  rewrite computeRegionStats_snoc.
  rewrite (sumOver_step rs_total (fun _ => 1%nat)),
          (sumOver_step rs_online (fun x => if isOnline x then 1 else 0)%nat),
          (sumOver_step rs_offline (fun x => if isOffline x then 1 else 0)%nat);
    try reflexivity.
  rewrite IHt, IHon, IHoff, length_app, onlineCountOf_snoc, offlineCountOf_snoc.
  repeat split.
Qed.

(** X9. The isolated regions of the failure detector can be read off the
    region statistics: a key is listed exactly when its statistics show at
    least five nodes and an offline share of at least 0.6. *)
Theorem isolated_regions_agree_with_region_stats
    (key : string) (roster : list PNode) :
  key ∈ isolatedRegionsOf roster
  <-> exists rs,
        OMap.get key (computeRegionStats roster) = Some rs
        /\ (5 <= rs_total rs)%nat
        /\ 0.6 <= inject_Z (Z.of_nat (rs_offline rs))
                  / inject_Z (Z.of_nat (rs_total rs)).
Proof.
  rewrite isolatedRegions_spec, computeRegionStats_get.
  unfold isolatedBucket, offlineRatio. split.
  - intros [H5 Hr]. exists (statsOfBucket key roster).
    rewrite decide_False; [auto |].
    intros Hnil. rewrite Hnil in H5. simpl in H5. lia.
  - intros (rs & Hget & H5 & Hr).
    destruct (decide (bucket key roster = [])); [discriminate |].
    injection Hget as <-. auto.
Qed.

(** ** Bucket keys *)

Lemma Qfloor_between (x : Q) (a : Z) :
  inject_Z a <= x -> x < inject_Z (a + 1) -> Qfloor x = a.
Proof.
  intros Hlo Hhi.
  pose proof (Qfloor_le x) as H1. pose proof (Qlt_floor x) as H2.
  assert (inject_Z (Qfloor x) < inject_Z (a + 1)) as H3 by lra.
  assert (inject_Z a < inject_Z (Qfloor x + 1)) as H4 by lra.
  rewrite <- Zlt_Qlt in H3, H4. lia.
Qed.













(* ===================================================================== *)
(** * Further properties of the failure detector                          *)
(* ===================================================================== *)

Lemma carries_sudden_drop (clock : nat -> Z) (snapshots : list PNodeSnapshot)
    (roster : list PNode) (id : string) :
  carries (anomaliesById (analyzeFailures clock snapshots roster)) id sudden_drop
  <-> roster <> []
      /\ exists prev, fromEnd 2 snapshots = Some prev
                      /\ droppedIn (indexById roster) (nodes prev) id.
Proof.
  destruct roster as [|x roster].
  - rewrite analyzeFailures_empty. simpl. split.
    + intros H. destruct (carries_empty _ _ H).
    + intros [H _]. congruence.
  - rewrite analyzeFailures_anomalies by discriminate.
    rewrite carries_tagNodes. split.
    + intros [[_ H] | [[? _] | [? _]]]; try discriminate.
      split; [discriminate | exact H].
    + intros [_ H]. left. auto.
Qed.

(** X12. The history only feeds the sudden-drop rule: the [isolated] and
    [black_hole] tags are the same whatever snapshots are handed in, and
    with fewer than two snapshots nothing is tagged [sudden_drop]. *)
Theorem history_only_feeds_sudden_drop
    (clock : nat -> Z) (snapshots snapshots' : list PNodeSnapshot)
    (roster : list PNode) (id : string) :
  (carries (anomaliesById (analyzeFailures clock snapshots roster)) id isolated
   <-> carries (anomaliesById (analyzeFailures clock snapshots' roster)) id isolated)
  /\ (carries (anomaliesById (analyzeFailures clock snapshots roster)) id black_hole
      <-> carries (anomaliesById (analyzeFailures clock snapshots' roster)) id
            black_hole)
  /\ ((length snapshots < 2)%nat ->
      ~ carries (anomaliesById (analyzeFailures clock snapshots roster)) id
          sudden_drop).
Proof.
  rewrite !carries_isolated, !carries_black_hole, carries_sudden_drop.
  split; [reflexivity |]. split; [reflexivity |].
  intros Hlen (_ & prev & Hprev & _).
  unfold fromEnd in Hprev.
  apply Nat.ltb_lt in Hlen. rewrite Hlen in Hprev. discriminate.
Qed.

(** X13. Only known nodes are tagged: [isolated] and [black_hole] go to ids of
    the current roster, [sudden_drop] to ids of the previous snapshot,
    whether or not the node is still in the roster. *)
Theorem only_known_nodes_are_tagged
    (clock : nat -> Z) (snapshots : list PNodeSnapshot) (roster : list PNode)
    (id : string) (tag : NodeAnomaly) :
  carries (anomaliesById (analyzeFailures clock snapshots roster)) id tag ->
  match tag with
  | sudden_drop =>
      exists prev, fromEnd 2 snapshots = Some prev /\ knownId (nodes prev) id
  | _ => knownId roster id
  end.
Proof.
  destruct tag.
  - intros (_ & prev & Hprev & p & Hp & Hid & _)%carries_sudden_drop.
    exists prev. split; [exact Hprev |]. exists p. auto.
  - intros (n & Hn & Hid & _)%carries_isolated. exists n. auto.
  - intros (j & n & Hj & Hid & _)%carries_black_hole.
    exists n. split; [| exact Hid]. eapply list_elem_of_lookup_2, Hj.
Qed.

Lemma only_known_nodes_are_tagged_witness :
  exists prev,
    fromEnd 2 [snapshotN; snapshotN1] = Some prev /\ knownId (nodes prev) "b".
Proof.
  apply (only_known_nodes_are_tagged (fixedClock 30000) [snapshotN; snapshotN1]
           (nodes snapshotN1) "b" sudden_drop).
  unfold carries. apply (bool_decide_unpack _). vm_compute. exact I.
Defined.

(** ** Shape of the tag lists *)

Lemma sublist_without_last {A} (l k : list A) (a : A) :
  l `sublist_of` k ++ [a] -> a ∉ l -> l `sublist_of` k.
Proof.
  intros (l1 & l2 & -> & H1 & H2)%sublist_app_r Hnotin.
  destruct l2 as [|b l2]; [rewrite app_nil_r; exact H1 |].
  exfalso. apply Hnotin. rewrite elem_of_app. right.
  apply sublist_cons_l in H2 as (k1 & k2 & Hk & _).
  destruct k1 as [|c [|? ?]]; simplify_eq/=. apply list_elem_of_here.
Qed.

Lemma tagsWithin_weaken (order : list NodeAnomaly) (a : NodeAnomaly)
    (m : gmap string (list NodeAnomaly)) :
  tagsWithin order m -> tagsWithin (order ++ [a]) m.
Proof.
  intros H id tags Hid. destruct (H id tags Hid) as [Hne Hsub].
  split; [exact Hne | apply sublist_inserts_r, Hsub].
Qed.

Lemma tagsWithin_pushTagOnce (order : list NodeAnomaly) (a : NodeAnomaly)
    (id : string) (m : gmap string (list NodeAnomaly)) :
  tagsWithin (order ++ [a]) m -> tagsWithin (order ++ [a]) (pushTagOnce a id m).
Proof.
  intros H. unfold pushTagOnce. case_bool_decide as Hin; [exact H |].
  unfold pushTag. intros id' tags.
  destruct (decide (id = id')) as [<-|Hne].
  - rewrite lookup_insert_eq. intros [= <-].
    split; [intros Hnil; apply app_eq_nil in Hnil as [_ Hnil]; discriminate |].
    apply sublist_app; [| reflexivity].
    destruct (m !! id) as [old|] eqn:Hold; simpl in *; [| apply sublist_nil_l].
    eapply sublist_without_last; [apply (H id old Hold) | exact Hin].
  - rewrite lookup_insert_ne by exact Hne. apply H.
Qed.

Lemma tagsWithin_isolate_pass (regs : list string) (ns : list PNode)
    (m : gmap string (list NodeAnomaly)) :
  tagsWithin [sudden_drop; isolated] m ->
  tagsWithin [sudden_drop; isolated] (foldl (isolateStep regs) m ns).
Proof.
  revert m. induction ns as [|n ns IH]; intros m Hm; [exact Hm |].
  simpl. apply IH. unfold isolateStep. case_bool_decide; [| exact Hm].
  apply (tagsWithin_pushTagOnce [sudden_drop]), Hm.
Qed.

Lemma tagsWithin_blackHole_pass (clock : nat -> Z) (ns : list PNode) :
  forall (i : nat) (m : gmap string (list NodeAnomaly)),
  tagsWithin tagOrder m -> tagsWithin tagOrder (blackHolePass clock i ns m).
Proof.
  induction ns as [|n ns IH]; intros i m Hm; [exact Hm |].
  simpl. apply IH. destruct (isBlackHole (clock i) n); [| exact Hm].
  apply (tagsWithin_pushTagOnce [sudden_drop; isolated]), Hm.
Qed.

Lemma tagsWithin_suddenDrop_pass (cur : gmap string PNode) (ps : list PNode)
    (m : gmap string (list NodeAnomaly)) :
  uniqueIds ps ->
  (forall p, p ∈ ps -> m !! pnodeId p = None) ->
  tagsWithin [sudden_drop] m ->
  tagsWithin [sudden_drop] (foldl (suddenDropStep cur) m ps).
Proof.
  unfold uniqueIds. revert m.
  induction ps as [|p ps IH]; intros m Hnd Hfresh Hm; [exact Hm |].
  rewrite fmap_cons in Hnd. apply NoDup_cons in Hnd as [Hp Hnd].
  simpl. apply IH; [exact Hnd | |].
  - intros q Hq. unfold suddenDropStep.
    assert (m !! pnodeId q = None) as Hmq
      by (apply Hfresh, list_elem_of_further, Hq).
    destruct (_ && _); [| exact Hmq].
    unfold pushTag. rewrite lookup_insert_ne; [exact Hmq |].
    intros Heq. apply Hp. rewrite Heq. apply list_elem_of_fmap. eauto.
  - unfold suddenDropStep. destruct (_ && _); [| exact Hm].
    unfold pushTag. rewrite (Hfresh p) by apply list_elem_of_here.
    intros id' tags. destruct (decide (pnodeId p = id')) as [<-|Hne].
    + rewrite lookup_insert_eq. intros [= <-].
      split; [discriminate | reflexivity].
    + rewrite lookup_insert_ne by exact Hne. apply Hm.
Qed.

(** X14. When the previous snapshot lists every node once, each tag list the
    detector stores is non-empty and a sub-sequence of sudden_drop,
    isolated, black_hole: no tag twice, always in that order. *)
Theorem tag_lists_are_ordered_and_distinct
    (clock : nat -> Z) (snapshots : list PNodeSnapshot) (roster : list PNode)
    (id : string) (tags : list NodeAnomaly) :
  (forall prev, fromEnd 2 snapshots = Some prev -> uniqueIds (nodes prev)) ->
  anomaliesById (analyzeFailures clock snapshots roster) !! id = Some tags ->
  tags <> [] /\ tags `sublist_of` tagOrder /\ NoDup tags.
Proof.
  intros Huniq Hid.
  assert (tagsWithin tagOrder
            (anomaliesById (analyzeFailures clock snapshots roster))) as Hall.
  { destruct roster as [|x roster].
    - rewrite analyzeFailures_empty. intros id' tags'. simpl.
      rewrite lookup_empty. discriminate.
    - rewrite analyzeFailures_anomalies by discriminate.
      unfold tagNodes. apply tagsWithin_blackHole_pass.
      apply (tagsWithin_weaken [sudden_drop; isolated]).
      assert (tagsWithin [sudden_drop]
                match fromEnd 2 snapshots, fromEnd 1 snapshots with
                | Some prev, Some _ =>
                    foldl (suddenDropStep (indexById (x :: roster))) ∅ (nodes prev)
                | _, _ => ∅
                end) as Hfirst.
      { assert (tagsWithin [sudden_drop] (∅ : gmap string (list NodeAnomaly)))
          as Hempty by (intros ? ?; rewrite lookup_empty; discriminate).
        destruct (fromEnd 2 snapshots) as [prev|]; [| exact Hempty].
        destruct (fromEnd 1 snapshots); [| exact Hempty].
        apply tagsWithin_suddenDrop_pass;
          [apply Huniq; reflexivity | | exact Hempty].
        intros q _. apply lookup_empty. }
      case_bool_decide.
      + apply (tagsWithin_weaken [sudden_drop]), Hfirst.
      + apply tagsWithin_isolate_pass.
        apply (tagsWithin_weaken [sudden_drop]), Hfirst. }
  destruct (Hall id tags Hid) as [Hne Hsub].
  split; [exact Hne |]. split; [exact Hsub |].
  eapply sublist_NoDup; [| exact Hsub].
  apply (bool_decide_unpack _). vm_compute. exact I.
Qed.

Lemma tag_lists_are_ordered_and_distinct_witness :
  anomaliesById
    (analyzeFailures (fixedClock 30000) [snapshotN; snapshotN1]
       (nodes snapshotN1)) !! "a"
  = Some [sudden_drop; black_hole]
  /\ [sudden_drop; black_hole] `sublist_of` tagOrder.
Proof.
  assert (anomaliesById
            (analyzeFailures (fixedClock 30000) [snapshotN; snapshotN1]
               (nodes snapshotN1)) !! "a"
          = Some [sudden_drop; black_hole]) as Hid
    by (vm_compute; reflexivity).
  split; [exact Hid |].
  apply (tag_lists_are_ordered_and_distinct (fixedClock 30000)
           [snapshotN; snapshotN1] (nodes snapshotN1) "a" _
           ltac:(intros prev [= <-]; apply (bool_decide_unpack _);
                 vm_compute; exact I) Hid).
Defined.

(** ** No false alarm *)

Lemma offlineCountOf_bucket (key : string) (roster : list PNode) :
  (offlineCountOf (bucket key roster) <= offlineCountOf roster)%nat.
Proof.
  unfold offlineCountOf, bucket.
  induction roster as [|n ns IH]; [reflexivity |].
  rewrite !filter_cons.
  destruct (decide (getRegionKey n = key));
    rewrite ?filter_cons; destruct (decide (isOffline n = true));
    cbn [length]; lia.
Qed.

Lemma offlineCountOf_pos (roster : list PNode) (n : PNode) :
  n ∈ roster -> status n = offline -> (0 < offlineCountOf roster)%nat.
Proof.
  intros Hn Hoff. unfold offlineCountOf.
  assert (n ∈ filter (fun n => isOffline n = true) roster) as Hin.
  { apply list_elem_of_filter. split; [| exact Hn].
    unfold isOffline. apply bool_decide_eq_true, Hoff. }
  destruct (filter _ roster); [inversion Hin | simpl; lia].
Qed.

Lemma no_offline_no_isolated_region (roster : list PNode) :
  offlineCountOf roster = 0%nat -> isolatedRegionsOf roster = [].
Proof.
  intros Hoff.
  destruct (isolatedRegionsOf roster) as [|key rest] eqn:E; [reflexivity |].
  assert (key ∈ isolatedRegionsOf roster) as Hkey
    by (rewrite E; apply list_elem_of_here).
  apply isolatedRegions_spec in Hkey as [H5 Hratio].
  pose proof (offlineCountOf_bucket key roster) as Hle.
  unfold offlineRatio in Hratio.
  replace (offlineCountOf (bucket key roster)) with 0%nat in Hratio by lia.
  exfalso. unfold Qdiv in Hratio.
  change (inject_Z (Z.of_nat 0)) with 0 in Hratio.
  rewrite Qmult_0_l in Hratio. apply Qle_bool_iff in Hratio. discriminate.
Qed.

(** X15. No false alarm: when no node of the roster is offline and every node
    that was online in the previous snapshot is still listed, nothing is
    tagged [sudden_drop] or [isolated] and no partition is suspected. *)
Theorem no_alarm_when_nobody_is_offline_or_gone
    (clock : nat -> Z) (snapshots : list PNodeSnapshot) (roster : list PNode) :
  offlineCountOf roster = 0%nat ->
  (forall prev id,
     fromEnd 2 snapshots = Some prev ->
     hasStatus (nodes prev) id online -> knownId roster id) ->
  partitionSuspected (analyzeFailures clock snapshots roster) = false
  /\ partitionReason (analyzeFailures clock snapshots roster) = None
  /\ forall id,
       ~ carries (anomaliesById (analyzeFailures clock snapshots roster)) id
           sudden_drop
       /\ ~ carries (anomaliesById (analyzeFailures clock snapshots roster)) id
             isolated.
Proof.
  intros Hoff Hstay.
  assert (forall id,
            ~ carries (anomaliesById (analyzeFailures clock snapshots roster))
                id sudden_drop) as Hnodrop.
  { intros id (_ & prev & Hprev & p & Hp & Hid & Hon & Hgone)%carries_sudden_drop.
    destruct (Hstay prev id Hprev) as (n & Hn & Hnid); [exists p; auto |].
    destruct Hgone as [Hnone | (n' & Hsome & Hn'off)].
    - apply indexById_None in Hnone. exact (Hnone n Hn Hnid).
    - apply indexById_Some in Hsome as [Hn' _].
      pose proof (offlineCountOf_pos roster n' Hn' Hn'off). lia. }
  pose proof (no_offline_no_isolated_region roster Hoff) as Hregions.
  assert (forall id,
            ~ carries (anomaliesById (analyzeFailures clock snapshots roster))
                id isolated) as Hnoiso.
  { intros id (n & _ & _ & Hiso)%carries_isolated.
    apply isolatedRegions_spec in Hiso. rewrite Hregions in Hiso.
    inversion Hiso. }
  assert (forall id,
            ~ carries (anomaliesById (analyzeFailures clock snapshots roster)) id
                sudden_drop
            /\ ~ carries (anomaliesById (analyzeFailures clock snapshots roster))
                  id isolated) as Htags by (intros id; split; auto).
  destruct roster as [|x roster]; [split; [reflexivity | split; auto] |].
  destruct (analyzeFailures_verdict clock snapshots (x :: roster)) as [Hs Hr];
    [discriminate |].
  rewrite analyzeFailures_anomalies in Hnodrop by discriminate.
  assert (partitionRules (tagNodes clock snapshots (x :: roster)) (x :: roster)
          = (false, None)) as Hrules.
  { unfold partitionRules. rewrite Hregions.
    rewrite bool_decide_eq_true_2 by reflexivity. cbn [negb].
    rewrite (filter_none (fun arr => sudden_drop ∈ arr)).
    - cbn [length Nat.ltb Nat.leb andb].
      unfold offlineCountOf in Hoff. rewrite Hoff. reflexivity.
    - apply Forall_forall. intros arr Harr Hin.
      apply list_elem_of_fmap in Harr as ([id arr'] & -> & Harr).
      apply elem_of_map_to_list in Harr.
      apply (Hnodrop id). unfold carries. rewrite Harr. exact Hin. }
  rewrite Hs, Hr, Hrules. split; [reflexivity |]. split; [reflexivity |].
  exact Htags.
Qed.

Lemma no_alarm_when_nobody_is_offline_or_gone_witness :
  partitionSuspected
    (analyzeFailures (fixedClock 30000) [bothOnlineBefore; snapshotN1] stillOnline)
  = false
  /\ partitionReason
       (analyzeFailures (fixedClock 30000) [bothOnlineBefore; snapshotN1]
          stillOnline) = None.
Proof.
  destruct (no_alarm_when_nobody_is_offline_or_gone (fixedClock 30000)
              [bothOnlineBefore; snapshotN1] stillOnline) as (Hs & Hr & _).
  - reflexivity.
  - intros prev id [= <-] (n & Hn & <- & _). simpl in Hn.
    rewrite !elem_of_cons, elem_of_nil in Hn.
    destruct Hn as [-> | [-> | []]]; eexists.
    + split; [apply list_elem_of_here | reflexivity].
    + split; [apply list_elem_of_further, list_elem_of_here | reflexivity].
  - split; assumption.
Defined.

(* ===================================================================== *)
(** * Further properties of the data hook                                 *)
(* ===================================================================== *)

Lemma sliceLast_absorbs {A} (n : nat) (l : list A) (x : A) :
  (0 < n)%nat -> sliceLast n (sliceLast n l ++ [x]) = sliceLast n (l ++ [x]).
Proof.
  intros Hn. unfold sliceLast.
  rewrite !length_app, length_drop. cbn [length].
  destruct (decide (length l <= n)%nat) as [Hshort|Hlong].
  - replace (length l - n)%nat with 0%nat by lia. rewrite drop_0.
    replace (length l - 0 + 1 - n)%nat with (length l + 1 - n)%nat by lia.
    reflexivity.
  - replace (length l - (length l - n) + 1 - n)%nat with 1%nat by lia.
    rewrite !drop_app_le by (rewrite ?length_drop; lia).
    rewrite drop_drop. f_equal. f_equal. lia.
Qed.

(** X16. Appending fetch by fetch with eviction keeps exactly the last 500
    fetches, in arrival order, each as the snapshot of its roster. *)
Theorem history_keeps_the_last_fetches (fetches : list (Z * list PNode)) :
  history fetches = sliceLast 500 (snapshotOf <$> fetches)
  /\ length (history fetches) = Nat.min 500 (length fetches).
Proof.
  assert (history fetches = sliceLast 500 (snapshotOf <$> fetches)) as H.
  { induction fetches as [|f fs IH] using rev_ind; [reflexivity |].
    rewrite history_snoc, IH, fmap_app. unfold appendSnapshot.
    change HISTORY_CAPACITY with 500%nat.
    apply (sliceLast_absorbs 500). lia. }
  split; [exact H |].
  rewrite H, sliceLast_length, length_fmap. reflexivity.
Qed.


Lemma runLoads_snoc (log10 : num -> num) (runs : list (Clocks * Fetched))
    (run : Clocks * Fetched) :
  runLoads log10 (runs ++ [run])
  = load log10 [] run.1 run.2 (runLoads log10 runs).
Proof. unfold runLoads. rewrite foldl_snoc. reflexivity. Qed.


(** X18. Mounted as [App] mounts it, the hook hands the detector the empty
    history on every load, so whatever is fetched no node is ever tagged
    [sudden_drop] (the test [anomalies.includes("sudden_drop")] of the
    explanation never succeeds), while the stored history does grow. *)
Theorem hook_never_reports_sudden_drop
    (log10 : num -> num) (runs : list (Clocks * Fetched)) (id : string) :
  bool_decide
    (sudden_drop
       ∈ default [] (anomaliesById (st_failures (runLoads log10 runs)) !! id))
  = false.
Proof.
  apply bool_decide_eq_false_2.
  change (~ carries (anomaliesById (st_failures (runLoads log10 runs))) id
              sudden_drop).
  induction runs as [|[ck fetched] runs IH] using rev_ind.
  - apply carries_empty.
  - rewrite runLoads_snoc. destruct fetched as [data|message]; cbn [load fst snd].
    + cbn [st_failures]. rewrite carries_sudden_drop.
      intros (_ & prev & Hprev & _). discriminate Hprev.
    + exact IH.
Qed.

Lemma scoreAll_snoc (log10 : num -> num) (clock : nat -> Z) (data : list PNode)
    (n : PNode) :
  scoreAll log10 clock (data ++ [n])
  = let h := computeNodeHealth log10 (clock (length data)) n in
    (<[pnodeId n := h]> (scoreAll log10 clock data).1,
     <[pnodeId n := computeReputation n h]> (scoreAll log10 clock data).2).
Proof.
  unfold scoreAll. rewrite imap_app, foldl_app. cbn [imap foldl fst snd].
  rewrite Nat.add_0_r. reflexivity.
Qed.

(** X19. After a load the health map and the reputation map have the same
    keys, the ids of the fetched roster; the two entries of an id come
    from one roster entry, the reputation computed from the very health
    result that is stored. *)
Theorem health_and_reputation_maps_agree
    (log10 : num -> num) (clock : nat -> Z) (data : list PNode) (id : string) :
  match (scoreAll log10 clock data).1 !! id,
        (scoreAll log10 clock data).2 !! id with
  | Some h, Some r =>
      exists i n, data !! i = Some n /\ pnodeId n = id
                  /\ h = computeNodeHealth log10 (clock i) n
                  /\ r = computeReputation n h
  | None, None => ~ knownId data id
  | _, _ => False
  end.
Proof.
  induction data as [|n data IH] using rev_ind.
  - unfold scoreAll. cbn. rewrite !lookup_empty.
    intros (n & Hn & _). inversion Hn.
  - rewrite scoreAll_snoc. cbv zeta. cbn [fst snd].
    destruct (decide (pnodeId n = id)) as [<-|Hne].
    + rewrite !lookup_insert_eq. exists (length data), n.
      rewrite lookup_app_r, Nat.sub_diag by lia. repeat split.
    + rewrite !lookup_insert_ne by exact Hne.
      destruct ((scoreAll log10 clock data).1 !! id) as [h|],
               ((scoreAll log10 clock data).2 !! id) as [r|]; try exact IH.
      * destruct IH as (i & n' & Hi & Hid & Hh & Hr).
        exists i, n'. rewrite lookup_app_l by (eapply lookup_lt_Some, Hi).
        auto.
      * intros (n' & Hn' & Hid). apply IH.
        apply elem_of_app in Hn' as [Hn' | Hn'%list_elem_of_singleton];
          [exists n'; auto | congruence].
Qed.

Lemma status_counts (ns : list PNode) :
  (length (withStatusOnly online ns) + length (withStatusOnly unknown ns)
   + length (withStatusOnly offline ns) = length ns
   /\ onlineCountOf ns = length (withStatusOnly online ns)
   /\ offlineCountOf ns = length (withStatusOnly offline ns))%nat.
Proof.
  unfold withStatusOnly, onlineCountOf, offlineCountOf, isOnline, isOffline.
  induction ns as [|n ns (IH1 & IH2 & IH3)]; [repeat split |].
  rewrite !filter_cons.
  destruct (status n) eqn:E; repeat case_decide; cbn [length];
    repeat match goal with
           | H : bool_decide _ = true |- _ => apply bool_decide_eq_true in H
           | H : ~ bool_decide _ = true |- _ =>
               rewrite bool_decide_eq_true in H
           end;
    try congruence; repeat split; lia.
Qed.

(** X20. The counter of unknown nodes, which the hook gets by subtraction, is
    the number of roster entries whose status is [unknown]; the three
    counters add up to the total. *)
Theorem stats_partition_the_roster (ns : list PNode) :
  stat_unknown (statsOf ns) = Z.of_nat (length (withStatusOnly unknown ns))
  /\ (stat_online (statsOf ns) + stat_unknown (statsOf ns)
      + stat_offline (statsOf ns) = stat_total (statsOf ns))%Z
  /\ stat_total (statsOf ns) = Z.of_nat (length ns).
Proof.
  destruct (status_counts ns) as (Hsum & Hon & Hoff).
  unfold statsOf. cbv zeta. cbn [stat_unknown stat_online stat_offline stat_total].
  fold (onlineCountOf ns). fold (offlineCountOf ns).
  rewrite Hon, Hoff. repeat split; lia.
Qed.

(* ===================================================================== *)
(** * Further properties of the App component                             *)
(* ===================================================================== *)

Lemma insertSorted_past {A} (cmp : A -> A -> Z) (x : A) (front rest : list A) :
  Forall (fun y => (0 < cmp x y)%Z) front ->
  insertSorted cmp x (front ++ rest) = front ++ insertSorted cmp x rest.
Proof.
  induction 1 as [|y front Hy _ IH]; [reflexivity |].
  cbn [app insertSorted]. apply Z.ltb_lt in Hy. rewrite Hy, IH. reflexivity.
Qed.

Lemma insertSorted_stop {A} (cmp : A -> A -> Z) (x : A) (rest : list A) :
  Forall (fun y => (cmp x y <= 0)%Z) rest ->
  insertSorted cmp x rest = x :: rest.
Proof.
  destruct 1 as [|y rest Hy _]; [reflexivity |].
  cbn [insertSorted]. apply Z.ltb_ge in Hy. rewrite Hy. reflexivity.
Qed.

Lemma withStatusOnly_all (s : PNodeStatus) (ns : list PNode) :
  Forall (fun n => status n = s) (withStatusOnly s ns).
Proof.
  apply Forall_forall. intros n Hn.
  apply list_elem_of_filter in Hn as [Hs _]. exact Hs.
Qed.

Lemma statusCompare_past (x : PNode) (s : PNodeStatus) (l : list PNode) :
  Forall (fun n => status n = s) l ->
  (status x = unknown /\ s = online) \/ (status x = offline /\ s <> offline) ->
  Forall (fun y => (0 < statusCompare x y)%Z) l.
Proof.
  intros Hall Hcase. eapply Forall_impl; [exact Hall |].
  intros y Hy. cbv beta in Hy. unfold statusCompare. rewrite Hy.
  destruct Hcase as [[-> ->] | [-> Hs]]; [reflexivity |].
  destruct s; try reflexivity; congruence.
Qed.

Lemma statusCompare_stop (x : PNode) (s : PNodeStatus) (l : list PNode) :
  Forall (fun n => status n = s) l ->
  status x = online \/ (status x = unknown /\ s <> online) \/ s = offline ->
  Forall (fun y => (statusCompare x y <= 0)%Z) l.
Proof.
  intros Hall Hcase. eapply Forall_impl; [exact Hall |].
  intros y Hy. cbv beta in Hy. unfold statusCompare. rewrite Hy.
  destruct (status x) eqn:Hx, s; try (vm_compute; discriminate);
    destruct Hcase as [? | [[? ?] | ?]]; congruence.
Qed.

(** X21. The node list shows the nodes that pass the reputation filter in three
    groups: all online nodes first, then the unknown ones, then the
    offline ones, each group in the order of the displayed roster. *)
Theorem node_list_groups_by_status
    (displayed : list PNode) (reputationById : gmap string ReputationDetails)
    (reputationFilter : option ReputationTier) :
  let shown :=
    filter (fun n => passesFilter reputationById reputationFilter n = true)
      displayed in
  orderedNodes displayed reputationById reputationFilter
  = withStatusOnly online shown ++ withStatusOnly unknown shown
    ++ withStatusOnly offline shown.
Proof.
  cbv zeta. unfold orderedNodes.
  generalize
    (filter (fun n => passesFilter reputationById reputationFilter n = true)
       displayed).
  intros l.
  induction l as [|x l IH]; [reflexivity |].
  unfold sortWith in *. cbn [foldr]. rewrite IH. clear IH.
  pose proof (withStatusOnly_all online l) as Hon.
  pose proof (withStatusOnly_all unknown l) as Hun.
  pose proof (withStatusOnly_all offline l) as Hoff.
  unfold withStatusOnly in *. rewrite !filter_cons.
  destruct (status x) eqn:Hx; repeat case_decide; try congruence.
  - apply insertSorted_stop. rewrite !Forall_app.
    repeat split; eapply statusCompare_stop; eauto.
  - rewrite insertSorted_past.
    + f_equal. apply insertSorted_stop. rewrite Forall_app.
      split; eapply statusCompare_stop; eauto.
    + eapply statusCompare_past; eauto.
  - rewrite !insertSorted_past.
    + f_equal. f_equal. apply insertSorted_stop.
      eapply statusCompare_stop; eauto.
    + eapply statusCompare_past; eauto.
    + eapply statusCompare_past; eauto.
Qed.

Lemma displayed_health_lookup (healthById : gmap string HealthDetails)
    (ns : list PNode) (id : string) (h : HealthDetails) :
  foldl
    (fun (m : gmap string HealthDetails) n =>
       match healthById !! pnodeId n with
       | Some h => <[pnodeId n := h]> m
       | None => m
       end)
    ∅ ns !! id = Some h
  <-> knownId ns id /\ healthById !! id = Some h.
Proof.
  induction ns as [|n ns IH] using rev_ind.
  - cbn [foldl]. rewrite lookup_empty. split; [discriminate |].
    intros [(n & Hn & _) _]. inversion Hn.
  - rewrite foldl_snoc.
    assert (knownId (ns ++ [n]) id <-> knownId ns id \/ pnodeId n = id) as Hknown.
    { unfold knownId. split.
      - intros (n' & Hn' & Hid).
        apply elem_of_app in Hn' as [Hn' | Hn'%list_elem_of_singleton];
          [left; eauto | right; congruence].
      - intros [(n' & Hn' & Hid) | Hid].
        + exists n'. split; [apply elem_of_app; left; exact Hn' | exact Hid].
        + exists n. split; [| exact Hid].
          apply elem_of_app. right. apply list_elem_of_here. }
    rewrite Hknown.
    destruct (decide (pnodeId n = id)) as [<-|Hne].
    + destruct (healthById !! pnodeId n) as [h'|] eqn:Hh.
      * rewrite lookup_insert_eq. tauto.
      * rewrite IH. split; [intros [_ ?] | intros [_ ?]]; congruence.
    + destruct (healthById !! pnodeId n) as [h'|] eqn:Hh.
      * rewrite lookup_insert_ne by exact Hne. rewrite IH. tauto.
      * rewrite IH. tauto.
Qed.

(** X22. In every time mode the health map handed to the view holds only
    entries of the live health map, unchanged; unless it is the live map
    itself, it holds exactly the displayed nodes that have a live entry. *)
Theorem displayed_health_comes_from_live_scores
    (now : Z) (timeMode : TimeMode) (timeIndex : Z)
    (snapshots : list PNodeSnapshot) (ns : list PNode)
    (healthById : gmap string HealthDetails) (view : TimeTravelView) :
  resolveTimeTravel now timeMode timeIndex snapshots ns healthById = Some view ->
  (forall id h, displayHealthById view !! id = Some h ->
                healthById !! id = Some h)
  /\ (displayHealthById view = healthById
      \/ forall id h, displayHealthById view !! id = Some h
                      <-> knownId (displayNodes view) id
                          /\ healthById !! id = Some h).
Proof.
  unfold resolveTimeTravel.
  destruct (bool_decide (timeMode = live) || bool_decide (snapshots = [])).
  { intros [= <-]. cbn. auto. }
  cbv zeta.
  destruct (if bool_decide (filter _ snapshots = []) then _ else _)
    as [windowSnapshots|]; [| discriminate].
  cbn [mbind option_bind].
  set (snap := nullish _ _).
  destruct snap as [s|].
  - intros [= <-]. cbn [displayHealthById displayNodes].
    destruct (bool_decide (size _ = 0%nat)); [auto |].
    split.
    + intros id h Hh. apply displayed_health_lookup in Hh as [_ Hh]. exact Hh.
    + right. intros id h. apply displayed_health_lookup.
  - rewrite bool_decide_eq_true_2 by apply map_size_empty.
    intros [= <-]. cbn. auto.
Qed.

(** X23. With a time mode selected and stored snapshots inside its window,
    nothing is synthesised: the slider ranges over exactly the stored
    snapshots of the window, in their order, and the view shows the roster
    of the snapshot at the slider index, brought back into range (an index
    past the end shows the newest, a negative one the oldest). *)
Theorem time_travel_replays_stored_snapshots
    (now : Z) (timeMode : TimeMode) (timeIndex : Z)
    (snapshots : list PNodeSnapshot) (ns : list PNode)
    (healthById : gmap string HealthDetails) :
  timeMode <> live ->
  filter (fun s => inWindow now timeMode s = true) snapshots <> [] ->
  let available := filter (fun s => inWindow now timeMode s = true) snapshots in
  exists view s,
    resolveTimeTravel now timeMode timeIndex snapshots ns healthById = Some view
    /\ isSyntheticHistory view = false
    /\ availableSnapshots view = available
    /\ available
         !! Z.to_nat (Z.min timeIndex (Z.of_nat (length available) - 1))
       = Some s
    /\ displayNodes view = nodes s.
Proof.
  intros Hmode Hwin available. unfold resolveTimeTravel.
  assert (snapshots <> []) as Hstore
    by (intros ->; apply Hwin; reflexivity).
  rewrite (bool_decide_eq_false_2 (timeMode = live)) by exact Hmode.
  rewrite (bool_decide_eq_false_2 (snapshots = [])) by exact Hstore.
  cbn [orb]. cbv zeta. fold available. fold available in Hwin.
  clearbody available.
  rewrite (bool_decide_eq_false_2 (available = [])) by exact Hwin.
  cbn [mbind option_bind].
  assert (0 < length available)%nat as Hlen
    by (destruct available; [congruence | cbn; lia]).
  apply Nat.ltb_lt in Hlen as Hlen'. rewrite Hlen'.
  set (k := Z.min timeIndex (Z.of_nat (length available) - 1)).
  assert (exists s, available !! Z.to_nat k = Some s) as [s Hs].
  { apply lookup_lt_is_Some. subst k. lia. }
  assert (nullish (elementAt available k) (elementAt available 0) = Some s)
    as Hsnap.
  { unfold elementAt. destruct (k <? 0)%Z eqn:Hk.
    - apply Z.ltb_lt in Hk. cbn [Z.ltb Z.compare].
      replace (Z.to_nat k) with 0%nat in Hs by lia.
      change (Z.to_nat 0) with 0%nat. rewrite Hs. reflexivity.
    - rewrite Hs. reflexivity. }
  rewrite Hsnap. eexists _, s. repeat split. exact Hs.
Qed.

Lemma time_travel_replays_stored_snapshots_witness :
  exists view s,
    resolveTimeTravel 1700000000000 window_1h 5 recentStore
      (nodes snapshotN1) ∅ = Some view
    /\ isSyntheticHistory view = false
    /\ availableSnapshots view
       = filter (fun s => inWindow 1700000000000 window_1h s = true) recentStore
    /\ filter (fun s => inWindow 1700000000000 window_1h s = true) recentStore
         !! Z.to_nat
              (Z.min 5
                 (Z.of_nat
                    (length
                       (filter
                          (fun s => inWindow 1700000000000 window_1h s = true)
                          recentStore)) - 1))
       = Some s
    /\ displayNodes view = nodes s.
Proof.
  apply (time_travel_replays_stored_snapshots 1700000000000 window_1h 5
           recentStore (nodes snapshotN1) ∅).
  - discriminate.
  - vm_compute. discriminate.
Defined.

Lemma displayed_health_comes_from_live_scores_witness :
  exists view,
    resolveTimeTravel 1700000000000 window_1h 5 recentStore
      (nodes snapshotN1) ∅ = Some view
    /\ (forall id h, displayHealthById view !! id = Some h ->
                     (∅ : gmap string HealthDetails) !! id = Some h).
Proof.
  eexists. split; [vm_compute; reflexivity |].
  eapply (displayed_health_comes_from_live_scores 1700000000000 window_1h 5
            recentStore (nodes snapshotN1) ∅).
  vm_compute. reflexivity.
Defined.

Lemma Qtrunc_between (a b : Z) (x : Q) :
  inject_Z a <= x <= inject_Z b -> (a <= Qtrunc x <= b)%Z.
Proof.
  intros [Ha Hb]. unfold Qtrunc. destruct (Qltb x 0).
  - split.
    + rewrite <- (Qceiling_Z a). apply Qceiling_resp_le, Ha.
    + rewrite <- (Qceiling_Z b). apply Qceiling_resp_le, Hb.
  - split.
    + rewrite <- (Qfloor_Z a). apply Qfloor_resp_le, Ha.
    + rewrite <- (Qfloor_Z b). apply Qfloor_resp_le, Hb.
Qed.

(** X24. A synthetic clone differs from the live node in its status and its
    [lastSeen] only, and its [lastSeen] is always a valid time within a
    fifth of the selected window of the node's own (or of the clock where
    the node has none that parses to a non-zero time). *)
Theorem synthetic_clone_stays_near_original
    (now : Z) (timeMode : TimeMode) (i idx : nat) (n m : PNode) :
  mutateNode now timeMode i idx n = Some m ->
  (exists t, lastSeen m = Some t
             /\ (Z.abs (t - baseLastSeenOf now n)
                 <= 200 * windowSec timeMode)%Z)
  /\ withLastSeen (lastSeen n) (withStatus (status n) m) = n.
Proof.
  unfold mutateNode. cbv zeta. fold (baseLastSeenOf now n).
  set (x := inject_Z (baseLastSeenOf now n) - _).
  unfold isoRoundTrip. destruct (_ && _); [| discriminate].
  cbn [mbind option_bind]. intros [= <-]. split.
  - exists (Qtrunc x). split; [reflexivity |].
    assert (inject_Z (baseLastSeenOf now n - 200 * windowSec timeMode) <= x
            <= inject_Z (baseLastSeenOf now n + 200 * windowSec timeMode))
      as Hx.
    { subst x. pose proof (jitterOf_range idx i) as [Hj0 Hj1].
      replace (baseLastSeenOf now n - 200 * windowSec timeMode)%Z
        with (baseLastSeenOf now n + -200 * windowSec timeMode)%Z by lia.
      rewrite !inject_Z_plus, !inject_Z_mult.
      change (inject_Z (-200)) with (-200). change (inject_Z 200) with 200.
      set (b := inject_Z (baseLastSeenOf now n)). clearbody b.
      destruct (windowSec_cases timeMode) as [-> | [-> | ->]];
        [change (inject_Z 3600) with 3600
        | change (inject_Z 86400) with 86400
        | change (inject_Z 604800) with 604800];
        split; lra. }
    apply Qtrunc_between in Hx. lia.
  - destruct n. reflexivity.
Qed.

Lemma synthetic_clone_stays_near_original_witness :
  exists m,
    mutateNode 1700000000000 window_1h 3 1
      (bareNode "b" (Fin 10) (Fin 20) unknown None) = Some m
    /\ (exists t, lastSeen m = Some t
                  /\ (Z.abs (t - baseLastSeenOf 1700000000000
                                   (bareNode "b" (Fin 10) (Fin 20) unknown None))
                      <= 200 * windowSec window_1h)%Z).
Proof.
  eexists. split; [vm_compute; reflexivity |].
  eapply (synthetic_clone_stays_near_original 1700000000000 window_1h 3 1
            (bareNode "b" (Fin 10) (Fin 20) unknown None)).
  vm_compute. reflexivity.
Defined.

Lemma clone_counts (ns ms : list PNode) :
  Forall2 cloneOf ns ms ->
  (length ms = length ns
   /\ onlineCountOf ms <= onlineCountOf ns
   /\ offlineCountOf ns <= offlineCountOf ms)%nat.
Proof.
  unfold onlineCountOf, offlineCountOf, isOnline, isOffline.
  induction 1 as [|n m ns ms [_ Hdecay] _ (IHlen & IHon & IHoff)];
    [repeat split; lia |].
  rewrite !filter_cons. unfold decaysTo in Hdecay.
  destruct (status n) eqn:Hn, (status m) eqn:Hm;
    try (destruct Hdecay as [? | [[? ?] | [? ?]]]; discriminate);
    repeat case_decide; cbn [length];
    repeat match goal with
           | H : bool_decide _ = true |- _ => apply bool_decide_eq_true in H
           | H : ~ bool_decide _ = true |- _ =>
               rewrite bool_decide_eq_true in H
           end;
    try congruence; repeat split; lia.
Qed.

(** X25. The synthetic history never shows a recovery: every synthetic snapshot
    lists as many nodes as the live roster, at most as many online and at
    least as many offline. *)
Theorem synthetic_history_never_shows_recovery
    (now : Z) (timeMode : TimeMode) (ns : list PNode) :
  datesInRange now ns ->
  exists snaps,
    synthesize now timeMode ns = Some snaps
    /\ forall s, s ∈ snaps ->
         (length (nodes s) = length ns
          /\ onlineCountOf (nodes s) <= onlineCountOf ns
          /\ offlineCountOf ns <= offlineCountOf (nodes s))%nat.
Proof.
  intros Hdates.
  destruct (synthesize_ok now timeMode ns Hdates) as (snaps & Hsnaps & _ & Hall).
  exists snaps. split; [exact Hsnaps |].
  intros s Hs. apply list_elem_of_lookup in Hs as [i Hi].
  destruct (Hall i s Hi) as (_ & _ & _ & Hclones).
  apply clone_counts, Hclones.
Qed.

Lemma synthetic_history_never_shows_recovery_witness :
  exists snaps,
    synthesize 1700000000000 window_1h liveRoster = Some snaps
    /\ forall s, s ∈ snaps ->
         (length (nodes s) = length liveRoster
          /\ onlineCountOf (nodes s) <= onlineCountOf liveRoster
          /\ offlineCountOf liveRoster <= offlineCountOf (nodes s))%nat.
Proof.
  apply (synthetic_history_never_shows_recovery 1700000000000 window_1h
           liveRoster).
  split; [vm_compute; discriminate |].
  repeat constructor; cbn; try exact I; vm_compute; discriminate.
Defined.

(* ===================================================================== *)
(** * Explanations                                                        *)
(* ===================================================================== *)

Lemma pushNew_fold (rs W : list string) :
  NoDup W ->
  NoDup (foldl pushNew W rs)
  /\ (forall x, x ∈ foldl pushNew W rs <-> x ∈ W \/ x ∈ rs)
  /\ exists extra, foldl pushNew W rs = W ++ extra.
Proof.
  revert W. induction rs as [|r rs IH]; intros W HW; cbn [foldl].
  - split; [exact HW |]. split.
    + intros x. rewrite elem_of_nil. tauto.
    + exists []. rewrite app_nil_r. reflexivity.
  - unfold pushNew at 2 4 6. case_bool_decide as Hr.
    + destruct (IH W HW) as (Hnd & Hin & Hext).
      split; [exact Hnd |]. split; [| exact Hext].
      intros x. rewrite Hin, elem_of_cons.
      split; [tauto | intros [? | [-> | ?]]; tauto].
    + assert (NoDup (W ++ [r])) as HW'.
      { apply NoDup_app. split; [exact HW |]. split; [| apply NoDup_singleton].
        intros x Hx Hx'. apply list_elem_of_singleton in Hx'. subst x. tauto. }
      destruct (IH (W ++ [r]) HW') as (Hnd & Hin & extra & Hext).
      split; [exact Hnd |]. split.
      * intros x. rewrite Hin, elem_of_app, list_elem_of_singleton, elem_of_cons.
        tauto.
      * exists (r :: extra). rewrite Hext, <- app_assoc. reflexivity.
Qed.

Lemma why_shape (s : PNodeStatus) (b1 b2 b3 c : bool) (rs : list string)
    (rep : option ReputationTier) :
  (forall r, r ∈ rs -> r ∈ healthReasonCatalogue) ->
  let why3 :=
    pushIf b3
      "Behaves like a gossip black hole: stale last seen, low peers, or low data availability."
      (pushIf b2 "Low gossip reach due to regional clustering or isolation."
         (pushIf b1
            "It recently dropped from gossip after being online (sudden peer drop)."
            [statusSentence s])) in
  let why5 :=
    match rep with
    | Some t => foldl pushNew why3 rs ++ [tierSentence t]
    | None => foldl pushNew why3 rs
    end in
  let why6 := pushIf c storageSentence why5 in
  head why6 = Some (statusSentence s)
  /\ NoDup why6
  /\ (forall r, r ∈ rs -> r ∈ why6)
  /\ (forall t, rep = Some t -> tierSentence t ∈ why6).
Proof.
  intros Hrs why3 why5 why6.
  assert (NoDup why3 /\ (forall x, x ∈ why3 -> x ∈ statusVocabulary)
          /\ exists tail, why3 = statusSentence s :: tail)
    as (Hnd3 & Hin3 & tail & Htail).
  { subst why3. destruct s, b1, b2, b3; cbn [pushIf app];
      (split; [apply (bool_decide_unpack _); vm_compute; exact I |]);
      (split; [| eexists; reflexivity]);
      intros x Hx; unfold statusVocabulary;
      repeat (apply elem_of_cons in Hx as [-> | Hx];
              [set_solver |]); inversion Hx. }
  destruct (pushNew_fold rs why3 Hnd3) as (Hnd4 & Hin4 & extra & Hext).
  set (why4 := foldl pushNew why3 rs) in *.
  assert (forall x, x ∈ why4 ->
                    x ∈ statusVocabulary ++ healthReasonCatalogue) as Hvoc4.
  { intros x Hx. apply Hin4 in Hx as [Hx | Hx]; apply elem_of_app; auto. }
  assert (forall t, tierSentence t
                    ∉ statusVocabulary ++ healthReasonCatalogue) as Htier
    by (intros []; apply (bool_decide_unpack _); vm_compute; exact I).
  assert (NoDup why5
          /\ (forall x, x ∈ why5 ->
                x ∈ statusVocabulary ++ healthReasonCatalogue
                \/ exists t, x = tierSentence t)
          /\ (forall x, x ∈ why4 -> x ∈ why5)
          /\ (forall t, rep = Some t -> tierSentence t ∈ why5)
          /\ exists tail', why5 = statusSentence s :: tail')
    as (Hnd5 & Hvoc5 & Hsub5 & Hrep5 & tail' & Htail').
  { subst why5. destruct rep as [t|].
    - split.
      { apply NoDup_app. split; [exact Hnd4 |].
        split; [| apply NoDup_singleton].
        intros x Hx Hx'. apply list_elem_of_singleton in Hx'. subst x.
        apply (Htier t), Hvoc4, Hx. }
      split.
      { intros x Hx.
        apply elem_of_app in Hx as [Hx | Hx%list_elem_of_singleton]; eauto. }
      split; [intros x Hx; apply elem_of_app; auto |].
      split.
      { intros t' [= <-]. apply elem_of_app. right. apply list_elem_of_here. }
      rewrite Hext, Htail. eexists. reflexivity.
    - split; [exact Hnd4 |]. split; [auto |]. split; [auto |].
      split; [discriminate |].
      rewrite Hext, Htail. eexists. reflexivity. }
  assert (storageSentence ∉ statusVocabulary ++ healthReasonCatalogue) as Hst1
    by (apply (bool_decide_unpack _); vm_compute; exact I).
  assert (forall t, storageSentence <> tierSentence t) as Hst2
    by (intros []; apply (bool_decide_unpack _); vm_compute; exact I).
  subst why6. destruct c; cbn [pushIf].
  - split; [rewrite Htail'; reflexivity |].
    split.
    { apply NoDup_app. split; [exact Hnd5 |].
      split; [| apply NoDup_singleton].
      intros x Hx Hx'. apply list_elem_of_singleton in Hx'. subst x.
      apply Hvoc5 in Hx as [Hx | [t Hx]]; [exact (Hst1 Hx) | exact (Hst2 t Hx)]. }
    split.
    { intros r Hr. apply elem_of_app. left. apply Hsub5, Hin4. auto. }
    intros t Ht. apply elem_of_app. left. apply Hrep5, Ht.
  - split; [rewrite Htail'; reflexivity |].
    split; [exact Hnd5 |].
    split; [intros r Hr; apply Hsub5, Hin4; auto | exact Hrep5].
Qed.

(** X26. An explanation opens with the sentence of the node's status, says
    nothing twice, and contains every reason of the health result and the
    sentence of the reputation tier, whenever the health reasons come from
    the health scorer's catalogue (as the scorer's always do). *)
Theorem explanation_says_each_thing_once
    (clock : nat -> Z) (node : PNode) (health : option HealthDetails)
    (reputation : option ReputationDetails) (failures : FailureAnalysis)
    (snapshots : list PNodeSnapshot) (allNodes : list PNode) :
  (forall h, health = Some h ->
             reasons h `sublist_of` healthReasonCatalogue) ->
  let e := buildNodeExplainability clock node health reputation failures
             snapshots allNodes in
  head (why e) = Some (statusSentence (status node))
  /\ NoDup (why e)
  /\ (forall h r, health = Some h -> r ∈ reasons h -> r ∈ why e)
  /\ (forall rep, reputation = Some rep -> tierSentence (rep_tier rep) ∈ why e).
Proof.
  intros Hcat e. subst e. unfold buildNodeExplainability. cbv zeta. cbn [why].
  set (b1 := bool_decide (sudden_drop ∈ _)).
  set (b2 := bool_decide (isolated ∈ _)).
  set (b3 := bool_decide (black_hole ∈ _)).
  set (c := (_ && _)).
  pose proof (why_shape (status node) b1 b2 b3 c
                (match health with Some h => reasons h | None => [] end)
                (rep_tier <$> reputation)) as Hshape.
  cbv zeta in Hshape.
  assert (forall r,
            r ∈ match health with Some h => reasons h | None => [] end ->
            r ∈ healthReasonCatalogue) as Hrs.
  { destruct health as [h|]; intros r Hr; [| inversion Hr].
    eapply elem_of_sublist; [exact Hr | apply (Hcat h eq_refl)]. }
  destruct (Hshape Hrs) as (Hhead & Hnd & Hall & Hrep). clear Hshape.
  destruct health as [h|], reputation as [rep|];
    cbn [fmap option_fmap option_map foldl] in *;
    (split; [exact Hhead |]); (split; [exact Hnd |]); split;
    try (intros ? ? [= <-]; apply Hall);
    try (intros ? [= <-]; apply Hrep; reflexivity);
    try discriminate.
Qed.

Lemma explanation_says_each_thing_once_witness :
  NoDup
    (why
       (buildNodeExplainability (fixedClock 1700000000000)
          (staleOfflineNode 1700000000000)
          (Some (computeNodeHealth log10_table 1700000000000
                   (staleOfflineNode 1700000000000)))
          (Some (mkReputation (Fin 0.3) risky))
          (analyzeFailures (fixedClock 1700000000000) []
             [staleOfflineNode 1700000000000])
          [] [staleOfflineNode 1700000000000])).
Proof.
  apply (explanation_says_each_thing_once (fixedClock 1700000000000)
           (staleOfflineNode 1700000000000)
           (Some (computeNodeHealth log10_table 1700000000000
                    (staleOfflineNode 1700000000000)))
           (Some (mkReputation (Fin 0.3) risky))
           (analyzeFailures (fixedClock 1700000000000) []
              [staleOfflineNode 1700000000000])
           [] [staleOfflineNode 1700000000000]).
  intros h [= <-]. apply isSubsequence_sound. vm_compute. reflexivity.
Defined.

(** ** Predictions *)


Lemma drift_predicted (c1 c2 c3 : bool) :
  driftPrediction
    ∈ predictIf c3 storagePrediction
        (predictIf c2 uptimePrediction (predictIf c1 driftPrediction []))
  <-> c1 = true.
Proof.
  destruct c1, c2, c3; cbn [predictIf app];
    (split; [try reflexivity | try discriminate]);
    try (intros _; apply list_elem_of_here);
    intros Hin; exfalso; revert Hin;
    apply (bool_decide_unpack _); vm_compute; exact I.
Qed.



Lemma sliceLast_three {A} (pre : list A) (x y z : A) :
  sliceLast 3 (pre ++ [x; y; z]) = [x; y; z].
Proof.
  unfold sliceLast. rewrite length_app. cbn [length].
  replace (length pre + 3 - 3)%nat with (length pre + 0)%nat by lia.
  rewrite drop_app_add. reflexivity.
Qed.

Lemma predictions_of_three (clock : nat -> Z) (node : PNode)
    (health : option HealthDetails) (reputation : option ReputationDetails)
    (failures : FailureAnalysis) (snapshots : list PNodeSnapshot)
    (allNodes : list PNode) (pre : list PNode) (a b c : PNode) :
  nodeSnapshotsOf node snapshots = pre ++ [a; b; c] ->
  driftPrediction
    ∈ predictions
        (buildNodeExplainability clock node health reputation failures
           snapshots allNodes)
  <-> (ageSecOf (clock (length pre + 2)%nat) c
       >? ageSecOf (clock (length pre)) a * Fin 1.4)%num = true.
Proof.
  intros Hsnaps. unfold buildNodeExplainability. cbv zeta. cbn [predictions].
  rewrite Hsnaps, imap_app, length_app, length_imap. cbn [imap length].
  rewrite sliceLast_three. cbn [length lookup list_lookup Nat.sub].
  replace (3 <=? length pre + 3)%nat with true
    by (symmetry; apply Nat.leb_le; lia).
  rewrite Nat.add_0_r. apply drift_predicted.
Qed.

(** X28. With the node in at least three of the last 20 snapshots, the drift
    prediction compares its latest entry with the third latest alone, the
    one between them is not read.  An unparseable [lastSeen] in the third
    latest entry rules the prediction out; one in the latest entry, after
    a parseable one, forces it; and for an unchanged [lastSeen] read
    against one clock value, the prediction is made exactly when that
    [lastSeen] lies in the future. *)
Theorem drift_prediction_edges
    (clock : nat -> Z) (node : PNode) (health : option HealthDetails)
    (reputation : option ReputationDetails) (failures : FailureAnalysis)
    (snapshots : list PNodeSnapshot) (allNodes : list PNode)
    (pre : list PNode) (a b c : PNode) :
  nodeSnapshotsOf node snapshots = pre ++ [a; b; c] ->
  let e := buildNodeExplainability clock node health reputation failures
             snapshots allNodes in
  (lastSeen a = None -> driftPrediction ∉ predictions e)
  /\ (lastSeen a <> None -> lastSeen c = None ->
      driftPrediction ∈ predictions e)
  /\ (forall ts, lastSeen a = Some ts -> lastSeen c = Some ts ->
        clock (length pre + 2)%nat = clock (length pre) ->
        (driftPrediction ∈ predictions e <-> (clock (length pre) < ts)%Z)).
Proof.
  intros Hsnaps e. subst e.
  pose proof (predictions_of_three clock node health reputation failures
                snapshots allNodes pre a b c Hsnaps) as Hiff.
  split; [| split].
  - intros Ha. rewrite Hiff. unfold ageSecOf. rewrite Ha.
    destruct (lastSeen c); cbn; discriminate.
  - intros Ha Hc. rewrite Hiff. unfold ageSecOf. rewrite Hc.
    destruct (lastSeen a) as [ts|]; [| congruence]. reflexivity.
  - intros ts Ha Hc Hclock. rewrite Hiff. unfold ageSecOf.
    rewrite Ha, Hc, Hclock.
    set (q := inject_Z (clock (length pre) - ts)).
    assert ((Fin q / Fin 1000)%num = Fin (q / 1000)) as -> by reflexivity.
    cbn [nmul ngt nlt].
    assert (q < 0 <-> (clock (length pre) < ts)%Z) as <-.
    { subst q. change 0 with (inject_Z 0). rewrite <- Zlt_Qlt. lia. }
    assert (q / 1000 == q * (1 # 1000)) as Hdiv by (field; discriminate).
    split.
    + intros H. apply Qltb_true in H. rewrite Hdiv in H. lra.
    + intros H. apply Qltb_true. rewrite Hdiv. lra.
Qed.

Lemma drift_prediction_edges_witness :
  driftPrediction
    ∈ predictions
        (buildNodeExplainability (fixedClock 4000)
           (bareNode "a" (Fin 10) (Fin 20) online None) None None
           (mkFailureAnalysis ∅ false None) fadingStore []).
Proof.
  refine (proj1 (proj2
            (drift_prediction_edges (fixedClock 4000)
               (bareNode "a" (Fin 10) (Fin 20) online None) None None
               (mkFailureAnalysis ∅ false None) fadingStore [] []
               (bareNode "a" (Fin 10) (Fin 20) online (Some 900%Z))
               (bareNode "a" (Fin 10) (Fin 20) online (Some 1900%Z))
               (bareNode "a" (Fin 10) (Fin 20) online None) _)) _ _).
  - vm_compute. reflexivity.
  - discriminate.
  - reflexivity.
Defined.

(* ===================================================================== *)
(** * The statistics panel                                                *)
(* ===================================================================== *)

(** X29. The online percentage the panel shows for the hook's counters is a
    whole number between 0 and 100: 0 for the empty roster, 100 when
    every node is online. *)
Theorem online_percentage_is_a_percentage (ns : list PNode) :
  exists p : Z,
    onlinePct (Fin (inject_Z (stat_total (statsOf ns))))
      (Fin (inject_Z (stat_online (statsOf ns))))
    = Fin (inject_Z p)
    /\ (0 <= p <= 100)%Z
    /\ (ns = [] -> p = 0%Z)
    /\ (ns <> [] -> Forall (fun n => status n = online) ns -> p = 100%Z).
Proof.
  destruct (status_counts ns) as (Hsum & Hon & _).
  unfold statsOf. cbv zeta. cbn [stat_total stat_online].
  fold (onlineCountOf ns). rewrite Hon.
  set (k := length (withStatusOnly online ns)) in *.
  assert (k <= length ns)%nat as Hk by lia.
  assert (Forall (fun n => status n = online) ns -> k = length ns) as Hall.
  { intros Hns. subst k. unfold withStatusOnly. f_equal.
    clear -Hns. induction Hns as [|n ns Hn _ IH]; [reflexivity |].
    rewrite filter_cons. case_decide; [f_equal; exact IH | contradiction]. }
  clearbody k. clear Hsum Hon.
  unfold onlinePct. cbn [truthy].
  destruct (Qeq_bool (inject_Z (Z.of_nat (length ns))) 0) eqn:Hzero; cbn [negb].
  - apply Qeq_bool_iff in Hzero. unfold Qeq in Hzero.
    cbn [inject_Z Qnum Qden] in Hzero.
    exists 0%Z. split; [reflexivity |]. split; [lia |]. split; [reflexivity |].
    intros Hne. destruct ns; [congruence | cbn [length] in Hzero; lia].
  - apply Qeq_bool_neq in Hzero.
    assert (0 < inject_Z (Z.of_nat (length ns))) as Hpos.
    { change 0 with (inject_Z 0). rewrite <- Zlt_Qlt.
      destruct (decide (Z.of_nat (length ns) = 0)%Z) as [E|]; [| lia].
      rewrite E in Hzero. exfalso. apply Hzero. reflexivity. }
    cbn [ndiv]. destruct (Qeq_bool _ 0) eqn:Hzero'.
    { apply Qeq_bool_iff in Hzero'. contradiction. }
    cbn [nmul round].
    set (x := inject_Z (Z.of_nat k) / inject_Z (Z.of_nat (length ns)) * 100).
    assert (0 <= inject_Z (Z.of_nat k) / inject_Z (Z.of_nat (length ns)) <= 1)
      as [Hlo Hhi].
    { split.
      - apply Qle_shift_div_l; [exact Hpos |]. rewrite Qmult_0_l.
        change 0 with (inject_Z 0). rewrite <- Zle_Qle. lia.
      - apply Qle_shift_div_r; [exact Hpos |]. rewrite Qmult_1_l.
        rewrite <- Zle_Qle. lia. }
    exists (Qfloor (x + (1 # 2))). split; [reflexivity |].
    split; [| split].
    + split.
      * change 0%Z with (Qfloor 0). apply Qfloor_resp_le. subst x. nra.
      * change 100%Z with (Qfloor (201 # 2)). apply Qfloor_resp_le.
        subst x. nra.
    + intros ->. cbn in Hpos. inversion Hpos.
    + intros _ Hns. subst x. rewrite (Hall Hns).
      set (a := inject_Z (Z.of_nat (length ns))) in *.
      assert (a / a == 1) as Hone
        by (unfold Qdiv; apply Qmult_inv_r; intros E; rewrite E in Hpos;
            inversion Hpos).
      apply Qfloor_between; rewrite Hone;
        [change (inject_Z 100) with 100
        | change (inject_Z (100 + 1)) with 101]; lra.
Qed.

Lemma insertSorted_perm {A} (cmp : A -> A -> Z) (x : A) (l : list A) :
  insertSorted cmp x l ≡ₚ x :: l.
Proof.
  induction l as [|y l IH]; [reflexivity |].
  cbn [insertSorted]. destruct (0 <? cmp x y)%Z; [| reflexivity].
  rewrite IH. apply Permutation_swap.
Qed.

Lemma sortWith_perm {A} (cmp : A -> A -> Z) (l : list A) :
  sortWith cmp l ≡ₚ l.
Proof.
  induction l as [|x l IH]; [reflexivity |].
  unfold sortWith in *. cbn [foldr]. rewrite insertSorted_perm, IH.
  reflexivity.
Qed.

Lemma insertSorted_byTotalDesc (x : string * RegionStats)
    (l : list (string * RegionStats)) :
  StronglySorted (fun a b => (rs_total b.2 <= rs_total a.2)%nat) l ->
  StronglySorted (fun a b => (rs_total b.2 <= rs_total a.2)%nat)
    (insertSorted byTotalDesc x l).
Proof.
  induction 1 as [|y l Hsorted IH Hy].
  - cbn. constructor; constructor.
  - cbn [insertSorted]. unfold byTotalDesc at 1.
    destruct (0 <? _)%Z eqn:Hcmp.
    + apply Z.ltb_lt in Hcmp. constructor; [exact IH |].
      rewrite insertSorted_perm. constructor; [lia | exact Hy].
    + apply Z.ltb_ge in Hcmp. constructor; [constructor; assumption |].
      constructor; [lia |].
      eapply Forall_impl; [exact Hy |]. cbv beta. intros z Hz. lia.
Qed.

Lemma sortWith_byTotalDesc (l : list (string * RegionStats)) :
  StronglySorted (fun a b => (rs_total b.2 <= rs_total a.2)%nat)
    (sortWith byTotalDesc l).
Proof.
  induction l as [|x l IH]; [constructor |].
  unfold sortWith in *. cbn [foldr]. apply insertSorted_byTotalDesc, IH.
Qed.

Lemma StronglySorted_split {A} (R : A -> A -> Prop) (l1 l2 : list A) :
  StronglySorted R (l1 ++ l2) ->
  StronglySorted R l1 /\ forall a b, a ∈ l1 -> b ∈ l2 -> R a b.
Proof.
  induction l1 as [|x l1 IH]; cbn [app]; intros Hsorted.
  - split; [constructor | intros a b Ha; inversion Ha].
  - inversion Hsorted as [|? ? Htail Hx]; subst.
    destruct (IH Htail) as [IH1 IH2].
    rewrite Forall_app in Hx. destruct Hx as [Hx1 Hx2].
    split; [constructor; assumption |].
    intros a b Ha Hb. apply elem_of_cons in Ha as [-> | Ha]; [| auto].
    rewrite Forall_forall in Hx2. apply Hx2, Hb.
Qed.

(** X30. The panel lists the three regions with the most nodes (all of them
    when there are fewer), largest first: no region left out has more
    nodes than a listed one; without region statistics it lists none. *)
Theorem top_regions_are_the_largest (m : OMap.t RegionStats) :
  topRegions None = []
  /\ exists rest,
       topRegions (Some m) ++ rest ≡ₚ m
       /\ length (topRegions (Some m)) = Nat.min 3 (length m)
       /\ StronglySorted (fun a b => (rs_total b.2 <= rs_total a.2)%nat)
            (topRegions (Some m))
       /\ forall a b, a ∈ topRegions (Some m) -> b ∈ rest ->
                      (rs_total b.2 <= rs_total a.2)%nat.
Proof.
  split; [reflexivity |]. cbn [topRegions].
  exists (drop 3 (sortWith byTotalDesc m)).
  pose proof (sortWith_byTotalDesc m) as Hsorted.
  rewrite <- (take_drop 3 (sortWith byTotalDesc m)) in Hsorted.
  apply StronglySorted_split in Hsorted as [Htop Hrest].
  split; [rewrite take_drop; apply sortWith_perm |].
  split; [| split; assumption].
  rewrite length_take, (Permutation_length (sortWith_perm byTotalDesc m)).
  reflexivity.
Qed.
